(** * Smart Hospital System: the detection-and-confirmation engine

    A shallow embedding of [data_filtering.py]: the scalar Kalman filter,
    the training of the Isolation Forest wrapper, one detection pass
    ([run_detection]) and the main loop, together with the properties of
    the engine that its specification states.

    Numbers.  The source computes with 1x1 numpy arrays of IEEE doubles.
    They are embedded as exact rationals ([Q]): a 1x1 matrix product is a
    product, a transpose is the identity, [np.linalg.inv] is the
    reciprocal and raises on a singular (zero) matrix.  Rounding is
    outside that model; module [Binary64] gives the same filter on IEEE
    doubles, for the properties that rounding decides. *)

From Stdlib Require Import QArith Qabs Lqa ZArith Lia List String Bool Floats.
From stdpp Require Import gmap strings list.
Import ListNotations.

#[local] Set Warnings "-inexact-float".
Local Open Scope Q_scope.

(** ** Comparisons on rationals, as booleans *)

Definition Qltb (a b : Q) : bool := negb (Qle_bool b a).

(** ** Exceptions of the Python program *)

Inductive Exn : Type :=
| IndexError
| TypeError
| AttributeError
| KeyError
| FileNotFoundError
| LinAlgError
| DatabaseError
| MqttError.

(** ** 1D Kalman filter (class [KalmanFilter]) *)

Record KalmanFilter : Type := mkKalmanFilter
  { kf_F : Q;    (* state transition *)
    kf_H : Q;    (* observation *)
    kf_Q : Q;    (* process noise *)
    kf_R : Q;    (* measurement noise *)
    kf_P : Q;    (* estimate covariance *)
    kf_x : Q     (* state estimate *) }.

(** [predict]: x = F x ; P = (F P) F^T + Q. *)
Definition predict (kf : KalmanFilter) : KalmanFilter :=
  {| kf_F := kf_F kf; kf_H := kf_H kf; kf_Q := kf_Q kf; kf_R := kf_R kf;
     kf_P := (kf_F kf * kf_P kf) * kf_F kf + kf_Q kf;
     kf_x := kf_F kf * kf_x kf |}.

(** [np.linalg.inv] on a 1x1 matrix: raises [LinAlgError] when singular. *)
Definition inv (S : Q) : option Q :=
  if Qeq_bool S 0 then None else Some (/ S).

(** Innovation covariance S = H (P H^T) + R. *)
Definition innovation_covariance (kf : KalmanFilter) : Q :=
  kf_H kf * (kf_P kf * kf_H kf) + kf_R kf.

(** Gain K = (P H^T) S^-1; [None] when the inversion raises. *)
Definition gain (kf : KalmanFilter) : option Q :=
  match inv (innovation_covariance kf) with
  | None => None
  | Some Sinv => Some ((kf_P kf * kf_H kf) * Sinv)
  end.

(** [update z]: y = z - H x ; x = x + K y ; P = (I - K H) P.
    The inversion comes first, so a singular S leaves the filter as it was. *)
Definition update (kf : KalmanFilter) (z : Q) : option KalmanFilter :=
  match gain kf with
  | None => None
  | Some K =>
      let y := z - kf_H kf * kf_x kf in
      Some {| kf_F := kf_F kf; kf_H := kf_H kf; kf_Q := kf_Q kf; kf_R := kf_R kf;
              kf_P := (1 - K * kf_H kf) * kf_P kf;
              kf_x := kf_x kf + K * y |}
  end.

Definition initialize_kalman_filter (sensor_type feature : string) : KalmanFilter :=
  let x0 :=
    if String.eqb sensor_type "sound" then
      if String.eqb feature "rms" then 0.008
      else if String.eqb feature "zcr" then 0.010
      else 0
    else if String.eqb sensor_type "light" && String.eqb feature "light_level" then 12
    else 0 in
  {| kf_F := 1; kf_H := 1; kf_Q := 0.05; kf_R := 0.1; kf_P := 1; kf_x := x0 |}.

(** [residual = abs(kf_list[i].x[0][0] - val)], read off the filter after
    its update. *)
Definition residual (kf : KalmanFilter) (val : Q) : Q := Qabs (kf_x kf - val).

(** Lines 270-272 of the pass for one filter object: predict, update, then
    the residual.  When [update] raises, the filter stays as [predict] left
    it and there is no residual.  (In exact arithmetic;
    [Binary64.kalman_feature] is the same on doubles.) *)
Definition kalman_feature (kf : KalmanFilter) (val : Q) : KalmanFilter * option Q :=
  let kf1 := predict kf in
  match update kf1 val with
  | None => (kf1, None)
  | Some kf2 => (kf2, Some (residual kf2 val))
  end.

(** A call made on an estimator object. *)
Inductive KalmanOp : Type :=
| OpPredict
| OpUpdate (z : Q).

Definition apply_op (kf : KalmanFilter) (op : KalmanOp) : option KalmanFilter :=
  match op with
  | OpPredict => Some (predict kf)
  | OpUpdate z => update kf z
  end.

Fixpoint apply_ops (kf : KalmanFilter) (ops : list KalmanOp) : option KalmanFilter :=
  match ops with
  | [] => Some kf
  | op :: rest =>
      match apply_op kf op with
      | None => None
      | Some kf' => apply_ops kf' rest
      end
  end.

(** [n] predict-then-update cycles on the same measurement (in exact
    arithmetic; [Binary64.cycles] is the same on doubles). *)
Fixpoint cycles (n : nat) (kf : KalmanFilter) (z : Q) : option KalmanFilter :=
  match n with
  | O => Some kf
  | S m =>
      match cycles m kf z with
      | None => None
      | Some kf' => update (predict kf') z
      end
  end.

(** The filter runs with the parameters of [initialize_kalman_filter]. *)
Definition configured (kf : KalmanFilter) : Prop :=
  kf_F kf = 1 /\ kf_H kf = 1 /\ kf_Q kf = 0.05 /\ kf_R kf = 0.1.

(** ** Tables of the database *)

(** A row of the readings table; a feature cell may be NULL. *)
Record Reading : Type := mkReading
  { r_id : Z;
    r_patient_id : Z;
    r_light_level : option Q;
    r_rms : option Q;
    r_zcr : option Q;
    r_db : option Q;
    r_timestamp : Z }.

(** The cell of a named feature column; [None] for a column the table
    does not have (the query is then rejected). *)
Definition reading_column (name : string) (r : Reading) : option (option Q) :=
  if String.eqb name "light_level" then Some (r_light_level r)
  else if String.eqb name "rms" then Some (r_rms r)
  else if String.eqb name "zcr" then Some (r_zcr r)
  else if String.eqb name "db" then Some (r_db r)
  else None.

(** A row of the table [anomalies]. *)
Record AnomalyRecord : Type := mkAnomaly
  { a_patient_id : Z;
    a_sensor_type : string;
    a_db : option Q;
    a_rms : option Q;
    a_zcr : option Q;
    a_detection_method : string;
    a_timestamp : Z }.

(** The row a reading query returns: id, patient_id, the selected cells,
    timestamp. *)
Definition Row : Type := Z * Z * list (option Q) * Z.

(** ORDER BY timestamp DESC LIMIT 1 (the first of the rows with the greatest
    timestamp). *)
Fixpoint latest (rows : list Reading) : option Reading :=
  match rows with
  | [] => None
  | r :: rest =>
      match latest rest with
      | None => Some r
      | Some r' => if (r_timestamp r <? r_timestamp r')%Z then Some r' else Some r
      end
  end.

Definition not_null (c : string) (r : Reading) : bool :=
  match reading_column c r with
  | Some (Some _) => true
  | _ => false
  end.

Fixpoint cells (columns : list string) (r : Reading) : option (list (option Q)) :=
  match columns with
  | [] => Some []
  | c :: rest =>
      match reading_column c r, cells rest r with
      | Some v, Some vs => Some (v :: vs)
      | _, _ => None
      end
  end.

Definition known_column (c : string) : bool :=
  String.eqb c "light_level" || String.eqb c "rms" || String.eqb c "zcr" || String.eqb c "db".

(** SELECT id, patient_id, columns, timestamp FROM table
    WHERE columns[0] IS NOT NULL ORDER BY timestamp DESC LIMIT 1,
    on the rows of the table; [None] when the database rejects the query. *)
Definition select_latest (columns : list string) (rows : list Reading) : option (option Row) :=
  match columns with
  | [] => None
  | c0 :: _ =>
      if forallb known_column columns then
        match latest (List.filter (not_null c0) rows) with
        | None => Some None
        | Some r =>
            match cells columns r with
            | Some vs => Some (Some (r_id r, r_patient_id r, vs, r_timestamp r))
            | None => None
            end
        end
      else None
  end.

(** SELECT COUNT( * ) FROM anomalies WHERE timestamp = %s AND sensor_type = %s. *)
Definition same_reading (timestamp : Z) (sensor_type : string) (a : AnomalyRecord) : bool :=
  (a_timestamp a =? timestamp)%Z && String.eqb (a_sensor_type a) sensor_type.

Definition select_count (timestamp : Z) (sensor_type : string) (rows : list AnomalyRecord) : nat :=
  length (List.filter (same_reading timestamp sensor_type) rows).

(** ** The collaborators of a pass *)

(** The payload of an MQTT message, before [json.dumps]. *)
Inductive Payload : Type :=
| MoveCommand (x y : Z)
| Alert (msg : string).

(** Calls a pass makes on its collaborators and detectors, in order. *)
Inductive Event : Type :=
| EvSelectLatest (table : string) (columns : list string)
| EvSelectCount (timestamp : Z) (sensor_type : string)
| EvInsert (r : AnomalyRecord)
| EvCommit
| EvRollback
| EvModelPredict (values : list Q)
| EvKalmanPredict (i : nat)
| EvKalmanUpdate (i : nat) (z : Q)
| EvPublish (topic : string) (p : Payload).

(** The places of [run_detection] where a collaborator can raise. *)
Inductive Site : Type :=
| AtSelectLatest
| AtSelectCount
| AtInsertIF
| AtCommitIF
| AtInsertKF
| AtCommitKF
| AtPublishMove
| AtPublishAlert.

(** What a pass finds outside the process: the reading tables by name and
    which collaborator calls fail. *)
Record Env : Type := mkEnv
  { tables : gmap string (list Reading);
    raises : Site -> bool }.

(** A fitted Isolation Forest, through its [predict] on one sample
    (-1 outlier, 1 inlier). *)
Definition IsolationForest : Type := list Q -> Z.

(** Process-wide state: the table [anomalies] as committed, the rows
    inserted in the open transaction, the two module-level flags and the
    calls made so far. *)
Record World : Type := mkWorld
  { anomalies : list AnomalyRecord;
    pending : list AnomalyRecord;
    robot_moved : bool;
    abnormal_detected : bool;
    trace : list Event }.

(** The alert latch read off the flags. *)
Inductive Latch : Type := OPEN | FIRED.

Definition latch (w : World) : Latch :=
  if abnormal_detected w then FIRED else OPEN.

(** State of one call of [run_detection]: the world, the filter objects of
    [kf_list] and the two local flags. *)
Record PassState : Type := mkPassState
  { world : World;
    kf_list : list KalmanFilter;
    isolation_forest_abnormal : bool;
    kalman_filter_abnormal : bool }.

(** ** State and exception monad of a pass *)

Definition M (A : Type) : Type := PassState -> (Exn + A) * PassState.

Definition ret {A : Type} (a : A) : M A := fun st => (inr a, st).

Definition raise {A : Type} (e : Exn) : M A := fun st => (inl e, st).

Definition bind {A B : Type} (c : M A) (k : A -> M B) : M B :=
  fun st =>
    match c st with
    | (inl e, st') => (inl e, st')
    | (inr a, st') => k a st'
    end.

Notation "x <- c ;; k" := (bind c (fun x => k))
  (at level 100, c at next level, right associativity).
Notation "c ;;; k" := (bind c (fun _ => k))
  (at level 100, right associativity).

Definition gets {A : Type} (f : PassState -> A) : M A := fun st => (inr (f st), st).

Definition modify_world (f : World -> World) : M unit :=
  fun st => (inr tt, mkPassState (f (world st)) (kf_list st)
                        (isolation_forest_abnormal st) (kalman_filter_abnormal st)).

Definition log (e : Event) (w : World) : World :=
  mkWorld (anomalies w) (pending w) (robot_moved w) (abnormal_detected w) (trace w ++ [e]).

Definition add_pending (r : AnomalyRecord) (w : World) : World :=
  mkWorld (anomalies w) (pending w ++ [r]) (robot_moved w) (abnormal_detected w) (trace w).

Definition commit_pending (w : World) : World :=
  mkWorld (anomalies w ++ pending w) [] (robot_moved w) (abnormal_detected w) (trace w).

Definition drop_pending (w : World) : World :=
  mkWorld (anomalies w) [] (robot_moved w) (abnormal_detected w) (trace w).

Definition fire (w : World) : World :=
  mkWorld (anomalies w) (pending w) true true (trace w).

Definition set_isolation_forest_abnormal : M unit :=
  fun st => (inr tt, mkPassState (world st) (kf_list st) true (kalman_filter_abnormal st)).

Definition set_kalman_filter_abnormal : M unit :=
  fun st => (inr tt, mkPassState (world st) (kf_list st) (isolation_forest_abnormal st) true).

Definition fails (env : Env) (s : Site) (e : Exn) : M unit :=
  if raises env s then raise e else ret tt.

(** cursor.execute of the reading query, then cursor.fetchone(). *)
Definition fetch_latest (env : Env) (table : string) (columns : list string) : M (option Row) :=
  match columns with
  | [] => raise IndexError
  | _ =>
      modify_world (log (EvSelectLatest table columns)) ;;;
      fails env AtSelectLatest DatabaseError ;;;
      match tables env !! table with
      | None => raise DatabaseError
      | Some rows =>
          match select_latest columns rows with
          | None => raise DatabaseError
          | Some row => ret row
          end
      end
  end.

(** cursor.execute of the dedupe query, then cursor.fetchone()[0]; the
    connection sees its own uncommitted rows. *)
Definition count_anomalies (env : Env) (timestamp : Z) (sensor_type : string) : M nat :=
  modify_world (log (EvSelectCount timestamp sensor_type)) ;;;
  fails env AtSelectCount DatabaseError ;;;
  w <- gets world ;;
  ret (select_count timestamp sensor_type (anomalies w ++ pending w)).

(** cursor.execute of an INSERT INTO anomalies. *)
Definition insert_anomaly (env : Env) (s : Site) (r : AnomalyRecord) : M unit :=
  modify_world (log (EvInsert r)) ;;;
  fails env s DatabaseError ;;;
  modify_world (add_pending r).

(** conn.commit(). *)
Definition commit (env : Env) (s : Site) : M unit :=
  modify_world (log EvCommit) ;;;
  fails env s DatabaseError ;;;
  modify_world commit_pending.

(** What conn.rollback() does when it returns: the rows of the open
    transaction are dropped.  The call can itself raise (a lost
    connection): see [handler]. *)
Definition rollback (w : World) : World := drop_pending (log EvRollback w).

(** mqtt_client.publish(topic, json.dumps(payload)). *)
Definition publish (env : Env) (s : Site) (topic : string) (p : Payload) : M unit :=
  modify_world (log (EvPublish topic p)) ;;;
  fails env s MqttError.

(** [float(v) for v in values]: [float(None)] raises. *)
Fixpoint to_floats (values : list (option Q)) : M (list Q) :=
  match values with
  | [] => ret []
  | None :: _ => raise TypeError
  | Some v :: rest => vs <- to_floats rest ;; ret (v :: vs)
  end.

(** model.predict([values])[0]. *)
Definition model_predict (model : option IsolationForest) (values : list Q) : M Z :=
  match model with
  | None => raise AttributeError
  | Some f => modify_world (log (EvModelPredict values)) ;;; ret (f values)
  end.

(** ** One detection pass: [run_detection] *)

(** The band test of the sound branch, for the feature in column [c]. *)
Definition out_of_band (c : string) (val : Q) : bool :=
  (String.eqb c "rms" && (Qltb val 0.01 || Qltb 0.03 val))
  || (String.eqb c "zcr" && (Qltb val 0.003 || Qltb 0.02 val)).

(** for i, val in enumerate(values): count the features out of their band. *)
Fixpoint count_out_of_band (columns : list string) (i : nat) (values : list Q)
    (abnormal_count : nat) : M nat :=
  match values with
  | [] => ret abnormal_count
  | val :: rest =>
      match columns !! i with
      | None => raise IndexError
      | Some c =>
          count_out_of_band columns (S i) rest
            (if out_of_band c val then S abnormal_count else abnormal_count)
      end
  end.

(** The row the sound branch inserts. *)
Definition isolation_forest_sound_record (patient_id : Z) (sensor_type : string)
    (values : list Q) (timestamp : Z) : AnomalyRecord :=
  mkAnomaly patient_id sensor_type None (values !! 0%nat) (values !! 1%nat)
    "Isolation Forest" timestamp.

(** The row the light branch inserts. *)
Definition isolation_forest_light_record (patient_id : Z) (timestamp : Z) : AnomalyRecord :=
  mkAnomaly patient_id "light" None None None "Isolation Forest" timestamp.

Definition kalman_record (patient_id : Z) (sensor_type : string)
    (values : list Q) (timestamp : Z) : AnomalyRecord :=
  mkAnomaly patient_id sensor_type None (values !! 0%nat) (values !! 1%nat)
    "Kalman Filter" timestamp.

(** The Isolation Forest section of the pass. *)
Definition isolation_forest_check (env : Env) (sensor_type : string)
    (columns : list string) (model : option IsolationForest)
    (patient_id : Z) (values : list Q) (timestamp : Z) : M unit :=
  pred <- model_predict model values ;;
  if (pred =? -1)%Z then
    if String.eqb sensor_type "sound" then
      abnormal_count <- count_out_of_band columns 0 values 0 ;;
      if Nat.eqb abnormal_count (length columns) then
        insert_anomaly env AtInsertIF
          (isolation_forest_sound_record patient_id sensor_type values timestamp) ;;;
        commit env AtCommitIF ;;;
        set_isolation_forest_abnormal
      else ret tt
    else if String.eqb sensor_type "light" then
      match values !! 0%nat with
      | None => raise IndexError
      | Some _ =>
          insert_anomaly env AtInsertIF
            (isolation_forest_light_record patient_id timestamp) ;;;
          commit env AtCommitIF ;;;
          set_isolation_forest_abnormal
      end
    else ret tt
  else ret tt.

(** kf_list[i].predict(); kf_list[i].update(val); the residual. *)
Definition kalman_at (i : nat) (val : Q) : M Q :=
  fun st =>
    match kf_list st !! i with
    | None => (inl IndexError, st)
    | Some kf =>
        let '(kf', r) := kalman_feature kf val in
        let st' :=
          mkPassState (log (EvKalmanUpdate i val) (log (EvKalmanPredict i) (world st)))
            (<[i:=kf']> (kf_list st))
            (isolation_forest_abnormal st) (kalman_filter_abnormal st) in
        match r with
        | None => (inl LinAlgError, st')
        | Some res => (inr res, st')
        end
    end.

Definition threshold (c : string) : Q :=
  if String.eqb c "rms" then 0.001
  else if String.eqb c "zcr" then 0.001
  else 1.

(** for i, val in enumerate(values): run the filter of feature i and count
    the residuals above their threshold.  The comparison is the exact one;
    within rounding distance of a threshold the doubles can decide
    otherwise ([Binary64.kalman_loop]). *)
Fixpoint kalman_loop (columns : list string) (i : nat) (values : list Q)
    (abnormal_count : nat) : M nat :=
  match values with
  | [] => ret abnormal_count
  | val :: rest =>
      res <- kalman_at i val ;;
      match columns !! i with
      | None => raise IndexError
      | Some c =>
          kalman_loop columns (S i) rest
            (if Qltb (threshold c) res then S abnormal_count else abnormal_count)
      end
  end.

(** The Kalman Filter section of the pass. *)
Definition kalman_check (env : Env) (sensor_type : string) (columns : list string)
    (patient_id : Z) (values : list Q) (timestamp : Z) : M unit :=
  abnormal_count <- kalman_loop columns 0 values 0 ;;
  if Nat.eqb abnormal_count (length columns) then
    insert_anomaly env AtInsertKF (kalman_record patient_id sensor_type values timestamp) ;;;
    commit env AtCommitKF ;;;
    set_kalman_filter_abnormal
  else ret tt.

(** Act only when both agree (sound). *)
Definition act (env : Env) (sensor_type : string) : M unit :=
  ifa <- gets isolation_forest_abnormal ;;
  kfa <- gets kalman_filter_abnormal ;;
  if String.eqb sensor_type "sound" && ifa && kfa then
    moved <- gets (fun st => robot_moved (world st)) ;;
    if negb moved then
      modify_world fire ;;;
      publish env AtPublishMove "robot/move" (MoveCommand 0 1) ;;;
      publish env AtPublishAlert "web/alert" (Alert "Patient abnormal sound detected!")
    else ret tt
  else ret tt.

(** The body of the [try] of [run_detection]. *)
Definition detection_body (env : Env) (sensor_type : string) (columns : list string)
    (table : string) (model : option IsolationForest) : M unit :=
  locked <- gets (fun st => abnormal_detected (world st)) ;;
  if locked then ret tt
  else
    row <- fetch_latest env table columns ;;
    match row with
    | None => ret tt
    | Some (record_id, patient_id, values, timestamp) =>
        n <- count_anomalies env timestamp sensor_type ;;
        if (0 <? n)%nat then ret tt
        else
          values <- to_floats values ;;
          isolation_forest_check env sensor_type columns model patient_id values timestamp ;;;
          kalman_check env sensor_type columns patient_id values timestamp ;;;
          act env sensor_type
    end.

(** [run_detection]: the body, and on any exception [conn.rollback()],
    for a call whose handler returns.  Returned: the state the call leaves
    (world, filter objects, the two local flags as they stood when the call
    ended) and the exception that was caught, if any.  The call whose
    [conn.rollback()] raises in its turn is [run_detection_call] below. *)
Definition run_detection (env : Env) (sensor_type : string) (columns : list string)
    (table : string) (model : option IsolationForest) (kfs : list KalmanFilter)
    (w : World) : PassState * option Exn :=
  match detection_body env sensor_type columns table model (mkPassState w kfs false false) with
  | (inr _, st) => (st, None)
  | (inl e, st) =>
      (mkPassState (rollback (world st)) (kf_list st)
         (isolation_forest_abnormal st) (kalman_filter_abnormal st), Some e)
  end.

(** ** Sequences of passes *)

Record Pass : Type := mkPass
  { p_env : Env;
    p_sensor_type : string;
    p_columns : list string;
    p_table : string;
    p_model : option IsolationForest;
    p_kf_list : list KalmanFilter }.

Definition run_pass (p : Pass) (w : World) : PassState * option Exn :=
  run_detection (p_env p) (p_sensor_type p) (p_columns p) (p_table p) (p_model p)
    (p_kf_list p) w.

Fixpoint run_passes (ps : list Pass) (w : World) : World :=
  match ps with
  | [] => w
  | p :: rest => run_passes rest (world (fst (run_pass p w)))
  end.

(** The worlds a sequence of passes goes through, the first one included. *)
Fixpoint worlds (ps : list Pass) (w : World) : list World :=
  match ps with
  | [] => [w]
  | p :: rest => w :: worlds rest (world (fst (run_pass p w)))
  end.

(** Number of OPEN -> FIRED and of FIRED -> OPEN steps of a latch history. *)
Fixpoint firings (h : list Latch) : nat :=
  match h with
  | OPEN :: ((FIRED :: _) as t) => S (firings t)
  | _ :: t => firings t
  | [] => O
  end.

Fixpoint resets (h : list Latch) : nat :=
  match h with
  | FIRED :: ((OPEN :: _) as t) => S (resets t)
  | _ :: t => resets t
  | [] => O
  end.

(** The world when the script starts: both flags False, no open
    transaction, whatever the table [anomalies] already holds. *)
Definition initial_world (ledger : list AnomalyRecord) : World :=
  mkWorld ledger [] false false [].

(** ** Training and the main loop *)

Record SensorCfg : Type := mkSensorCfg
  { columns : list string;
    csv_file : string;
    training_source : string;
    table : option string }.

Definition sensor_config : list (string * SensorCfg) :=
  [ ("light"%string, mkSensorCfg ["light_level"%string] "trainingData.csv" "csv" None);
    ("sound"%string, mkSensorCfg ["rms"%string; "zcr"%string] "trainingData.csv" "csv" None) ].

(** A row of the training CSV. *)
Record CsvRow : Type := mkCsvRow
  { c_label : string;
    c_rms : Q;
    c_zcr : Q;
    c_light_level : Q }.

Definition csv_column (name : string) (r : CsvRow) : option Q :=
  if String.eqb name "rms" then Some (c_rms r)
  else if String.eqb name "zcr" then Some (c_zcr r)
  else if String.eqb name "light_level" then Some (c_light_level r)
  else None.

(** The range filter of [train_model] for the sensor. *)
Definition in_training_range (sensor_name : string) (r : CsvRow) : bool :=
  if String.eqb sensor_name "sound" then
    Qle_bool 0.001 (c_rms r) && Qle_bool (c_rms r) 0.03
    && Qle_bool 0.009 (c_zcr r) && Qle_bool (c_zcr r) 0.04
  else if String.eqb sensor_name "light" then
    Qle_bool 0 (c_light_level r) && Qle_bool (c_light_level r) 25
  else true.

(** The normal rows of the CSV kept for the sensor. *)
Definition filtered_training_set (sensor_name : string) (df : list CsvRow) : list CsvRow :=
  List.filter (in_training_range sensor_name)
    (List.filter (fun r => String.eqb (c_label r) "normal") df).

(** df[cfg["columns"]].values: a missing column raises. *)
Fixpoint select_columns (cols : list string) (r : CsvRow) : Exn + list Q :=
  match cols with
  | [] => inr []
  | c :: rest =>
      match csv_column c r, select_columns rest r with
      | Some v, inr vs => inr (v :: vs)
      | None, _ => inl KeyError
      | _, inl e => inl e
      end
  end.

Fixpoint all_rows (cols : list string) (df : list CsvRow) : Exn + list (list Q) :=
  match df with
  | [] => inr []
  | r :: rest =>
      match select_columns cols r, all_rows cols rest with
      | inr v, inr vs => inr (v :: vs)
      | inl e, _ => inl e
      | _, inl e => inl e
      end
  end.

(** The samples [train_model] hands to the forest; [files] are the CSV
    files that can be read. *)
Definition training_values (files : gmap string (list CsvRow)) (sensor_name : string)
    (cfg : SensorCfg) : Exn + list (list Q) :=
  if String.eqb (training_source cfg) "csv" then
    match files !! csv_file cfg with
    | None => inl FileNotFoundError
    | Some df => all_rows (columns cfg) (filtered_training_set sensor_name df)
    end
  else inr [].

(** [train_model]: [None] with fewer than 3 samples and on any exception;
    [fit] stands for IsolationForest(contamination=0.1).fit. *)
Definition train_model (files : gmap string (list CsvRow))
    (fit : list (list Q) -> IsolationForest) (sensor_name : string) (cfg : SensorCfg)
    : option IsolationForest :=
  match training_values files sensor_name cfg with
  | inl _ => None
  | inr values => if (3 <=? length values)%nat then Some (fit values) else None
  end.

(** The dictionary [kalman_filters]. *)
Definition kalman_filters_of (cfgs : list (string * SensorCfg)) : gmap string (list KalmanFilter) :=
  list_to_map
    (List.map (fun sc => (fst sc, List.map (initialize_kalman_filter (fst sc)) (columns (snd sc))))
       cfgs).

Definition kalman_filters : gmap string (list KalmanFilter) := kalman_filters_of sensor_config.

(** The dictionary [models]: a sensor whose training failed gets no entry. *)
Fixpoint train_models (files : gmap string (list CsvRow))
    (fit : list (list Q) -> IsolationForest) (cfgs : list (string * SensorCfg))
    (models : gmap string IsolationForest) : gmap string IsolationForest :=
  match cfgs with
  | [] => models
  | (sensor, cfg) :: rest =>
      match train_model files fit sensor cfg with
      | Some model => train_models files fit rest (<[sensor:=model]> models)
      | None => train_models files fit rest models
      end
  end.

Definition models (files : gmap string (list CsvRow))
    (fit : list (list Q) -> IsolationForest) : gmap string IsolationForest :=
  train_models files fit sensor_config ∅.

(** The main loop: one pass per sensor that has a model.  The filter
    objects of a sensor live in the dictionary, so what a pass does to them
    is stored back.  [None]: an uncaught KeyError on [kalman_filters]. *)
Fixpoint main_loop (envs : string -> Env) (mdl : gmap string IsolationForest)
    (cfgs : list (string * SensorCfg)) (kfs : gmap string (list KalmanFilter))
    (w : World) : option (World * gmap string (list KalmanFilter)) :=
  match cfgs with
  | [] => Some (w, kfs)
  | (sensor, cfg) :: rest =>
      match mdl !! sensor with
      | None => main_loop envs mdl rest kfs w
      | Some model =>
          match kfs !! sensor with
          | None => None
          | Some l =>
              let st :=
                fst (run_detection (envs sensor) sensor (columns cfg)
                       (default "smart_room_readings"%string (table cfg))
                       (Some model) l w) in
              main_loop envs mdl rest (<[sensor:=kf_list st]> kfs) (world st)
          end
      end
  end.

Definition main (files : gmap string (list CsvRow)) (fit : list (list Q) -> IsolationForest)
    (envs : string -> Env) (w : World) : option (World * gmap string (list KalmanFilter)) :=
  main_loop envs (models files fit) sensor_config kalman_filters w.

(** ** Notions used to state the properties *)

(** What identifies a reading in the ledger, and a reading with its
    detecting method. *)
Definition reading_key (a : AnomalyRecord) : Z * string :=
  (a_timestamp a, a_sensor_type a).

Definition detection_key (a : AnomalyRecord) : Z * string * string :=
  (a_timestamp a, a_sensor_type a, a_detection_method a).

(** The row the Isolation Forest section inserts for the sensor. *)
Definition isolation_forest_record (patient_id : Z) (sensor_type : string)
    (values : list Q) (timestamp : Z) : AnomalyRecord :=
  if String.eqb sensor_type "light" then isolation_forest_light_record patient_id timestamp
  else isolation_forest_sound_record patient_id sensor_type values timestamp.

(** The rows a pass has committed, given the flags it ended with. *)
Definition committed_records (ifa kfa : bool) (patient_id : Z) (sensor_type : string)
    (values : list Q) (timestamp : Z) : list AnomalyRecord :=
  (if ifa then [isolation_forest_record patient_id sensor_type values timestamp] else [])
  ++ (if kfa then [kalman_record patient_id sensor_type values timestamp] else []).

(** The latch fires in a pass that ends with these flags. *)
Definition fires (sensor_type : string) (ifa kfa moved : bool) : bool :=
  String.eqb sensor_type "sound" && ifa && kfa && negb moved.

(** Everything of a pass state except the filter objects and the trace. *)
Definition same_ledger (st st' : PassState) : Prop :=
  anomalies (world st') = anomalies (world st) /\
  pending (world st') = pending (world st) /\
  robot_moved (world st') = robot_moved (world st) /\
  abnormal_detected (world st') = abnormal_detected (world st) /\
  isolation_forest_abnormal st' = isolation_forest_abnormal st /\
  kalman_filter_abnormal st' = kalman_filter_abnormal st.

Definition is_method (m : string) (a : AnomalyRecord) : bool :=
  String.eqb (a_detection_method a) m.

(** ** Concrete situations *)

Definition readings_env (rows : list Reading) (failing : Site -> bool) : Env :=
  mkEnv (<["smart_room_readings"%string := rows]> ∅) failing.

Definition no_fault : Site -> bool := fun _ => false.

Definition kalman_insert_fails : Site -> bool :=
  fun s => match s with AtInsertKF => true | _ => false end.

(** The sound reading rms = 0.05, zcr = 0.03 at time 1000. *)
Definition loud_reading : Reading :=
  mkReading 1 10 None (Some 0.05) (Some 0.03) None 1000.

(** A light reading of 100 lux at time 1000. *)
Definition bright_reading : Reading :=
  mkReading 2 10 (Some 100) None None None 1000.

(** A forest that calls every sample an outlier. *)
Definition always_outlier : IsolationForest := fun _ => (-1)%Z.

Definition sound_columns : list string := ["rms"%string; "zcr"%string].

Definition light_columns : list string := ["light_level"%string].

Definition sound_filters : list KalmanFilter :=
  List.map (initialize_kalman_filter "sound") sound_columns.

Definition light_filters : list KalmanFilter :=
  List.map (initialize_kalman_filter "light") light_columns.

Definition loud_pass (failing : Site -> bool) : Pass :=
  mkPass (readings_env [loud_reading] failing) "sound" sound_columns
    "smart_room_readings" (Some always_outlier) sound_filters.

Definition bright_pass : Pass :=
  mkPass (readings_env [bright_reading] no_fault) "light" light_columns
    "smart_room_readings" (Some always_outlier) light_filters.

(** A training file whose normal rows all pass the light filter, two of
    them only the sound filter. *)
Definition two_sound_samples : gmap string (list CsvRow) :=
  <["trainingData.csv"%string :=
      [ mkCsvRow "normal" 0.01 0.01 10;
        mkCsvRow "normal" 0.02 0.02 11;
        mkCsvRow "normal" 0.5 0.02 12;
        mkCsvRow "normal" 0.6 0.02 13;
        mkCsvRow "abnormal" 0.02 0.02 14 ]]> ∅.

(** ** Further notions on the estimator and on a pass *)

(** A random-walk filter with non-negative process noise, positive
    measurement noise and positive covariance. *)
Definition stable (kf : KalmanFilter) : Prop :=
  kf_F kf = 1 /\ kf_H kf = 1 /\ 0 <= kf_Q kf /\ 0 < kf_R kf /\ 0 < kf_P kf.

Definition is_publish (e : Event) : bool :=
  match e with
  | EvPublish _ _ => true
  | _ => false
  end.

(** The calls of [mqtt_client.publish] made so far. *)
Definition published (w : World) : list Event := List.filter is_publish (trace w).

Definition alert_messages : list Event :=
  [ EvPublish "robot/move" (MoveCommand 0 1);
    EvPublish "web/alert" (Alert "Patient abnormal sound detected!") ].

(** ** The offline evaluation script [test_collect_data.py] *)

Module TestCollectData.

Definition initialize_kalman_filter : KalmanFilter :=
  {| kf_F := 1; kf_H := 1; kf_Q := 0.01; kf_R := 0.1; kf_P := 1; kf_x := 0 |}.

Definition features : list string := ["rms"%string; "zcr"%string].

Definition kalman_filters : list KalmanFilter :=
  List.map (fun _ => initialize_kalman_filter) features.

(** The inner loop over the features of one test row:
    kf = kalman_filters[i]; kf.predict(); kf.update(val); the residual
    against the threshold of the feature, appended to kalman_result. *)
Fixpoint kalman_row (i : nat) (values : list Q) (kfs : list KalmanFilter)
    (kalman_result : list bool) : Exn + (list KalmanFilter * list bool) :=
  match values with
  | [] => inr (kfs, kalman_result)
  | val :: rest =>
      match kfs !! i with
      | None => inl IndexError
      | Some kf =>
          match kalman_feature kf val with
          | (_, None) => inl LinAlgError
          | (kf', Some res) =>
              match features !! i with
              | None => inl IndexError
              | Some c =>
                  let threshold := if String.eqb c "rms" then 0.004 else 0.003 in
                  kalman_row (S i) rest (<[i:=kf']> kfs)
                    (kalman_result ++ [Qltb threshold res])
              end
          end
      end
  end.

Definition label_of (abnormal : bool) : string :=
  if abnormal then "abnormal"%string else "normal"%string.

(** The loop over the rows of the test set; a row is its feature values.
    Returned: iso_preds, kalman_preds and the filters as the loop leaves
    them. *)
Fixpoint run_detection (iso_model : IsolationForest) (rows : list (list Q))
    (kfs : list KalmanFilter) (iso_preds kalman_preds : list string)
    : Exn + (list string * list string * list KalmanFilter) :=
  match rows with
  | [] => inr (iso_preds, kalman_preds, kfs)
  | values :: rest =>
      let iso_result := iso_model values in
      let iso_preds' := iso_preds ++ [label_of (iso_result =? -1)%Z] in
      match kalman_row 0 values kfs [] with
      | inl e => inl e
      | inr (kfs', kalman_result) =>
          run_detection iso_model rest kfs' iso_preds'
            (kalman_preds ++ [label_of (existsb (fun b => b) kalman_result)])
      end
  end.

(** sum((t == a and p == b) for t, p in zip(true, pred)); the list of true
    labels is called [truth] here. *)
Fixpoint count_pairs (a b : string) (truth pred : list string) : nat :=
  match truth, pred with
  | t :: truth', p :: pred' =>
      (if String.eqb t a && String.eqb p b then 1 else 0) + count_pairs a b truth' pred'
  | _, _ => 0
  end.

Definition TP (truth pred : list string) : nat := count_pairs "abnormal" "abnormal" truth pred.
Definition TN (truth pred : list string) : nat := count_pairs "normal" "normal" truth pred.
Definition FP (truth pred : list string) : nat := count_pairs "normal" "abnormal" truth pred.
Definition FN (truth pred : list string) : nat := count_pairs "abnormal" "normal" truth pred.

Definition total (truth pred : list string) : nat :=
  TP truth pred + TN truth pred + FP truth pred + FN truth pred.

(** a / b if b else 0, on counts. *)
Definition ratio (a b : nat) : Q :=
  if Nat.eqb b 0 then 0 else inject_Z (Z.of_nat a) / inject_Z (Z.of_nat b).

(** The metrics of [evaluate] as computed, before [round(_, 2)]. *)
Definition accuracy (truth pred : list string) : Q :=
  ratio (TP truth pred + TN truth pred) (total truth pred).

Definition precision (truth pred : list string) : Q :=
  ratio (TP truth pred) (TP truth pred + FP truth pred).

Definition recall (truth pred : list string) : Q :=
  ratio (TP truth pred) (TP truth pred + FN truth pred).

Definition valid_label (s : string) : bool :=
  String.eqb s "abnormal" || String.eqb s "normal".

End TestCollectData.

(** ** The light sensor helper of [sensors.py] *)

Module LightSensor.

(** convertToNumber(data): (data[1] + 256 * data[0]) / 1.2. *)
Definition convertToNumber (data : list Z) : Exn + Q :=
  match data !! 1%nat, data !! 0%nat with
  | Some d1, Some d0 => inr (inject_Z (d1 + 256 * d0) / 1.2)
  | _, _ => inl IndexError
  end.

Definition is_byte (b : Z) : Prop := (0 <= b <= 255)%Z.

End LightSensor.

(** ** The movement primitives of [move.py] *)

Module Move.

Definition ROBOT_WIDTH_CM : Q := 15.
Definition OBSTACLE_THRESHOLD : Q := 19.
Definition REAL_SPEED : Q := 25.

(** is_obstacle_detected: [reading] is what ultrasonic_sensor.getDistance()
    returns, [None] when it raises. *)
Definition is_obstacle_detected (reading : option Q) (threshold_cm : Q) : bool :=
  let distance := match reading with Some d => d | None => 999 end in
  Qltb distance threshold_cm.

(** Calls made on the chassis and on the clock. *)
Inductive Call : Type :=
| SetVelocity (speed heading yaw_rate : Q)
| Sleep (duration : Q)
| Stop.

(** time.sleep raises ValueError on a negative duration. *)
Inductive Outcome : Type := Returned | ValueError.

Definition sleep (duration : Q) : list Call * Outcome :=
  if Qltb duration 0 then ([], ValueError) else ([Sleep duration], Returned).

(** chassis.set_velocity(speed, heading, 0); time.sleep(duration);
    chassis.stop(): the calls made, and how the function ends. *)
Definition drive (speed heading yaw_rate duration : Q) : list Call * Outcome :=
  match sleep duration with
  | (calls, Returned) => (SetVelocity speed heading yaw_rate :: calls ++ [Stop], Returned)
  | (calls, ValueError) => (SetVelocity speed heading yaw_rate :: calls, ValueError)
  end.

Definition move_forward (cm : Q) : list Call * Outcome :=
  let duration := cm / REAL_SPEED in drive 50 90 0 duration.

Definition move_right (cm : Q) : list Call * Outcome :=
  let duration := cm / REAL_SPEED in drive 50 0 0 duration.

Definition move_left (cm : Q) : list Call * Outcome :=
  let duration := cm / REAL_SPEED in drive 50 180 0 duration.

Definition rotate_90 (direction : string) : list Call * Outcome :=
  let target_angle : Q :=
    if String.eqb direction "right" then 90
    else if String.eqb direction "left" then -90 else 0 in
  if Qeq_bool target_angle 0 then ([], Returned)
  else
    let speed_deg_per_sec : Q := 90 in
    let correction : Q := 0.57 in
    let duration := Qabs target_angle / speed_deg_per_sec * correction in
    let angular_rate := if Qltb 0 target_angle then speed_deg_per_sec else - speed_deg_per_sec in
    drive 0 0 angular_rate duration.

(** Whether the chassis is in motion after the calls: the last call on the
    chassis set a velocity that is not zero. *)
Fixpoint in_motion (moving : bool) (calls : list Call) : bool :=
  match calls with
  | [] => moving
  | SetVelocity speed _ yaw_rate :: rest =>
      in_motion (negb (Qeq_bool speed 0 && Qeq_bool yaw_rate 0)) rest
  | Sleep _ :: rest => in_motion moving rest
  | Stop :: rest => in_motion false rest
  end.

(** Seconds spent sleeping. *)
Fixpoint slept (calls : list Call) : Q :=
  match calls with
  | [] => 0
  | Sleep d :: rest => d + slept rest
  | _ :: rest => slept rest
  end.

End Move.

(** ** The filter on IEEE doubles *)

(** The class [KalmanFilter] and the estimator loop of [run_detection] as
    numpy computes them: every product, sum, difference and quotient is one
    binary64 operation, rounded to nearest.  On 1x1 arrays [np.dot] is one
    multiplication and [np.linalg.inv] one division, raising on a zero
    pivot. *)
Module Binary64.

#[local] Open Scope float_scope.

Record KalmanFilter : Type := mkKalmanFilter
  { kf_F : float;
    kf_H : float;
    kf_Q : float;
    kf_R : float;
    kf_P : float;
    kf_x : float }.

(** [predict]: x = F x ; P = (F P) F^T + Q. *)
Definition predict (kf : KalmanFilter) : KalmanFilter :=
  {| kf_F := kf_F kf; kf_H := kf_H kf; kf_Q := kf_Q kf; kf_R := kf_R kf;
     kf_P := (kf_F kf * kf_P kf) * kf_F kf + kf_Q kf;
     kf_x := kf_F kf * kf_x kf |}.

(** [np.linalg.inv] on a 1x1 matrix. *)
Definition inv (S : float) : option float :=
  if PrimFloat.eqb S 0 then None else Some (1 / S).

(** [update z]: S = H (P H^T) + R ; K = (P H^T) S^-1 ; y = z - H x ;
    x = x + K y ; P = (I - K H) P. *)
Definition update (kf : KalmanFilter) (z : float) : option KalmanFilter :=
  let S := kf_H kf * (kf_P kf * kf_H kf) + kf_R kf in
  match inv S with
  | None => None
  | Some Sinv =>
      let K := (kf_P kf * kf_H kf) * Sinv in
      let y := z - kf_H kf * kf_x kf in
      Some {| kf_F := kf_F kf; kf_H := kf_H kf; kf_Q := kf_Q kf; kf_R := kf_R kf;
              kf_P := (1 - K * kf_H kf) * kf_P kf;
              kf_x := kf_x kf + K * y |}
  end.

Definition initialize_kalman_filter (sensor_type feature : string) : KalmanFilter :=
  let x0 :=
    if String.eqb sensor_type "sound" then
      if String.eqb feature "rms" then 0.008
      else if String.eqb feature "zcr" then 0.010
      else 0
    else if String.eqb sensor_type "light" && String.eqb feature "light_level" then 12
    else 0 in
  {| kf_F := 1; kf_H := 1; kf_Q := 0.05; kf_R := 0.1; kf_P := 1; kf_x := x0 |}.

(** [residual = abs(kf_list[i].x[0][0] - val)]. *)
Definition residual (kf : KalmanFilter) (val : float) : float :=
  PrimFloat.abs (kf_x kf - val).

(** predict, update, then the residual, for one filter object. *)
Definition kalman_feature (kf : KalmanFilter) (val : float)
    : KalmanFilter * option float :=
  let kf1 := predict kf in
  match update kf1 val with
  | None => (kf1, None)
  | Some kf2 => (kf2, Some (residual kf2 val))
  end.

(** [n] predict-then-update cycles on the same measurement. *)
Fixpoint cycles (n : nat) (kf : KalmanFilter) (z : float) : option KalmanFilter :=
  match n with
  | O => Some kf
  | S m =>
      match cycles m kf z with
      | None => None
      | Some kf' => update (predict kf') z
      end
  end.

(** The residual read after the [n]-th cycle. *)
Definition residual_after (n : nat) (kf : KalmanFilter) (z : float) : option float :=
  match cycles n kf z with
  | None => None
  | Some kf' => Some (residual kf' z)
  end.

Definition threshold (c : string) : float :=
  if String.eqb c "rms" then 0.001
  else if String.eqb c "zcr" then 0.001
  else 1.

(** [residual > threshold] for the feature in column [c]. *)
Definition exceeds (c : string) (res : float) : bool :=
  PrimFloat.ltb (threshold c) res.

(** kf_list[i].predict(); kf_list[i].update(val); the residual.  The
    filter objects are updated in place. *)
Definition kalman_at (i : nat) (val : float) (kfs : list KalmanFilter)
    : (Exn + float) * list KalmanFilter :=
  match kfs !! i with
  | None => (inl IndexError, kfs)
  | Some kf =>
      match kalman_feature kf val with
      | (kf', None) => (inl LinAlgError, <[i:=kf']> kfs)
      | (kf', Some res) => (inr res, <[i:=kf']> kfs)
      end
  end.

(** for i, val in enumerate(values): run the filter of feature i and count
    the residuals above their threshold. *)
Fixpoint kalman_loop (columns : list string) (i : nat) (values : list float)
    (abnormal_count : nat) (kfs : list KalmanFilter)
    : (Exn + nat) * list KalmanFilter :=
  match values with
  | [] => (inr abnormal_count, kfs)
  | val :: rest =>
      match kalman_at i val kfs with
      | (inl e, kfs') => (inl e, kfs')
      | (inr res, kfs') =>
          match columns !! i with
          | None => (inl IndexError, kfs')
          | Some c =>
              kalman_loop columns (S i) rest
                (if exceeds c res then S abnormal_count else abnormal_count) kfs'
          end
      end
  end.

(** The test [abnormal_count == len(columns)] after the loop: whether the
    estimator confirms the reading. *)
Definition kalman_filter_abnormal (columns : list string) (values : list float)
    (kfs : list KalmanFilter) : (Exn + bool) * list KalmanFilter :=
  match kalman_loop columns 0 values 0 kfs with
  | (inl e, kfs') => (inl e, kfs')
  | (inr abnormal_count, kfs') => (inr (Nat.eqb abnormal_count (length columns)), kfs')
  end.

(** What one cycle on each filter gives, feature by feature: the column,
    the filter after the cycle and its residual. *)
Fixpoint features (columns : list string) (values : list float)
    (kfs : list KalmanFilter) : list (string * KalmanFilter * option float) :=
  match columns, values, kfs with
  | c :: cs, val :: vs, kf :: rest =>
      (c, fst (kalman_feature kf val), snd (kalman_feature kf val)) :: features cs vs rest
  | _, _, _ => []
  end.


(** The filters of the sound sensor when the script starts. *)
Definition sound_filters : list KalmanFilter :=
  List.map (initialize_kalman_filter "sound") ["rms"%string; "zcr"%string].

(** The state in which the rms filter settles on the measurement 0.0195:
    covariance 0.05 and an estimate one unit in the last place below the
    measurement. *)
Definition settled_rms_filter : KalmanFilter :=
  {| kf_F := 1; kf_H := 1; kf_Q := 0.05; kf_R := 0.1;
     kf_P := 0.05; kf_x := 0x1.3f7ced916872ap-6 |}.

End Binary64.

(** ** A call of [run_detection] whose handler can fail *)

(** How a call ends for its caller: it returns ([caught] is the exception
    its [except Exception] clause handled, if any), or an exception leaves
    it. *)
Inductive CallResult : Type :=
| Returns (st : PassState) (caught : option Exn)
| Propagates (e : Exn) (st : PassState).

Definition set_world (w : World) (st : PassState) : PassState :=
  mkPassState w (kf_list st) (isolation_forest_abnormal st) (kalman_filter_abnormal st).

(** The [except Exception] clause: the error is printed, then
    [conn.rollback()] is called, outside any [try].  [rollback_raises]
    tells whether that call raises (the connection is lost); the exception
    it raises then leaves [run_detection]. *)
Definition handler (rollback_raises : bool) (e : Exn) (st : PassState) : CallResult :=
  if rollback_raises
  then Propagates DatabaseError (set_world (log EvRollback (world st)) st)
  else Returns (set_world (rollback (world st)) st) (Some e).

Definition run_detection_call (rollback_raises : bool) (env : Env) (sensor_type : string)
    (columns : list string) (table : string) (model : option IsolationForest)
    (kfs : list KalmanFilter) (w : World) : CallResult :=
  match detection_body env sensor_type columns table model (mkPassState w kfs false false) with
  | (inr _, st) => Returns st None
  | (inl e, st) => handler rollback_raises e st
  end.

(** How the main loop ends: every configured sensor has been gone through,
    or an exception left the loop.  The [try] around the loop handles
    KeyboardInterrupt only; its [finally] closes the cursor and lets any
    other exception go on, which ends the script. *)
Inductive LoopResult : Type :=
| Finished (w : World) (kfs : gmap string (list KalmanFilter))
| Uncaught (e : Exn) (w : World).

(** The main loop over calls that may let an exception out.
    [rollback_raises] tells, for each sensor, whether [conn.rollback()]
    would raise during its pass. *)
Fixpoint main_loop_call (envs : string -> Env) (rollback_raises : string -> bool)
    (mdl : gmap string IsolationForest) (cfgs : list (string * SensorCfg))
    (kfs : gmap string (list KalmanFilter)) (w : World) : LoopResult :=
  match cfgs with
  | [] => Finished w kfs
  | (sensor, cfg) :: rest =>
      match mdl !! sensor with
      | None => main_loop_call envs rollback_raises mdl rest kfs w
      | Some model =>
          match kfs !! sensor with
          | None => Uncaught KeyError w
          | Some l =>
              match run_detection_call (rollback_raises sensor) (envs sensor) sensor
                      (columns cfg)
                      (default "smart_room_readings"%string (table cfg))
                      (Some model) l w with
              | Returns st _ =>
                  main_loop_call envs rollback_raises mdl rest
                    (<[sensor:=kf_list st]> kfs) (world st)
              | Propagates e st => Uncaught e (world st)
              end
          end
      end
  end.

(** A ward with a bright light reading and a loud sound reading, both
    sensors trained.  During the light pass the insert of the Kalman row
    fails; the sound pass meets no failure. *)
Definition ward_rows : list Reading := [bright_reading; loud_reading].

Definition light_insert_fails : string -> Env :=
  fun sensor =>
    readings_env ward_rows
      (if String.eqb sensor "light" then kalman_insert_fails else no_fault).

Definition both_models : gmap string IsolationForest :=
  <["light"%string := always_outlier]> (<["sound"%string := always_outlier]> ∅).

Definition rollback_returns : string -> bool := fun _ => false.

(** The connection is lost during the light pass: its rollback raises too. *)
Definition connection_lost : string -> bool := fun sensor => String.eqb sensor "light".

(** The reading queries in a trace, by the columns they select. *)
Definition queried (cols : list string) (e : Event) : bool :=
  match e with
  | EvSelectLatest _ cols' => bool_decide (cols' = cols)
  | _ => false
  end.

(** * Properties *)

(** ** Rational comparisons *)

Lemma Qltb_lt (a b : Q) : Qltb a b = true <-> a < b.
Proof.
  unfold Qltb. rewrite negb_true_iff, <- not_true_iff_false, Qle_bool_iff.
  split; intros; lra.
Qed.

Lemma Qltb_ge (a b : Q) : Qltb a b = false <-> b <= a.
Proof.
  unfold Qltb. rewrite negb_false_iff, Qle_bool_iff. tauto.
Qed.

(** ** The estimator *)

Lemma inv_nonzero (S : Q) : ~ S == 0 -> inv S = Some (/ S).
Proof.
  intros HS. unfold inv.
  destruct (Qeq_bool S 0) eqn:E; [|reflexivity].
  apply Qeq_bool_iff in E. contradiction.
Qed.

Lemma gain_random_walk (kf : KalmanFilter) :
  kf_H kf = 1 -> ~ kf_P kf + kf_R kf == 0 ->
  exists K, gain kf = Some K /\ K == kf_P kf / (kf_P kf + kf_R kf).
Proof.
  intros HH HS. unfold gain, innovation_covariance. rewrite HH.
  rewrite inv_nonzero by (intros E; apply HS; rewrite <- E; ring).
  eexists; split; [reflexivity|]. field. exact HS.
Qed.

Lemma predict_configured (kf : KalmanFilter) :
  configured kf -> 0 < kf_P kf ->
  configured (predict kf) /\ kf_P (predict kf) == kf_P kf + 0.05 /\
  kf_x (predict kf) == kf_x kf.
Proof.
  intros (HF & HH & HQ & HR) HP. unfold configured, predict; simpl.
  rewrite HF, HQ. repeat split; auto; ring.
Qed.

Lemma update_configured (kf : KalmanFilter) (z : Q) :
  configured kf -> 0 < kf_P kf ->
  exists K kf',
    gain kf = Some K /\ K == kf_P kf / (kf_P kf + 0.1) /\
    update kf z = Some kf' /\ configured kf' /\
    kf_P kf' == kf_P kf * 0.1 / (kf_P kf + 0.1) /\
    kf_x kf' - z == (1 - K) * (kf_x kf - z).
Proof.
  intros (HF & HH & HQ & HR) HP.
  destruct (gain_random_walk kf HH) as (K & HK & HKv).
  { rewrite HR. lra. }
  rewrite HR in HKv.
  exists K. unfold update. rewrite HK. eexists. split; [reflexivity|].
  split; [exact HKv|]. split; [reflexivity|]. simpl.
  split; [repeat split; assumption|].
  rewrite HH, HKv. split; field; lra.
Qed.

Lemma gain_bounds (p : Q) : 0 < p -> 0 < p / (p + 0.1) /\ p / (p + 0.1) < 1.
Proof.
  intros Hp. split.
  - apply Qlt_shift_div_l; lra.
  - apply Qlt_shift_div_r; lra.
Qed.

Lemma apply_ops_invariant (ops : list KalmanOp) (kf : KalmanFilter) :
  configured kf -> 0 < kf_P kf ->
  exists kf', apply_ops kf ops = Some kf' /\ configured kf' /\ 0 < kf_P kf'.
Proof.
  revert kf. induction ops as [|op ops IH]; intros kf Hc HP.
  - exists kf. auto.
  - destruct op as [|z]; simpl.
    + destruct (predict_configured kf Hc HP) as (Hc' & HP' & _).
      apply IH; [exact Hc'|]. rewrite HP'. lra.
    + destruct (update_configured kf z Hc HP) as (K & kf' & _ & _ & Hu & Hc' & HP' & _).
      rewrite Hu. apply IH; [exact Hc'|]. rewrite HP'.
      apply Qlt_shift_div_l; [lra|]. ring_simplify. lra.
Qed.

Lemma initialize_kalman_filter_configured (sensor_type feature : string) :
  configured (initialize_kalman_filter sensor_type feature) /\
  kf_P (initialize_kalman_filter sensor_type feature) = 1.
Proof. unfold configured, initialize_kalman_filter; simpl. auto. Qed.

Lemma cycle_step (kf : KalmanFilter) (z : Q) :
  configured kf -> 0 < kf_P kf ->
  exists kf' c,
    update (predict kf) z = Some kf' /\ configured kf' /\ 0 < kf_P kf' /\
    0 < c /\ c < 2 # 3 /\ residual kf' z == c * residual kf z.
Proof.
  intros Hc HP.
  destruct (predict_configured kf Hc HP) as (Hc1 & HP1 & Hx1).
  assert (HP1pos : 0 < kf_P (predict kf)) by (rewrite HP1; lra).
  destruct (update_configured (predict kf) z Hc1 HP1pos)
    as (K & kf' & _ & HK & Hu & Hc' & HP' & Hx').
  destruct (gain_bounds _ HP1pos) as [HK0 HK1].
  assert (HK3 : 1 # 3 < K).
  { rewrite HK. apply Qlt_shift_div_l; [lra|]. rewrite HP1. lra. }
  rewrite <- HK in HK0, HK1.
  exists kf', (1 - K). split; [exact Hu|]. split; [exact Hc'|]. split.
  { rewrite HP'. apply Qlt_shift_div_l; [lra|]. ring_simplify. lra. }
  split; [lra|]. split; [lra|].
  unfold residual. rewrite Hx', Hx1, Qabs_Qmult.
  rewrite (Qabs_pos (1 - K)) by lra. reflexivity.
Qed.

Lemma inject_nat_succ (n : nat) :
  inject_Z (Z.of_nat (S n)) == inject_Z (Z.of_nat n) + 1.
Proof. rewrite Nat2Z.inj_succ. unfold Z.succ. rewrite inject_Z_plus. reflexivity. Qed.

Lemma inject_nat_nonneg (n : nat) : 0 <= inject_Z (Z.of_nat n).
Proof.
  change 0 with (inject_Z 0). rewrite <- Zle_Qle. lia.
Qed.

Lemma cycles_bound (kf : KalmanFilter) (z : Q) (n : nat) :
  configured kf -> 0 < kf_P kf ->
  exists kf',
    cycles n kf z = Some kf' /\ configured kf' /\ 0 < kf_P kf' /\
    residual kf' z * (inject_Z (Z.of_nat n) + 2) <= 2 * residual kf z.
Proof.
  intros Hc HP. induction n as [|n IH].
  - exists kf. split; [reflexivity|]. split; [exact Hc|]. split; [exact HP|].
    change (inject_Z (Z.of_nat 0)) with 0. lra.
  - destruct IH as (kf1 & Hn & Hc1 & HP1 & Hb).
    destruct (cycle_step kf1 z Hc1 HP1) as (kf2 & c & Hu & Hc2 & HP2 & Hc0 & Hc23 & Hr).
    exists kf2. simpl. rewrite Hn. split; [exact Hu|]. split; [exact Hc2|].
    split; [exact HP2|].
    rewrite inject_nat_succ, Hr.
    pose proof (inject_nat_nonneg n) as Hm.
    assert (Hr1 : 0 <= residual kf1 z) by apply Qabs_nonneg.
    set (m := inject_Z (Z.of_nat n)) in *.
    set (r := residual kf1 z) in *.
    assert (H1 : c * r * (m + 1 + 2) <= (2 # 3) * (r * (m + 3))).
    { assert (E : c * r * (m + 1 + 2) == c * (r * (m + 3))) by ring.
      rewrite E. apply Qmult_le_compat_r; [lra|].
      apply Qmult_le_0_compat; lra. }
    assert (H2 : 0 <= r * m) by (apply Qmult_le_0_compat; lra).
    lra.
Qed.

(** C8. With F = H = 1, for every state (x, P) for which the inversion is
    defined and every measurement z: predict leaves the estimate as it is
    and adds the process noise to the covariance; update computes the gain
    K = P / (P + R), the estimate x + K (z - x) and the covariance
    P (1 - K); and the residual of a pass is |x' - z| for the estimate x'
    that update left, not the innovation z - x taken before it. *)
Theorem kalman_predict_update_contract (kf : KalmanFilter) (z : Q) :
  kf_F kf = 1 -> kf_H kf = 1 -> ~ kf_P kf + kf_R kf == 0 ->
  (kf_x (predict kf) == kf_x kf /\ kf_P (predict kf) == kf_P kf + kf_Q kf) /\
  exists K kf',
    gain kf = Some K /\ K == kf_P kf / (kf_P kf + kf_R kf) /\
    update kf z = Some kf' /\
    kf_x kf' == kf_x kf + K * (z - kf_x kf) /\
    kf_P kf' == kf_P kf * (1 - K) /\
    (forall kf0, predict kf0 = kf ->
       kalman_feature kf0 z = (kf', Some (Qabs (kf_x kf' - z)))) /\
    Qabs (kf_x kf' - z) == Qabs (kf_x kf + K * (z - kf_x kf) - z).
Proof.
  intros HF HH HS. split.
  { unfold predict; simpl. rewrite HF. split; ring. }
  destruct (gain_random_walk kf HH HS) as (K & HK & HKv).
  exists K. unfold update. rewrite HK. eexists.
  split; [reflexivity|]. split; [exact HKv|]. split; [reflexivity|].
  cbn [kf_x kf_P]. rewrite HH.
  assert (Hx : kf_x kf + K * (z - 1 * kf_x kf) == kf_x kf + K * (z - kf_x kf)) by ring.
  split; [exact Hx|]. split; [ring|]. split.
  - intros kf0 E. unfold kalman_feature. rewrite E. unfold update. rewrite HK.
    rewrite HH. reflexivity.
  - apply Qabs_wd. rewrite Hx. reflexivity.
Qed.

Lemma kalman_predict_update_contract_witness :
  kf_x (predict (initialize_kalman_filter "sound" "rms"))
    == kf_x (initialize_kalman_filter "sound" "rms") /\
  kf_P (predict (initialize_kalman_filter "sound" "rms"))
    == kf_P (initialize_kalman_filter "sound" "rms")
       + kf_Q (initialize_kalman_filter "sound" "rms").
Proof.
  apply (kalman_predict_update_contract (initialize_kalman_filter "sound" "rms") 0.05).
  - reflexivity.
  - reflexivity.
  - intros H. vm_compute in H. discriminate H.
Defined.

(** In exact arithmetic the descent is strict and goes to zero: each
    residual is smaller than the one before it while that one is not zero,
    and the residual after n cycles is at most 2 r0 / (n + 2).  Rounding
    ends both on doubles, where the residual can stay at one unit in the
    last place for ever. *)
Lemma exact_residual_decreases_to_zero (kf : KalmanFilter) (z : Q) :
  configured kf -> 0 < kf_P kf ->
  (forall n : nat, exists kf1 kf2,
      cycles n kf z = Some kf1 /\ cycles (S n) kf z = Some kf2 /\
      (0 < residual kf1 z -> residual kf2 z < residual kf1 z)) /\
  (forall eps : Q, 0 < eps ->
     exists N : nat, forall n : nat, (N <= n)%nat ->
       exists kf', cycles n kf z = Some kf' /\ residual kf' z < eps).
Proof.
  intros Hc HP. split.
  - intros n.
    destruct (cycles_bound kf z n Hc HP) as (kf1 & Hn & Hc1 & HP1 & _).
    destruct (cycle_step kf1 z Hc1 HP1) as (kf2 & c & Hu & _ & _ & Hc0 & Hc23 & Hr).
    exists kf1, kf2. simpl. rewrite Hn. split; [reflexivity|]. split; [exact Hu|].
    assert (Hr1 : 0 <= residual kf1 z) by apply Qabs_nonneg.
    rewrite Hr. intros Hpos.
    assert (c * residual kf1 z < 1 * residual kf1 z)
      by (apply Qmult_lt_compat_r; lra).
    lra.
  - intros eps Heps.
    destruct (Qarchimedean (2 * residual kf z / eps)) as [p Hp].
    exists (Pos.to_nat p). intros n Hn.
    destruct (cycles_bound kf z n Hc HP) as (kf' & Hcy & _ & _ & Hb).
    exists kf'. split; [exact Hcy|].
    assert (Hpn : inject_Z (Z.pos p) <= inject_Z (Z.of_nat n)).
    { rewrite <- Zle_Qle. lia. }
    change (Z.pos p # 1) with (inject_Z (Z.pos p)) in Hp.
    assert (Hp' : 2 * residual kf z < inject_Z (Z.pos p) * eps).
    { assert (E : 2 * residual kf z == (2 * residual kf z / eps) * eps) by (field; lra).
      rewrite E. apply Qmult_lt_compat_r; assumption. }
    set (m := inject_Z (Z.of_nat n)) in *.
    assert (H0 : 0 <= m) by apply inject_nat_nonneg.
    assert (H1 : inject_Z (Z.pos p) * eps <= m * eps)
      by (apply Qmult_le_compat_r; lra).
    assert (H2 : residual kf' z * (m + 2) < eps * (m + 2)) by lra.
    apply Qmult_lt_r in H2; [exact H2|lra].
Qed.

(** C9 (as amended). A configured filter with positive covariance, fed the
    same measurement z cycle after cycle: every cycle runs, and the
    residual |estimate - z| read after a cycle is never greater than the
    one read before it.  The update moves the estimate by the fraction K
    of the innovation with 0 < K < 1, so it lands between the old estimate
    and z. *)
Theorem constant_measurement_residual_never_increases (kf : KalmanFilter) (z : Q) :
  configured kf -> 0 < kf_P kf ->
  forall n : nat, exists kf1 kf2 K,
    cycles n kf z = Some kf1 /\ cycles (S n) kf z = Some kf2 /\
    gain (predict kf1) = Some K /\ 0 < K /\ K < 1 /\
    kf_x kf2 == kf_x kf1 + K * (z - kf_x kf1) /\
    residual kf2 z <= residual kf1 z.
Proof.
  intros Hc HP n.
  destruct (cycles_bound kf z n Hc HP) as (kf1 & Hn & Hc1 & HP1 & _).
  destruct (predict_configured kf1 Hc1 HP1) as (Hcp & HPp & Hxp).
  assert (HPpos : 0 < kf_P (predict kf1)) by (rewrite HPp; lra).
  destruct (update_configured (predict kf1) z Hcp HPpos)
    as (K & kf2 & HK & HKv & Hu & _ & _ & Hx).
  destruct (gain_bounds _ HPpos) as [HK0 HK1]. rewrite <- HKv in HK0, HK1.
  exists kf1, kf2, K. simpl. rewrite Hn.
  split; [reflexivity|]. split; [exact Hu|]. split; [exact HK|].
  split; [exact HK0|]. split; [exact HK1|].
  assert (E : kf_x kf2 - z == (1 - K) * (kf_x kf1 - z)) by (rewrite Hx, Hxp; reflexivity).
  assert (Hx2 : kf_x kf2 == kf_x kf1 + K * (z - kf_x kf1)).
  { assert (E0 : kf_x kf2 == (kf_x kf2 - z) + z) by ring.
    rewrite E0, E. ring. }
  split; [exact Hx2|].
  unfold residual.
  rewrite E, Qabs_Qmult, (Qabs_pos (1 - K)) by lra.
  assert (Hr : 0 <= Qabs (kf_x kf1 - z)) by apply Qabs_nonneg.
  assert ((1 - K) * Qabs (kf_x kf1 - z) <= 1 * Qabs (kf_x kf1 - z))
    by (apply Qmult_le_compat_r; lra).
  lra.
Qed.

Lemma constant_measurement_residual_never_increases_witness :
  exists kf1 kf2 K,
    cycles 3 (initialize_kalman_filter "sound" "rms") 0.0195 = Some kf1 /\
    cycles 4 (initialize_kalman_filter "sound" "rms") 0.0195 = Some kf2 /\
    gain (predict kf1) = Some K /\ 0 < K /\ K < 1 /\
    kf_x kf2 == kf_x kf1 + K * (0.0195 - kf_x kf1) /\
    residual kf2 0.0195 <= residual kf1 0.0195.
Proof.
  apply (constant_measurement_residual_never_increases
           (initialize_kalman_filter "sound" "rms") 0.0195).
  - repeat split.
  - reflexivity.
Defined.

(** C10. From the filter that [initialize_kalman_filter] builds, after any
    sequence of predict and update calls: no call has raised, the
    covariance is positive, so is S = P + R, the inversion inside update is
    defined, and the gain lies strictly between 0 and 1. *)
Theorem covariance_positive_gain_in_unit_interval
    (sensor_type feature : string) (ops : list KalmanOp) :
  exists kf,
    apply_ops (initialize_kalman_filter sensor_type feature) ops = Some kf /\
    0 < kf_P kf /\
    innovation_covariance kf == kf_P kf + kf_R kf /\
    0 < innovation_covariance kf /\
    (exists Sinv, inv (innovation_covariance kf) = Some Sinv) /\
    (exists K, gain kf = Some K /\ 0 < K /\ K < 1) /\
    (forall z, exists kf', update kf z = Some kf').
Proof.
  destruct (initialize_kalman_filter_configured sensor_type feature) as [Hc HP].
  destruct (apply_ops_invariant ops _ Hc) as (kf & Hops & Hc' & HP').
  { rewrite HP. lra. }
  exists kf. split; [exact Hops|]. split; [exact HP'|].
  destruct Hc' as (HF & HH & HQ & HR).
  assert (HS : innovation_covariance kf == kf_P kf + kf_R kf).
  { unfold innovation_covariance. rewrite HH. ring. }
  assert (HSpos : 0 < innovation_covariance kf) by (rewrite HS, HR; lra).
  split; [exact HS|]. split; [exact HSpos|]. split.
  { exists (/ innovation_covariance kf). apply inv_nonzero. lra. }
  assert (Hc' : configured kf) by (repeat split; assumption).
  split.
  - destruct (update_configured kf 0 Hc' HP') as (K & _ & HK & HKv & _).
    exists K. split; [exact HK|]. rewrite HKv. apply gain_bounds. exact HP'.
  - intros z. destruct (update_configured kf z Hc' HP') as (_ & kf' & _ & _ & Hu & _).
    exists kf'. exact Hu.
Qed.

(** ** The filter on IEEE doubles, fed a constant measurement *)

Lemma binary64_settles :
  Binary64.cycles 48 (Binary64.initialize_kalman_filter "sound" "rms") 0.0195%float
    = Some Binary64.settled_rms_filter /\
  Binary64.update (Binary64.predict Binary64.settled_rms_filter) 0.0195%float
    = Some Binary64.settled_rms_filter.
Proof. split; vm_compute; reflexivity. Qed.

Lemma binary64_settled_from (n : nat) :
  Binary64.cycles (48 + n) (Binary64.initialize_kalman_filter "sound" "rms") 0.0195%float
    = Some Binary64.settled_rms_filter.
Proof.
  induction n as [|n IH].
  - exact (proj1 binary64_settles).
  - replace (48 + S n)%nat with (S (48 + n)) by lia.
    cbn [Binary64.cycles]. rewrite IH. exact (proj2 binary64_settles).
Qed.

Lemma binary64_settled_residual (n : nat) :
  (48 <= n)%nat ->
  Binary64.residual_after n (Binary64.initialize_kalman_filter "sound" "rms") 0.0195%float
    = Some 0x1p-58%float.
Proof.
  intros Hn. replace n with (48 + (n - 48))%nat by lia.
  unfold Binary64.residual_after. rewrite binary64_settled_from.
  vm_compute. reflexivity.
Qed.

(** On that input the descent is weak all the way: no residual exceeds the
    one before it, on doubles as in exact arithmetic. *)
Lemma binary64_residual_never_increases (n : nat) :
  exists r1 r2,
    Binary64.residual_after n (Binary64.initialize_kalman_filter "sound" "rms")
      0.0195%float = Some r1 /\
    Binary64.residual_after (S n) (Binary64.initialize_kalman_filter "sound" "rms")
      0.0195%float = Some r2 /\
    PrimFloat.leb r2 r1 = true.
Proof.
  destruct (Nat.lt_ge_cases n 48) as [Hlt|Hge].
  - assert (Hall : forallb
             (fun m =>
                match Binary64.residual_after m
                        (Binary64.initialize_kalman_filter "sound" "rms") 0.0195%float,
                      Binary64.residual_after (S m)
                        (Binary64.initialize_kalman_filter "sound" "rms") 0.0195%float
                with
                | Some r1, Some r2 => PrimFloat.leb r2 r1
                | _, _ => false
                end) (seq 0 48) = true) by (vm_compute; reflexivity).
    rewrite forallb_forall in Hall.
    specialize (Hall n). rewrite in_seq in Hall.
    assert (Hin : (0 <= n < 0 + 48)%nat) by lia.
    specialize (Hall Hin).
    destruct (Binary64.residual_after n _ _) as [r1|]; [|discriminate].
    destruct (Binary64.residual_after (S n) _ _) as [r2|]; [|discriminate].
    exists r1, r2. auto.
  - exists 0x1p-58%float, 0x1p-58%float.
    split; [apply binary64_settled_residual; lia|].
    split; [apply binary64_settled_residual; lia|].
    vm_compute. reflexivity.
Qed.

(** C9 as stated fails on IEEE doubles.  From the filter that
    [initialize_kalman_filter] builds for rms, fed 0.0195 cycle after
    cycle, the residual after cycle 48 is 2^-58 (3.4694469519536142e-18,
    one unit in the last place of the measurement); the filter is then a
    fixed point of the cycle, so the residual after cycle 49 and after
    every later cycle is that same positive number: the sequence stops
    decreasing and does not tend to zero. *)
Lemma binary64_residual_stalls_above_zero :
  Binary64.residual_after 48 (Binary64.initialize_kalman_filter "sound" "rms") 0.0195%float
    = Some 0x1p-58%float /\
  Binary64.residual_after 49 (Binary64.initialize_kalman_filter "sound" "rms") 0.0195%float
    = Some 0x1p-58%float /\
  PrimFloat.ltb 0x1p-58 0x1p-58 = false /\
  PrimFloat.ltb 0 0x1p-58 = true /\
  (forall n : nat, (48 <= n)%nat ->
     Binary64.residual_after n (Binary64.initialize_kalman_filter "sound" "rms")
       0.0195%float = Some 0x1p-58%float).
Proof.
  split; [apply binary64_settled_residual; lia|].
  split; [apply binary64_settled_residual; lia|].
  split; [vm_compute; reflexivity|].
  split; [vm_compute; reflexivity|].
  exact binary64_settled_residual.
Qed.

(** ** The estimator loop on IEEE doubles *)






(** At the threshold the rounding decides.  A first sound reading of
    rms 0.0195 and zcr 0.0215 on the filters of the script: on doubles both
    residuals are 0.0010000000000000009, above the threshold 0.001, and the
    estimator confirms the reading; in exact arithmetic both residuals are
    the threshold itself, which is not exceeded. *)
Lemma estimator_at_threshold :
  Binary64.residual_after 1 (Binary64.initialize_kalman_filter "sound" "rms")
    0.0195%float = Some 0.0010000000000000009%float /\
  Binary64.residual_after 1 (Binary64.initialize_kalman_filter "sound" "zcr")
    0.0215%float = Some 0.0010000000000000009%float /\
  fst (Binary64.kalman_filter_abnormal sound_columns [0.0195; 0.0215]%float
         Binary64.sound_filters) = inr true /\
  residual (fst (kalman_feature (initialize_kalman_filter "sound" "rms") 0.0195)) 0.0195
    == 0.001 /\
  residual (fst (kalman_feature (initialize_kalman_filter "sound" "zcr") 0.0215)) 0.0215
    == 0.001.
Proof.
  split; [vm_compute; reflexivity|].
  split; [vm_compute; reflexivity|].
  split; [vm_compute; reflexivity|].
  split; vm_compute; reflexivity.
Qed.

(** ** Effects of the sections of a pass *)

Ltac unfold_monad :=
  unfold insert_anomaly, commit, publish, fails, model_predict, count_anomalies,
    modify_world, gets, bind, ret, raise,
    set_isolation_forest_abnormal, set_kalman_filter_abnormal in *.

Ltac case_step :=
  match goal with
  | H : context [if ?b then _ else _] |- _ => destruct b eqn:?
  | H : context [match ?x with _ => _ end] |- _ => destruct x eqn:?
  end.

Ltac inv_pair :=
  repeat match goal with
  | H : (_, _) = (_, _) |- _ => inversion H; subst; clear H
  end.

Lemma same_ledger_refl (st : PassState) : same_ledger st st.
Proof. unfold same_ledger. tauto. Qed.

Lemma same_ledger_trans (a b c : PassState) :
  same_ledger a b -> same_ledger b c -> same_ledger a c.
Proof. unfold same_ledger. intuition congruence. Qed.

Lemma count_out_of_band_pure (values : list Q) (columns : list string) (i c : nat)
    (st : PassState) :
  exists r, count_out_of_band columns i values c st = (r, st).
Proof.
  revert i c. induction values as [|v values IH]; intros i c; simpl.
  - eexists; reflexivity.
  - destruct (columns !! i); [apply IH|]. eexists; reflexivity.
Qed.

Lemma to_floats_pure (cells : list (option Q)) (st : PassState) :
  exists r, to_floats cells st = (r, st).
Proof.
  induction cells as [|c cells IH]; simpl.
  - eexists; reflexivity.
  - destruct c as [v|]; [|eexists; reflexivity].
    destruct IH as [r IH]. unfold bind. rewrite IH.
    destruct r; eexists; reflexivity.
Qed.

Lemma to_floats_values (cells : list (option Q)) (st st' : PassState) (values : list Q) :
  to_floats cells st = (inr values, st') -> cells = List.map Some values.
Proof.
  revert values. induction cells as [|c cells IH]; intros values; simpl.
  - unfold ret. intros E. inversion E. reflexivity.
  - destruct c as [v|]; [|discriminate].
    unfold bind. destruct (to_floats_pure cells st) as [r Hr]. rewrite Hr in *.
    destruct r as [e|vs]; [discriminate|]. unfold ret. intros E. inversion E; subst.
    simpl. f_equal. apply IH. reflexivity.
Qed.

Lemma kalman_at_frame (i : nat) (val : Q) (st st' : PassState) (r : Exn + Q) :
  kalman_at i val st = (r, st') -> same_ledger st st'.
Proof.
  unfold kalman_at. intros E.
  destruct (kf_list st !! i) as [kf|]; [|inversion E; apply same_ledger_refl].
  destruct (kalman_feature kf val) as [kf' [res|]]; inversion E; subst;
    unfold same_ledger; simpl; tauto.
Qed.

Lemma kalman_loop_frame (values : list Q) (columns : list string) (i c : nat)
    (st st' : PassState) (r : Exn + nat) :
  kalman_loop columns i values c st = (r, st') -> same_ledger st st'.
Proof.
  revert i c st. induction values as [|v values IH]; intros i c st; simpl.
  - intros E. inversion E. apply same_ledger_refl.
  - unfold bind. destruct (kalman_at i v st) as [[e|res] st1] eqn:E1.
    + intros E. inversion E; subst. eapply kalman_at_frame; eauto.
    + apply kalman_at_frame in E1.
      destruct (columns !! i).
      * intros E. apply IH in E. eapply same_ledger_trans; eauto.
      * intros E. inversion E; subst. exact E1.
Qed.

(** The Isolation Forest section either leaves the ledger as it found it
    (and may then have raised with its row still uncommitted), or has
    committed its row and set its flag. *)
Lemma isolation_forest_check_effect (env : Env) (sensor_type : string)
    (columns : list string) (model : option IsolationForest) (pid : Z)
    (values : list Q) (ts : Z) (st st' : PassState) (r : Exn + unit) :
  pending (world st) = [] ->
  isolation_forest_check env sensor_type columns model pid values ts st = (r, st') ->
  kf_list st' = kf_list st /\
  kalman_filter_abnormal st' = kalman_filter_abnormal st /\
  robot_moved (world st') = robot_moved (world st) /\
  abnormal_detected (world st') = abnormal_detected (world st) /\
  ((isolation_forest_abnormal st' = isolation_forest_abnormal st /\
    anomalies (world st') = anomalies (world st) /\
    (pending (world st') = [] \/ exists e, r = inl e))
   \/
   (isolation_forest_abnormal st' = true /\ r = inr tt /\
    pending (world st') = [] /\
    anomalies (world st') =
      anomalies (world st) ++ [isolation_forest_record pid sensor_type values ts])).
Proof.
  intros Hp E. unfold isolation_forest_check in E. unfold_monad.
  destruct model as [f|]; [|inv_pair; simpl; tauto].
  cbn [world kf_list isolation_forest_abnormal kalman_filter_abnormal] in E.
  destruct (f values =? -1)%Z; [|inv_pair; simpl; intuition].
  destruct (String.eqb sensor_type "sound") eqn:Es.
  - match type of E with context [count_out_of_band ?a ?b ?c ?d ?s] =>
      destruct (count_out_of_band_pure c a b d s) as [rc Hc]; rewrite Hc in E end.
    destruct rc as [e|n]; [inv_pair; simpl; intuition eauto|].
    destruct (Nat.eqb n (length columns)); [|inv_pair; simpl; intuition].
    simpl in E.
    destruct (raises env AtInsertIF); [inv_pair; simpl; intuition eauto|].
    simpl in E.
    destruct (raises env AtCommitIF); inv_pair; simpl.
    + intuition eauto.
    + repeat split; auto. right. rewrite Hp. unfold isolation_forest_record.
      apply String.eqb_eq in Es. subst sensor_type. simpl. auto.
  - destruct (String.eqb sensor_type "light") eqn:El; [|inv_pair; simpl; intuition].
    destruct (values !! 0%nat); [|inv_pair; simpl; intuition eauto].
    simpl in E.
    destruct (raises env AtInsertIF); [inv_pair; simpl; intuition eauto|].
    simpl in E.
    destruct (raises env AtCommitIF); inv_pair; simpl.
    + intuition eauto.
    + repeat split; auto. right. rewrite Hp. unfold isolation_forest_record.
      rewrite El. auto.
Qed.

(** The Kalman Filter section, likewise. *)
Lemma kalman_check_effect (env : Env) (sensor_type : string)
    (columns : list string) (pid : Z) (values : list Q) (ts : Z)
    (st st' : PassState) (r : Exn + unit) :
  pending (world st) = [] ->
  kalman_check env sensor_type columns pid values ts st = (r, st') ->
  isolation_forest_abnormal st' = isolation_forest_abnormal st /\
  robot_moved (world st') = robot_moved (world st) /\
  abnormal_detected (world st') = abnormal_detected (world st) /\
  ((kalman_filter_abnormal st' = kalman_filter_abnormal st /\
    anomalies (world st') = anomalies (world st) /\
    (pending (world st') = [] \/ exists e, r = inl e))
   \/
   (kalman_filter_abnormal st' = true /\ r = inr tt /\
    pending (world st') = [] /\
    anomalies (world st') =
      anomalies (world st) ++ [kalman_record pid sensor_type values ts])).
Proof.
  intros Hp E. unfold kalman_check in E. unfold_monad.
  destruct (kalman_loop columns 0 values 0 st) as [[e|n] st1] eqn:E1;
    apply kalman_loop_frame in E1;
    destruct E1 as (Ha & Hpe & Hr & Had & Hi & Hk).
  { inv_pair. intuition eauto. }
  destruct (Nat.eqb n (length columns)).
  2:{ inv_pair. rewrite Hpe. intuition. }
  simpl in E.
  destruct (raises env AtInsertKF);
    [inv_pair; simpl; intuition eauto|].
  simpl in E.
  destruct (raises env AtCommitKF); inv_pair; simpl.
  - intuition eauto.
  - repeat split; auto. right. rewrite Hpe, Hp, Ha. auto.
Qed.

(** The last section touches the two flags only. *)
Lemma act_effect (env : Env) (sensor_type : string) (st st' : PassState) (r : Exn + unit) :
  act env sensor_type st = (r, st') ->
  anomalies (world st') = anomalies (world st) /\
  pending (world st') = pending (world st) /\
  kf_list st' = kf_list st /\
  isolation_forest_abnormal st' = isolation_forest_abnormal st /\
  kalman_filter_abnormal st' = kalman_filter_abnormal st /\
  robot_moved (world st') =
    robot_moved (world st)
    || fires sensor_type (isolation_forest_abnormal st) (kalman_filter_abnormal st)
         (robot_moved (world st)) /\
  abnormal_detected (world st') =
    abnormal_detected (world st)
    || fires sensor_type (isolation_forest_abnormal st) (kalman_filter_abnormal st)
         (robot_moved (world st)).
Proof.
  unfold act, fires. unfold_monad. intros E.
  destruct (String.eqb sensor_type "sound" && isolation_forest_abnormal st
            && kalman_filter_abnormal st).
  2:{ inv_pair. simpl. rewrite !orb_false_r. tauto. }
  destruct (robot_moved (world st)) eqn:Hm; simpl in E.
  { inv_pair. rewrite Hm. simpl. rewrite !orb_false_r. tauto. }
  destruct (raises env AtPublishMove); simpl in E;
    [inv_pair; simpl; rewrite !orb_true_r; tauto|].
  destruct (raises env AtPublishAlert); inv_pair; simpl;
    rewrite !orb_true_r; tauto.
Qed.

Arguments select_latest : simpl never.
Arguments select_count : simpl never.

Lemma fetch_latest_effect (env : Env) (table : string) (columns : list string)
    (st st' : PassState) (r : Exn + option Row) :
  fetch_latest env table columns st = (r, st') ->
  same_ledger st st' /\ kf_list st' = kf_list st /\
  forall row, r = inr (Some row) ->
    exists rows,
      tables env !! table = Some rows /\ select_latest columns rows = Some (Some row).
Proof.
  unfold fetch_latest. unfold_monad. intros E.
  destruct columns as [|c0 cols].
  { inv_pair. split; [apply same_ledger_refl|]. split; [reflexivity|]. discriminate. }
  simpl in E.
  destruct (raises env AtSelectLatest); simpl in E.
  { inv_pair. unfold same_ledger. simpl. intuition discriminate. }
  destruct (tables env !! table) as [rows|] eqn:Et.
  2:{ inv_pair. unfold same_ledger. simpl. intuition discriminate. }
  destruct (select_latest (c0 :: cols) rows) as [row|] eqn:Es.
  2:{ inv_pair. unfold same_ledger. simpl. intuition discriminate. }
  inv_pair. unfold same_ledger. simpl. repeat split; auto.
  intros row' E'. inversion E'; subst. eauto.
Qed.

Lemma fires_no_kalman (s : string) (i m : bool) : fires s i false m = false.
Proof. unfold fires. rewrite andb_false_r. reflexivity. Qed.

Lemma count_anomalies_effect (env : Env) (ts : Z) (sensor_type : string)
    (st st' : PassState) (r : Exn + nat) :
  count_anomalies env ts sensor_type st = (r, st') ->
  same_ledger st st' /\ kf_list st' = kf_list st /\
  forall n, r = inr n ->
    n = select_count ts sensor_type (anomalies (world st) ++ pending (world st)).
Proof.
  unfold count_anomalies. unfold_monad. intros E. simpl in E.
  destruct (raises env AtSelectCount); simpl in E; inv_pair;
    unfold same_ledger; simpl; repeat split; auto; try discriminate.
  intros n E'. inversion E'. reflexivity.
Qed.

(** What the body of a pass has done when it ends, normally or not. *)
Lemma detection_body_effect (env : Env) (sensor_type : string) (columns : list string)
    (table : string) (model : option IsolationForest) (kfs : list KalmanFilter)
    (w : World) (st : PassState) (r : Exn + unit) :
  pending w = [] ->
  detection_body env sensor_type columns table model (mkPassState w kfs false false)
    = (r, st) ->
  (pending (world st) = [] \/ exists e, r = inl e) /\
  robot_moved (world st) =
    robot_moved w
    || fires sensor_type (isolation_forest_abnormal st) (kalman_filter_abnormal st)
         (robot_moved w) /\
  abnormal_detected (world st) =
    abnormal_detected w
    || fires sensor_type (isolation_forest_abnormal st) (kalman_filter_abnormal st)
         (robot_moved w) /\
  ((isolation_forest_abnormal st = false /\ kalman_filter_abnormal st = false /\
    anomalies (world st) = anomalies w)
   \/
   exists rid pid values ts rows,
     abnormal_detected w = false /\
     tables env !! table = Some rows /\
     select_latest columns rows = Some (Some (rid, pid, List.map Some values, ts)) /\
     select_count ts sensor_type (anomalies w) = 0%nat /\
     anomalies (world st) =
       anomalies w
       ++ committed_records (isolation_forest_abnormal st) (kalman_filter_abnormal st)
            pid sensor_type values ts).
Proof.
  intros Hp E. unfold detection_body in E.
  unfold bind at 1 in E. unfold gets at 1 in E. cbn [world abnormal_detected] in E.
  destruct (Bool.bool_dec (abnormal_detected w) true) as [Hlock|Hlock];
    [|apply not_true_is_false in Hlock]; rewrite Hlock in E.
  { unfold ret in E. inv_pair. simpl. rewrite fires_no_kalman, !orb_false_r. tauto. }
  unfold bind at 1 in E.
  destruct (fetch_latest env table columns (mkPassState w kfs false false))
    as [rrow st1] eqn:Ef.
  apply fetch_latest_effect in Ef. destruct Ef as (L1 & _ & Hrow).
  destruct L1 as (A1 & P1 & M1 & D1 & I1 & K1). simpl in A1, P1, M1, D1, I1, K1.
  destruct rrow as [e|[[[[rid pid] cells] ts]|]].
  { inv_pair. rewrite I1, K1, M1, D1, A1, P1. rewrite fires_no_kalman, !orb_false_r.
    intuition eauto. }
  2:{ unfold ret in E. inv_pair.
      rewrite I1, K1, M1, D1, A1, P1. rewrite fires_no_kalman, !orb_false_r.
      intuition eauto. }
  destruct (Hrow _ eq_refl) as (rows & Ht & Hs). clear Hrow.
  unfold bind at 1 in E.
  destruct (count_anomalies env ts sensor_type st1) as [rn st2] eqn:Ec.
  apply count_anomalies_effect in Ec. destruct Ec as (L2 & _ & Hn).
  destruct L2 as (A2 & P2 & M2 & D2 & I2 & K2).
  rewrite A1 in A2. rewrite P1 in P2. rewrite M1 in M2. rewrite D1 in D2.
  rewrite I1 in I2. rewrite K1 in K2.
  destruct rn as [e|n].
  { inv_pair. rewrite I2, K2, M2, D2, A2, P2. rewrite fires_no_kalman, !orb_false_r.
    intuition eauto. }
  specialize (Hn n eq_refl). rewrite A1, P1, Hp, app_nil_r in Hn.
  destruct (0 <? n)%nat eqn:Hpos.
  { unfold ret in E. inv_pair.
    rewrite I2, K2, M2, D2, A2, P2. rewrite fires_no_kalman, !orb_false_r.
    intuition eauto. }
  apply Nat.ltb_ge in Hpos. assert (Hn0 : n = 0%nat) by lia. subst n.
  unfold bind at 1 in E.
  destruct (to_floats_pure cells st2) as [rv Hv]. rewrite Hv in E.
  destruct rv as [e|values].
  { inv_pair. rewrite I2, K2, M2, D2, A2, P2. rewrite fires_no_kalman, !orb_false_r.
    intuition eauto. }
  apply to_floats_values in Hv. subst cells.
  unfold bind at 1 in E.
  destruct (isolation_forest_check env sensor_type columns model pid values ts st2)
    as [r3 st3] eqn:E3.
  apply isolation_forest_check_effect in E3; [|rewrite P2; exact Hp].
  destruct E3 as (_ & K3 & M3 & D3 & H3).
  rewrite K2 in K3. rewrite M2 in M3. rewrite D2 in D3. rewrite I2, A2 in H3.
  assert (Hrec : forall stx : PassState,
    anomalies (world stx) =
      anomalies w
      ++ committed_records (isolation_forest_abnormal stx) (kalman_filter_abnormal stx)
           pid sensor_type values ts ->
    exists rid pid values ts rows,
     abnormal_detected w = false /\
     tables env !! table = Some rows /\
     select_latest columns rows = Some (Some (rid, pid, List.map Some values, ts)) /\
     select_count ts sensor_type (anomalies w) = 0%nat /\
     anomalies (world stx) =
       anomalies w
       ++ committed_records (isolation_forest_abnormal stx) (kalman_filter_abnormal stx)
            pid sensor_type values ts).
  { intros stx Ha. exists rid, pid, values, ts, rows. auto. }
  destruct r3 as [e|[]].
  { inv_pair. destruct H3 as [(I3 & A3 & _)|(_ & Hno & _)]; [|discriminate].
    rewrite I3, K3, M3, D3, A3. rewrite fires_no_kalman, !orb_false_r.
    intuition eauto. }
  assert (P3 : pending (world st3) = []).
  { destruct H3 as [(_ & _ & [P3|[e He]])|(_ & _ & P3 & _)]; auto. discriminate. }
  assert (A3 : anomalies (world st3) =
    anomalies w ++ committed_records (isolation_forest_abnormal st3) false pid sensor_type values ts).
  { destruct H3 as [(I3 & A3 & _)|(I3 & _ & _ & A3)]; rewrite I3, A3.
    - unfold committed_records. simpl. rewrite app_nil_r. reflexivity.
    - unfold committed_records. simpl. reflexivity. }
  clear H3.
  unfold bind at 1 in E.
  destruct (kalman_check env sensor_type columns pid values ts st3) as [r4 st4] eqn:E4.
  apply kalman_check_effect in E4; [|exact P3].
  destruct E4 as (I4 & M4 & D4 & H4).
  rewrite M3 in M4. rewrite D3 in D4. rewrite K3 in H4.
  destruct r4 as [e|[]].
  { inv_pair. destruct H4 as [(K4 & A4 & _)|(_ & Hno & _)]; [|discriminate].
    split; [eauto|].
    split; [rewrite K4, M4, fires_no_kalman, orb_false_r; reflexivity|].
    split; [rewrite K4, D4, fires_no_kalman, orb_false_r; reflexivity|].
    right. apply Hrec. rewrite K4, A4, A3, I4. reflexivity. }
  assert (P4 : pending (world st4) = []).
  { destruct H4 as [(_ & _ & [P4|[e He]])|(_ & _ & P4 & _)]; auto. discriminate. }
  assert (A4 : anomalies (world st4) =
    anomalies w ++ committed_records (isolation_forest_abnormal st4)
                     (kalman_filter_abnormal st4) pid sensor_type values ts).
  { rewrite I4. destruct H4 as [(K4 & A4 & _)|(K4 & _ & _ & A4)]; rewrite K4, A4, A3.
    - reflexivity.
    - unfold committed_records. simpl. rewrite app_nil_r, <- app_assoc. reflexivity. }
  clear H4.
  apply act_effect in E. destruct E as (A5 & P5 & _ & I5 & K5 & M5 & D5).
  split; [rewrite P5, P4; auto|].
  split; [rewrite I5, K5, M5, M4; reflexivity|].
  split; [rewrite I5, K5, D5, M4, D4; reflexivity|].
  right. apply Hrec. rewrite A5, I5, K5, A4. reflexivity.
Qed.

(** What a call of [run_detection] has done when it returns. *)
Lemma pass_summary (env : Env) (sensor_type : string) (columns : list string)
    (table : string) (model : option IsolationForest) (kfs : list KalmanFilter)
    (w : World) (st : PassState) (caught : option Exn) :
  pending w = [] ->
  run_detection env sensor_type columns table model kfs w = (st, caught) ->
  pending (world st) = [] /\
  robot_moved (world st) =
    robot_moved w
    || fires sensor_type (isolation_forest_abnormal st) (kalman_filter_abnormal st)
         (robot_moved w) /\
  abnormal_detected (world st) =
    abnormal_detected w
    || fires sensor_type (isolation_forest_abnormal st) (kalman_filter_abnormal st)
         (robot_moved w) /\
  ((isolation_forest_abnormal st = false /\ kalman_filter_abnormal st = false /\
    anomalies (world st) = anomalies w)
   \/
   exists rid pid values ts rows,
     abnormal_detected w = false /\
     tables env !! table = Some rows /\
     select_latest columns rows = Some (Some (rid, pid, List.map Some values, ts)) /\
     select_count ts sensor_type (anomalies w) = 0%nat /\
     anomalies (world st) =
       anomalies w
       ++ committed_records (isolation_forest_abnormal st) (kalman_filter_abnormal st)
            pid sensor_type values ts).
Proof.
  intros Hp E. unfold run_detection in E.
  destruct (detection_body env sensor_type columns table model
              (mkPassState w kfs false false)) as [r st1] eqn:Eb.
  apply detection_body_effect in Eb; [|exact Hp].
  destruct Eb as (Hpe & Hm & Hd & Hrec).
  destruct r as [e|u]; inv_pair.
  - simpl. auto.
  - destruct Hpe as [Hpe|[e He]]; [|discriminate]. auto.
Qed.

(** A pass that finds the flag [abnormal_detected] set returns at once. *)
Lemma locked_pass (env : Env) (sensor_type : string) (columns : list string)
    (table : string) (model : option IsolationForest) (kfs : list KalmanFilter)
    (w : World) :
  abnormal_detected w = true ->
  run_detection env sensor_type columns table model kfs w
    = (mkPassState w kfs false false, None).
Proof.
  intros H. unfold run_detection, detection_body, bind, gets. simpl. rewrite H.
  reflexivity.
Qed.

(** The worlds the process can be in between passes. *)
Lemma run_pass_consistent (p : Pass) (w : World) :
  pending w = [] -> robot_moved w = abnormal_detected w ->
  pending (world (fst (run_pass p w))) = [] /\
  robot_moved (world (fst (run_pass p w))) = abnormal_detected (world (fst (run_pass p w))).
Proof.
  intros Hp Hm. destruct (run_pass p w) as [st caught] eqn:E.
  unfold run_pass in E. apply pass_summary in E; [|exact Hp].
  destruct E as (Hp' & Hm' & Hd' & _). simpl. split; [exact Hp'|].
  rewrite Hm', Hd', Hm. reflexivity.
Qed.

Lemma run_passes_consistent (ps : list Pass) (w : World) :
  pending w = [] -> robot_moved w = abnormal_detected w ->
  pending (run_passes ps w) = [] /\
  robot_moved (run_passes ps w) = abnormal_detected (run_passes ps w).
Proof.
  revert w. induction ps as [|p ps IH]; intros w Hp Hm; simpl; [auto|].
  destruct (run_pass_consistent p w Hp Hm) as [Hp' Hm']. apply IH; assumption.
Qed.

Lemma latch_fired (w : World) : latch w = FIRED <-> abnormal_detected w = true.
Proof. unfold latch. destruct (abnormal_detected w); split; congruence. Qed.

Lemma latch_open (w : World) : latch w = OPEN <-> abnormal_detected w = false.
Proof. unfold latch. destruct (abnormal_detected w); split; congruence. Qed.

Lemma fired_stays (p : Pass) (w : World) :
  latch w = FIRED -> world (fst (run_pass p w)) = w.
Proof.
  intros H. apply latch_fired in H. unfold run_pass. rewrite locked_pass by exact H.
  reflexivity.
Qed.

Lemma history_after_fired (ps : list Pass) (w : World) :
  latch w = FIRED ->
  firings (List.map latch (worlds ps w)) = 0%nat /\
  resets (List.map latch (worlds ps w)) = 0%nat.
Proof.
  revert w. induction ps as [|p ps IH]; intros w H; simpl.
  - rewrite H. auto.
  - rewrite (fired_stays p w H). specialize (IH w H).
    destruct ps as [|q ps]; simpl in *; rewrite H in *; simpl in *; exact IH.
Qed.

Lemma worlds_head (ps : list Pass) (w : World) :
  exists t, worlds ps w = w :: t.
Proof. destruct ps; simpl; eauto. Qed.

Lemma history_from_any (ps : list Pass) (w : World) :
  (firings (List.map latch (worlds ps w)) <= 1)%nat /\
  resets (List.map latch (worlds ps w)) = 0%nat.
Proof.
  revert w. induction ps as [|p ps IH]; intros w.
  - simpl. destruct (latch w); simpl; auto.
  - destruct (latch w) eqn:Hw.
    2:{ destruct (history_after_fired (p :: ps) w Hw) as [-> ->]. auto. }
    simpl. rewrite Hw. set (w' := world (fst (run_pass p w))).
    destruct (worlds_head ps w') as [t Ht].
    destruct (latch w') eqn:Hw'.
    + specialize (IH w'). rewrite Ht in *. simpl in *. rewrite Hw' in *. exact IH.
    + destruct (history_after_fired ps w' Hw') as [Hf Hr].
      rewrite Ht in *. simpl in *. rewrite Hw' in *. rewrite Hf, Hr. auto.
Qed.

(** ** The alert latch *)

Lemma run_passes_fired (ps : list Pass) (w : World) :
  latch w = FIRED -> run_passes ps w = w.
Proof.
  intros H. induction ps as [|p ps IH]; simpl; [reflexivity|].
  rewrite (fired_stays p w H). exact IH.
Qed.

(** C4. A pass of any sensor type that starts with the latch FIRED returns
    at once: the world is the one it started in (no call on the reading
    source, the detectors, the ledger or the channel is added to the
    trace, no row is inserted), the filter objects are untouched and no
    flag is set; so is every sequence of passes from then on. *)
Theorem fired_latch_pass_is_noop (env : Env) (sensor_type : string)
    (columns : list string) (table : string) (model : option IsolationForest)
    (kfs : list KalmanFilter) (w : World) :
  latch w = FIRED ->
  run_detection env sensor_type columns table model kfs w
    = (mkPassState w kfs false false, None) /\
  forall ps : list Pass, run_passes ps w = w.
Proof.
  intros H. split.
  - apply locked_pass. apply latch_fired. exact H.
  - intros ps. apply run_passes_fired. exact H.
Qed.

Lemma fired_latch_pass_is_noop_witness :
  latch (fire (initial_world [])) = FIRED /\
  run_detection (readings_env [loud_reading] no_fault) "sound" sound_columns
    "smart_room_readings" (Some always_outlier) sound_filters (fire (initial_world []))
  = (mkPassState (fire (initial_world [])) sound_filters false false, None).
Proof.
  split; [reflexivity|].
  apply (fired_latch_pass_is_noop (readings_env [loud_reading] no_fault) "sound"
           sound_columns "smart_room_readings" (Some always_outlier) sound_filters
           (fire (initial_world []))).
  reflexivity.
Defined.

(** C3. From the start of the script, whatever passes have run: a pass
    that starts with the latch OPEN leaves it FIRED exactly when it is a
    pass for the sound sensor that ends with both confirmations true; over
    any sequence of passes the latch goes from OPEN to FIRED at most once
    and never from FIRED to OPEN. *)
Theorem latch_fires_exactly_on_double_confirmation :
  (forall (ledger : list AnomalyRecord) (ps : list Pass) (p : Pass),
      let w := run_passes ps (initial_world ledger) in
      let st := fst (run_pass p w) in
      latch w = OPEN ->
      (latch (world st) = FIRED <->
       p_sensor_type p = "sound"%string /\
       isolation_forest_abnormal st = true /\ kalman_filter_abnormal st = true)) /\
  (forall (ledger : list AnomalyRecord) (ps : list Pass),
      (firings (List.map latch (worlds ps (initial_world ledger))) <= 1)%nat /\
      resets (List.map latch (worlds ps (initial_world ledger))) = 0%nat) /\
  (forall (p : Pass) (w : World),
      latch w = FIRED -> latch (world (fst (run_pass p w))) = FIRED).
Proof.
  split; [|split].
  - intros ledger ps p w st Hopen.
    destruct (run_passes_consistent ps (initial_world ledger) eq_refl eq_refl)
      as [Hp Hm].
    fold w in Hp, Hm. apply latch_open in Hopen.
    destruct (run_pass p w) as [st' caught] eqn:E. subst st. simpl.
    unfold run_pass in E. apply pass_summary in E; [|exact Hp].
    destruct E as (_ & _ & Hd & _).
    rewrite latch_fired, Hd, Hm, Hopen. unfold fires. simpl.
    rewrite andb_true_r, !andb_true_iff, String.eqb_eq. tauto.
  - intros ledger ps. apply history_from_any.
  - intros p w H. rewrite (fired_stays p w H). exact H.
Qed.

Lemma latch_fires_exactly_on_double_confirmation_witness :
  latch (run_passes [] (initial_world [])) = OPEN /\
  latch (world (fst (run_pass (loud_pass no_fault) (run_passes [] (initial_world [])))))
    = FIRED.
Proof.
  split; [reflexivity|].
  apply (proj1 latch_fires_exactly_on_double_confirmation [] [] (loud_pass no_fault)).
  - reflexivity.
  - vm_compute. auto.
Defined.

(** ** The ledger *)

Lemma select_count_zero (ts : Z) (s : string) (l : list AnomalyRecord) (a : AnomalyRecord) :
  select_count ts s l = 0%nat -> In a l -> reading_key a <> (ts, s).
Proof.
  unfold select_count. intros Hc Hin Hk.
  assert (Hf : In a (List.filter (same_reading ts s) l)).
  { apply filter_In. split; [exact Hin|]. unfold same_reading.
    unfold reading_key in Hk. inversion Hk; subst.
    rewrite Z.eqb_refl, String.eqb_refl. reflexivity. }
  destruct (List.filter (same_reading ts s) l); [contradiction|discriminate].
Qed.

Lemma isolation_forest_record_key (pid : Z) (s : string) (values : list Q) (ts : Z) :
  detection_key (isolation_forest_record pid s values ts) = (ts, s, "Isolation Forest"%string).
Proof.
  unfold isolation_forest_record, detection_key.
  destruct (String.eqb s "light") eqn:E; simpl; [|reflexivity].
  apply String.eqb_eq in E. subst. reflexivity.
Qed.

Lemma kalman_record_key (pid : Z) (s : string) (values : list Q) (ts : Z) :
  detection_key (kalman_record pid s values ts) = (ts, s, "Kalman Filter"%string).
Proof. reflexivity. Qed.

Lemma committed_records_keys (ifa kfa : bool) (pid : Z) (s : string) (values : list Q)
    (ts : Z) :
  List.map detection_key (committed_records ifa kfa pid s values ts) =
  (if ifa then [(ts, s, "Isolation Forest"%string)] else [])
  ++ (if kfa then [(ts, s, "Kalman Filter"%string)] else []).
Proof.
  unfold committed_records. rewrite List.map_app.
  destruct ifa, kfa; simpl;
    rewrite ?isolation_forest_record_key, ?kalman_record_key; reflexivity.
Qed.

Lemma committed_records_length (ifa kfa : bool) (pid : Z) (s : string) (values : list Q)
    (ts : Z) :
  (length (committed_records ifa kfa pid s values ts) <= 2)%nat.
Proof. destruct ifa, kfa; simpl; lia. Qed.

Lemma run_pass_pending (p : Pass) (w : World) :
  pending w = [] -> pending (world (fst (run_pass p w))) = [].
Proof.
  intros Hp. destruct (run_pass p w) as [st caught] eqn:E.
  unfold run_pass in E. apply pass_summary in E; [|exact Hp]. apply E.
Qed.

(** A pass keeps the ledger free of two rows with the same reading and
    method. *)
Lemma run_pass_keys (p : Pass) (w : World) :
  pending w = [] ->
  NoDup (List.map detection_key (anomalies w)) ->
  NoDup (List.map detection_key (anomalies (world (fst (run_pass p w))))).
Proof.
  intros Hp Hnd. destruct (run_pass p w) as [st caught] eqn:E.
  unfold run_pass in E. apply pass_summary in E; [|exact Hp].
  destruct E as (_ & _ & _ & [(_ & _ & Ha)|(rid & pid & values & ts & rows & _ & _ & _ & Hc & Ha)]);
    simpl; rewrite Ha; [exact Hnd|].
  rewrite List.map_app, committed_records_keys.
  apply NoDup_app. split; [exact Hnd|]. split.
  - intros k Hk Hnew. apply list_elem_of_In in Hk. apply list_elem_of_In in Hnew.
    apply in_map_iff in Hk. destruct Hk as (a & Hka & Hin).
    apply (select_count_zero _ _ _ a Hc Hin).
    unfold detection_key in Hka. unfold reading_key.
    apply in_app_or in Hnew.
    destruct Hnew as [Hnew|Hnew];
      [destruct (isolation_forest_abnormal st)|destruct (kalman_filter_abnormal st)];
      simpl in Hnew; try contradiction;
      destruct Hnew as [Hnew|[]]; rewrite <- Hnew in Hka; inversion Hka; reflexivity.
  - destruct (isolation_forest_abnormal st), (kalman_filter_abnormal st); simpl;
      repeat constructor; try apply not_elem_of_nil.
    intros Hin. apply list_elem_of_In in Hin. destruct Hin as [Hin|[]]. discriminate.
Qed.

(** C5 (as amended). From a ledger without an open transaction in which no
    two rows share timestamp, sensor type and detecting method, every
    sequence of passes leaves such a ledger: a reading has at most one row
    per detector. *)
Theorem ledger_one_record_per_reading_and_method (ps : list Pass) (w : World) :
  pending w = [] ->
  NoDup (List.map detection_key (anomalies w)) ->
  NoDup (List.map detection_key (anomalies (run_passes ps w))).
Proof.
  revert w. induction ps as [|p ps IH]; intros w Hp Hnd; simpl; [exact Hnd|].
  apply IH; [apply run_pass_pending; exact Hp|]. apply run_pass_keys; assumption.
Qed.

Lemma ledger_one_record_per_reading_and_method_witness :
  NoDup (List.map detection_key
           (anomalies (run_passes [bright_pass; loud_pass no_fault; bright_pass]
                         (initial_world [])))).
Proof.
  apply (ledger_one_record_per_reading_and_method
           [bright_pass; loud_pass no_fault; bright_pass] (initial_world [])).
  - reflexivity.
  - simpl. constructor.
Defined.

(** C5 as stated fails: one pass on the loud sound reading, confirmed by
    both detectors, leaves two rows with the same timestamp and sensor
    type. *)
Lemma two_records_share_timestamp_and_sensor :
  List.map reading_key (anomalies (run_passes [loud_pass no_fault] (initial_world [])))
    = [(1000%Z, "sound"%string); (1000%Z, "sound"%string)] /\
  ~ NoDup (List.map reading_key
             (anomalies (run_passes [loud_pass no_fault] (initial_world [])))).
Proof.
  assert (E : List.map reading_key
                (anomalies (run_passes [loud_pass no_fault] (initial_world [])))
              = [(1000%Z, "sound"%string); (1000%Z, "sound"%string)])
    by (vm_compute; reflexivity).
  split; [exact E|]. rewrite E. intros H.
  apply NoDup_cons_1_1 in H. apply H. left.
Qed.

(** ** Failing passes and repeated passes *)

Lemma caught_ends_with_rollback (env : Env) (sensor_type : string) (columns : list string)
    (table : string) (model : option IsolationForest) (kfs : list KalmanFilter)
    (w : World) (st : PassState) (e : Exn) :
  run_detection env sensor_type columns table model kfs w = (st, Some e) ->
  exists tr, trace (world st) = tr ++ [EvRollback].
Proof.
  unfold run_detection.
  destruct (detection_body env sensor_type columns table model
              (mkPassState w kfs false false)) as [[e'|u] st1]; intros E; inv_pair.
  simpl. eauto.
Qed.

Lemma run_detection_call_returns (env : Env) (sensor_type : string)
    (columns : list string) (table : string) (model : option IsolationForest)
    (kfs : list KalmanFilter) (w : World) :
  run_detection_call false env sensor_type columns table model kfs w
  = Returns (fst (run_detection env sensor_type columns table model kfs w))
      (snd (run_detection env sensor_type columns table model kfs w)).
Proof.
  unfold run_detection_call, run_detection, handler, set_world.
  destruct (detection_body env sensor_type columns table model
              (mkPassState w kfs false false)) as [[e|u] st]; reflexivity.
Qed.

(** With a handler that always returns, the loop is [main_loop]. *)
Lemma main_loop_call_returns (envs : string -> Env) (mdl : gmap string IsolationForest)
    (cfgs : list (string * SensorCfg)) (kfs : gmap string (list KalmanFilter))
    (w w' : World) (kfs' : gmap string (list KalmanFilter)) :
  main_loop_call envs (fun _ => false) mdl cfgs kfs w = Finished w' kfs' <->
  main_loop envs mdl cfgs kfs w = Some (w', kfs').
Proof.
  revert kfs w. induction cfgs as [|[sensor cfg] rest IH]; intros kfs w.
  - simpl. split; intros E; inversion E; reflexivity.
  - cbn [main_loop_call main_loop].
    destruct (mdl !! sensor) as [model|]; [|apply IH].
    destruct (kfs !! sensor) as [l|]; [|split; discriminate].
    rewrite run_detection_call_returns. apply IH.
Qed.

(** An exception leaves a call only through a failing rollback, and the
    loop then stops: the sensors after the failing one get no pass. *)
Lemma lost_connection_ends_main_loop
    (envs : string -> Env) (rollback_raises : string -> bool)
    (mdl : gmap string IsolationForest) (sensor : string) (cfg : SensorCfg)
    (rest : list (string * SensorCfg)) (kfs : gmap string (list KalmanFilter))
    (model : IsolationForest) (l : list KalmanFilter) (w : World) (e : Exn)
    (st : PassState) :
  mdl !! sensor = Some model ->
  kfs !! sensor = Some l ->
  detection_body (envs sensor) sensor (columns cfg)
    (default "smart_room_readings"%string (table cfg)) (Some model)
    (mkPassState w l false false) = (inl e, st) ->
  rollback_raises sensor = true ->
  run_detection_call (rollback_raises sensor) (envs sensor) sensor (columns cfg)
    (default "smart_room_readings"%string (table cfg)) (Some model) l w
    = Propagates DatabaseError (set_world (log EvRollback (world st)) st) /\
  main_loop_call envs rollback_raises mdl ((sensor, cfg) :: rest) kfs w
    = Uncaught DatabaseError (log EvRollback (world st)).
Proof.
  intros Hm Hk Hbody Hrb. cbn [main_loop_call]. rewrite Hm, Hk.
  unfold run_detection_call. rewrite Hbody, Hrb. unfold handler. split; reflexivity.
Qed.

(** C2 (as amended). In the main loop, a pass whose body raises and whose
    [conn.rollback()] returns: the call returns with the exception caught;
    the rollback is the last call of the pass and leaves no uncommitted
    row; the rows the pass had committed before the failure (one for each
    confirmation flag already set) stay in the ledger; and the loop goes
    on with the sensors that follow, from the world the pass left. *)
Theorem failing_pass_rolls_back_uncommitted
    (envs : string -> Env) (rollback_raises : string -> bool)
    (mdl : gmap string IsolationForest) (sensor : string) (cfg : SensorCfg)
    (rest : list (string * SensorCfg)) (kfs : gmap string (list KalmanFilter))
    (model : IsolationForest) (l : list KalmanFilter) (w : World) (e : Exn)
    (st : PassState) :
  pending w = [] ->
  mdl !! sensor = Some model ->
  kfs !! sensor = Some l ->
  detection_body (envs sensor) sensor (columns cfg)
    (default "smart_room_readings"%string (table cfg)) (Some model)
    (mkPassState w l false false) = (inl e, st) ->
  rollback_raises sensor = false ->
  exists st',
    run_detection_call (rollback_raises sensor) (envs sensor) sensor (columns cfg)
      (default "smart_room_readings"%string (table cfg)) (Some model) l w
      = Returns st' (Some e) /\
    trace (world st') = trace (world st) ++ [EvRollback] /\
    pending (world st') = [] /\
    anomalies (world st') = anomalies (world st) /\
    (exists pid values ts,
        anomalies (world st') =
          anomalies w
          ++ committed_records (isolation_forest_abnormal st') (kalman_filter_abnormal st')
               pid sensor values ts) /\
    main_loop_call envs rollback_raises mdl ((sensor, cfg) :: rest) kfs w
      = main_loop_call envs rollback_raises mdl rest
          (<[sensor:=kf_list st']> kfs) (world st').
Proof.
  intros Hp Hm Hk Hbody Hrb.
  exists (set_world (rollback (world st)) st).
  assert (Hcall :
    run_detection_call (rollback_raises sensor) (envs sensor) sensor (columns cfg)
      (default "smart_room_readings"%string (table cfg)) (Some model) l w
    = Returns (set_world (rollback (world st)) st) (Some e)).
  { unfold run_detection_call. rewrite Hbody, Hrb. reflexivity. }
  split; [exact Hcall|]. split; [reflexivity|]. split; [reflexivity|].
  split; [reflexivity|]. split.
  - apply detection_body_effect in Hbody; [|exact Hp].
    destruct Hbody as (_ & _ & _ & Hrec). cbn.
    destruct Hrec as [(Hi & Hk' & Ha)|(rid & pid & values & ts & rows & _ & _ & _ & _ & Ha)].
    + exists 0%Z, [], 0%Z. rewrite Hi, Hk', Ha. simpl. rewrite app_nil_r. reflexivity.
    + exists pid, values, ts. exact Ha.
  - cbn [main_loop_call]. rewrite Hm, Hk, Hcall. reflexivity.
Qed.

Lemma failing_pass_rolls_back_uncommitted_witness :
  exists st',
    run_detection_call (rollback_returns "light") (light_insert_fails "light") "light"
      light_columns "smart_room_readings" (Some always_outlier) light_filters
      (initial_world [])
      = Returns st' (Some DatabaseError) /\
    pending (world st') = [] /\
    main_loop_call light_insert_fails rollback_returns both_models sensor_config
      kalman_filters (initial_world [])
      = main_loop_call light_insert_fails rollback_returns both_models
          [("sound"%string,
            mkSensorCfg ["rms"%string; "zcr"%string] "trainingData.csv" "csv" None)]
          (<["light"%string := kf_list st']> kalman_filters) (world st').
Proof.
  destruct (failing_pass_rolls_back_uncommitted light_insert_fails rollback_returns
              both_models "light"
              (mkSensorCfg ["light_level"%string] "trainingData.csv" "csv" None)
              [("sound"%string,
                mkSensorCfg ["rms"%string; "zcr"%string] "trainingData.csv" "csv" None)]
              kalman_filters always_outlier light_filters (initial_world [])
              DatabaseError
              (snd (detection_body (light_insert_fails "light") "light" light_columns
                      "smart_room_readings" (Some always_outlier)
                      (mkPassState (initial_world []) light_filters false false))))
    as (st' & Hcall & _ & Hpend & _ & _ & Hloop).
  - reflexivity.
  - reflexivity.
  - reflexivity.
  - vm_compute. reflexivity.
  - reflexivity.
  - exists st'. split; [exact Hcall|]. split; [exact Hpend|]. exact Hloop.
Defined.

(** The ward, both ways.  When the rollback of the failing light pass
    returns, the loop ends normally and the sound pass has run after it
    (its reading query is in the trace, and it fires the latch).  When the
    connection is lost, the exception of the rollback ends the loop: the
    sound pass never begins. *)
Lemma next_sensor_runs_unless_rollback_raises :
  (exists w kfs,
     main_loop_call light_insert_fails rollback_returns both_models sensor_config
       kalman_filters (initial_world []) = Finished w kfs /\
     existsb (queried sound_columns) (trace w) = true /\
     latch w = FIRED) /\
  (exists w,
     main_loop_call light_insert_fails connection_lost both_models sensor_config
       kalman_filters (initial_world []) = Uncaught DatabaseError w /\
     existsb (queried sound_columns) (trace w) = false /\
     latch w = OPEN).
Proof.
  split.
  - eexists. eexists. split; [vm_compute; reflexivity|].
    split; vm_compute; reflexivity.
  - eexists. split; [vm_compute; reflexivity|].
    split; vm_compute; reflexivity.
Qed.

(** C2 as stated fails: the insert of the Kalman row fails after the
    Isolation Forest row of the same pass has been committed; the rollback
    does not remove that row. *)
Lemma committed_record_survives_failing_pass :
  snd (run_pass (loud_pass kalman_insert_fails) (initial_world [])) = Some DatabaseError /\
  anomalies (world (fst (run_pass (loud_pass kalman_insert_fails) (initial_world []))))
    = [isolation_forest_sound_record 10 "sound" [0.05; 0.03] 1000] /\
  anomalies (world (fst (run_pass (loud_pass kalman_insert_fails) (initial_world []))))
    <> anomalies (initial_world []).
Proof.
  assert (E : anomalies (world (fst (run_pass (loud_pass kalman_insert_fails)
                                       (initial_world []))))
              = [isolation_forest_sound_record 10 "sound" [0.05; 0.03] 1000])
    by (vm_compute; reflexivity).
  split; [vm_compute; reflexivity|]. split; [exact E|].
  rewrite E. discriminate.
Qed.

(** C6 (as amended). A pass that finds the latch OPEN, fetches a reading
    and finds a row of the ledger with its timestamp and sensor type
    returns at that guard: two queries are all it has done (no coercion, no
    detector call, no insert), the filter objects and the ledger are as
    they were, so the reading keeps exactly the rows it had. *)
Theorem rerun_returns_at_guard (env : Env) (sensor_type : string)
    (columns : list string) (table : string) (model : option IsolationForest)
    (kfs : list KalmanFilter) (w : World) (rows : list Reading)
    (rid pid : Z) (cells : list (option Q)) (ts : Z) :
  latch w = OPEN ->
  raises env AtSelectLatest = false ->
  raises env AtSelectCount = false ->
  tables env !! table = Some rows ->
  select_latest columns rows = Some (Some (rid, pid, cells, ts)) ->
  (0 < select_count ts sensor_type (anomalies w ++ pending w))%nat ->
  let r := run_detection env sensor_type columns table model kfs w in
  r = (mkPassState
         (log (EvSelectCount ts sensor_type) (log (EvSelectLatest table columns) w))
         kfs false false, None) /\
  anomalies (world (fst r)) = anomalies w /\
  kf_list (fst r) = kfs /\
  trace (world (fst r)) =
    trace w ++ [EvSelectLatest table columns; EvSelectCount ts sensor_type] /\
  select_count ts sensor_type (anomalies (world (fst r)))
    = select_count ts sensor_type (anomalies w).
Proof.
  intros Hopen Hf1 Hf2 Ht Hs Hc r.
  assert (E : r = (mkPassState
         (log (EvSelectCount ts sensor_type) (log (EvSelectLatest table columns) w))
         kfs false false, None)).
  { subst r. apply latch_open in Hopen.
    unfold run_detection, detection_body, fetch_latest, count_anomalies.
    unfold_monad. simpl. rewrite Hopen.
    destruct columns as [|c0 cols]; [discriminate|].
    simpl. rewrite Hf1. simpl. rewrite Ht, Hs. simpl. rewrite Hf2. simpl.
    apply Nat.ltb_lt in Hc. rewrite Hc. reflexivity. }
  rewrite E. simpl. rewrite <- app_assoc. auto.
Qed.

Lemma rerun_returns_at_guard_witness :
  anomalies
    (world (fst (run_pass bright_pass (world (fst (run_pass bright_pass (initial_world [])))))))
  = anomalies (world (fst (run_pass bright_pass (initial_world [])))).
Proof.
  apply (rerun_returns_at_guard (readings_env [bright_reading] no_fault) "light"
           light_columns "smart_room_readings" (Some always_outlier) light_filters
           (world (fst (run_pass bright_pass (initial_world []))))
           [bright_reading] 2 10 [Some 100] 1000).
  - reflexivity.
  - reflexivity.
  - reflexivity.
  - reflexivity.
  - reflexivity.
  - vm_compute. lia.
Defined.

(** C6 as stated fails: a light reading confirmed by both detectors has two
    rows after its first pass; the second pass returns at the guard and the
    reading still has two rows, not one. *)
Lemma rerun_leaves_two_entries :
  latch (world (fst (run_pass bright_pass (initial_world [])))) = OPEN /\
  trace (run_passes [bright_pass; bright_pass] (initial_world []))
    = trace (run_passes [bright_pass] (initial_world []))
      ++ [EvSelectLatest "smart_room_readings" light_columns; EvSelectCount 1000 "light"] /\
  select_count 1000 "light" (anomalies (run_passes [bright_pass; bright_pass] (initial_world [])))
    = 2%nat /\
  select_count 1000 "light" (anomalies (run_passes [bright_pass; bright_pass] (initial_world [])))
    <> 1%nat.
Proof.
  assert (E : select_count 1000 "light"
                (anomalies (run_passes [bright_pass; bright_pass] (initial_world [])))
              = 2%nat) by (vm_compute; reflexivity).
  split; [reflexivity|]. split; [vm_compute; reflexivity|]. split; [exact E|].
  rewrite E. discriminate.
Qed.

(** ** The confirmation policy of the classifier *)

Lemma to_floats_some (values : list Q) (st : PassState) :
  to_floats (List.map Some values) st = (inr values, st).
Proof.
  induction values as [|v values IH]; simpl; [reflexivity|].
  unfold bind. rewrite IH. reflexivity.
Qed.

(** Past the latch, the fetch and the dedupe guard, a pass is its three
    sections. *)
Lemma detection_body_past_guard (env : Env) (sensor_type : string)
    (columns : list string) (table : string) (model : option IsolationForest)
    (kfs : list KalmanFilter) (w : World) (rows : list Reading)
    (rid pid : Z) (values : list Q) (ts : Z) :
  abnormal_detected w = false ->
  raises env AtSelectLatest = false ->
  raises env AtSelectCount = false ->
  tables env !! table = Some rows ->
  select_latest columns rows = Some (Some (rid, pid, List.map Some values, ts)) ->
  select_count ts sensor_type (anomalies w ++ pending w) = 0%nat ->
  detection_body env sensor_type columns table model (mkPassState w kfs false false)
  = (isolation_forest_check env sensor_type columns model pid values ts ;;;
     kalman_check env sensor_type columns pid values ts ;;;
     act env sensor_type)
      (mkPassState
         (log (EvSelectCount ts sensor_type) (log (EvSelectLatest table columns) w))
         kfs false false).
Proof.
  intros Hopen Hf1 Hf2 Ht Hs Hc.
  unfold detection_body, fetch_latest, count_anomalies.
  unfold bind at 1. unfold gets at 1. cbn [world abnormal_detected]. rewrite Hopen.
  destruct columns as [|c0 cols]; [discriminate|].
  unfold bind at 1. unfold bind at 1. unfold bind at 1.
  unfold modify_world at 1. unfold fails at 1. rewrite Hf1.
  unfold ret at 1. rewrite Ht, Hs. unfold ret at 1.
  unfold bind at 1. unfold bind at 1. unfold bind at 1.
  unfold modify_world at 1. unfold fails at 1. rewrite Hf2.
  unfold ret at 1. unfold bind at 1. unfold gets at 1. unfold ret at 1.
  cbn [world anomalies pending log]. rewrite Hc. cbn [Nat.ltb Nat.leb].
  unfold bind at 1. rewrite to_floats_some. reflexivity.
Qed.

Lemma map_Some_inj (l k : list Q) : List.map Some l = List.map Some k -> l = k.
Proof.
  revert k. induction l as [|a l IH]; intros [|b k] E; simpl in E;
    try discriminate; [reflexivity|].
  inversion E; subst. f_equal. apply IH. assumption.
Qed.

Lemma pass_summary_row (env : Env) (sensor_type : string) (columns : list string)
    (table : string) (model : option IsolationForest) (kfs : list KalmanFilter)
    (w : World) (rows : list Reading) (rid pid : Z) (values : list Q) (ts : Z) :
  pending w = [] ->
  tables env !! table = Some rows ->
  select_latest columns rows = Some (Some (rid, pid, List.map Some values, ts)) ->
  let st := fst (run_detection env sensor_type columns table model kfs w) in
  anomalies (world st) =
    anomalies w
    ++ committed_records (isolation_forest_abnormal st) (kalman_filter_abnormal st)
         pid sensor_type values ts.
Proof.
  intros Hp Ht Hs st.
  destruct (run_detection env sensor_type columns table model kfs w) as [st' caught] eqn:E.
  subst st. simpl. apply pass_summary in E; [|exact Hp].
  destruct E as (_ & _ & _ & [(Hi & Hk & Ha)|(rid' & pid' & values' & ts' & rows' & _ & Ht' & Hs' & _ & Ha)]).
  - rewrite Hi, Hk, Ha. simpl. rewrite app_nil_r. reflexivity.
  - rewrite Ht in Ht'. inversion Ht'; subst rows'. rewrite Hs in Hs'.
    injection Hs' as Hrid Hpid Hv Hts.
    apply map_Some_inj in Hv.
    subst. exact Ha.
Qed.

(** The flag the Isolation Forest section sets is the flag the pass ends
    with. *)
Lemma run_detection_forest_flag (env : Env) (sensor_type : string)
    (columns : list string) (table : string) (model : option IsolationForest)
    (kfs : list KalmanFilter) (w : World) (rows : list Reading)
    (rid pid : Z) (values : list Q) (ts : Z) (st1 : PassState) :
  abnormal_detected w = false ->
  pending w = [] ->
  raises env AtSelectLatest = false ->
  raises env AtSelectCount = false ->
  tables env !! table = Some rows ->
  select_latest columns rows = Some (Some (rid, pid, List.map Some values, ts)) ->
  select_count ts sensor_type (anomalies w) = 0%nat ->
  isolation_forest_check env sensor_type columns model pid values ts
    (mkPassState
       (log (EvSelectCount ts sensor_type) (log (EvSelectLatest table columns) w))
       kfs false false) = (inr tt, st1) ->
  isolation_forest_abnormal
    (fst (run_detection env sensor_type columns table model kfs w))
  = isolation_forest_abnormal st1.
Proof.
  intros Hopen Hp Hf1 Hf2 Ht Hs Hc Hcheck.
  unfold run_detection.
  rewrite (detection_body_past_guard env sensor_type columns table model kfs w rows
             rid pid values ts Hopen Hf1 Hf2 Ht Hs)
    by (rewrite Hp, app_nil_r; exact Hc).
  unfold bind at 1. rewrite Hcheck.
  pose proof Hcheck as Hc1.
  apply isolation_forest_check_effect in Hc1; [|exact Hp].
  assert (P1 : pending (world st1) = []).
  { destruct Hc1 as (_ & _ & _ & _ & [(_ & _ & [P1|[e He]])|(_ & _ & P1 & _)]);
      auto; discriminate. }
  unfold bind at 1.
  destruct (kalman_check env sensor_type columns pid values ts st1) as [r2 st2] eqn:E2.
  apply kalman_check_effect in E2; [|exact P1]. destruct E2 as (I2 & _).
  destruct r2 as [e|[]]; [simpl; exact I2|].
  destruct (act env sensor_type st2) as [r3 st3] eqn:E3.
  apply act_effect in E3. destruct E3 as (_ & _ & _ & I3 & _).
  destruct r3 as [e|u]; simpl; congruence.
Qed.

Lemma out_of_band_rms (val : Q) :
  out_of_band "rms" val = true <-> val < 0.01 \/ 0.03 < val.
Proof.
  unfold out_of_band. simpl. rewrite orb_false_r, orb_true_iff, !Qltb_lt. tauto.
Qed.

Lemma out_of_band_zcr (val : Q) :
  out_of_band "zcr" val = true <-> val < 0.003 \/ 0.02 < val.
Proof.
  unfold out_of_band. simpl. rewrite orb_true_iff, !Qltb_lt. tauto.
Qed.

Lemma isolation_forest_check_sound (env : Env) (f : IsolationForest) (pid : Z)
    (rms zcr : Q) (ts : Z) (st : PassState) :
  raises env AtInsertIF = false ->
  raises env AtCommitIF = false ->
  f [rms; zcr] = (-1)%Z ->
  isolation_forest_abnormal st = false ->
  exists st',
    isolation_forest_check env "sound" sound_columns (Some f) pid [rms; zcr] ts st
      = (inr tt, st') /\
    isolation_forest_abnormal st' = out_of_band "rms" rms && out_of_band "zcr" zcr.
Proof.
  intros Hf1 Hf2 Hpred Hi. unfold isolation_forest_check, sound_columns.
  unfold_monad. rewrite Hpred. simpl.
  destruct (out_of_band "rms" rms), (out_of_band "zcr" zcr); simpl;
    rewrite ?Hf1; simpl; rewrite ?Hf2; simpl; eexists; split;
    try reflexivity; simpl; auto.
Qed.

Lemma isolation_forest_check_light (env : Env) (f : IsolationForest) (pid : Z)
    (v : Q) (ts : Z) (st : PassState) :
  raises env AtInsertIF = false ->
  raises env AtCommitIF = false ->
  f [v] = (-1)%Z ->
  exists st',
    isolation_forest_check env "light" light_columns (Some f) pid [v] ts st
      = (inr tt, st') /\
    isolation_forest_abnormal st' = true.
Proof.
  intros Hf1 Hf2 Hpred. unfold isolation_forest_check, light_columns.
  unfold_monad. rewrite Hpred. simpl. rewrite Hf1. simpl. rewrite Hf2. simpl.
  eexists; split; reflexivity.
Qed.

Lemma filter_committed_forest (ifa kfa : bool) (pid : Z) (s : string) (values : list Q)
    (ts : Z) :
  List.filter (is_method "Isolation Forest") (committed_records ifa kfa pid s values ts)
  = if ifa then [isolation_forest_record pid s values ts] else [].
Proof.
  unfold committed_records, isolation_forest_record, is_method.
  destruct ifa, kfa, (String.eqb s "light"); reflexivity.
Qed.

(** C7. In a pass that reaches the classifier (latch OPEN, a reading
    fetched, no row yet for it, the ledger accepting the write) and whose
    classifier returns the outlier verdict: for sound, the verdict is
    confirmed exactly when rms and zcr are both outside their bands, and a
    row tagged with the classifier's method is appended exactly then; for
    light, the verdict is confirmed and exactly one such row is appended,
    whatever the filter objects are and whatever happens in the Kalman
    section and after. *)
Theorem classifier_confirmation_policy (env : Env) (table : string)
    (f : IsolationForest) (kfs : list KalmanFilter) (w : World) (rows : list Reading) :
  latch w = OPEN ->
  pending w = [] ->
  raises env AtSelectLatest = false ->
  raises env AtSelectCount = false ->
  raises env AtInsertIF = false ->
  raises env AtCommitIF = false ->
  tables env !! table = Some rows ->
  (forall (rid pid ts : Z) (rms zcr : Q),
      select_latest sound_columns rows = Some (Some (rid, pid, [Some rms; Some zcr], ts)) ->
      select_count ts "sound" (anomalies w) = 0%nat ->
      f [rms; zcr] = (-1)%Z ->
      let st := fst (run_detection env "sound" sound_columns table (Some f) kfs w) in
      (isolation_forest_abnormal st = true <->
       (rms < 0.01 \/ 0.03 < rms) /\ (zcr < 0.003 \/ 0.02 < zcr)) /\
      List.filter (is_method "Isolation Forest") (anomalies (world st)) =
        List.filter (is_method "Isolation Forest") (anomalies w)
        ++ (if isolation_forest_abnormal st
            then [isolation_forest_sound_record pid "sound" [rms; zcr] ts] else [])) /\
  (forall (rid pid ts : Z) (v : Q),
      select_latest light_columns rows = Some (Some (rid, pid, [Some v], ts)) ->
      select_count ts "light" (anomalies w) = 0%nat ->
      f [v] = (-1)%Z ->
      let st := fst (run_detection env "light" light_columns table (Some f) kfs w) in
      isolation_forest_abnormal st = true /\
      List.filter (is_method "Isolation Forest") (anomalies (world st)) =
        List.filter (is_method "Isolation Forest") (anomalies w)
        ++ [isolation_forest_light_record pid ts]).
Proof.
  intros Hopen Hp Hf1 Hf2 Hf3 Hf4 Ht. apply latch_open in Hopen. split.
  - intros rid pid ts rms zcr Hs Hc Hpred st.
    destruct (isolation_forest_check_sound env f pid rms zcr ts
                (mkPassState
                   (log (EvSelectCount ts "sound")
                      (log (EvSelectLatest table sound_columns) w)) kfs false false)
                Hf3 Hf4 Hpred eq_refl) as (st1 & Hcheck & Hflag).
    assert (Hi : isolation_forest_abnormal st
                 = out_of_band "rms" rms && out_of_band "zcr" zcr).
    { subst st. rewrite <- Hflag.
      apply (run_detection_forest_flag env "sound" sound_columns table (Some f) kfs w
               rows rid pid [rms; zcr] ts st1); assumption. }
    split.
    + rewrite Hi, andb_true_iff, out_of_band_rms, out_of_band_zcr. tauto.
    + subst st.
      rewrite (pass_summary_row env "sound" sound_columns table (Some f) kfs w rows
                 rid pid [rms; zcr] ts Hp Ht Hs).
      rewrite List.filter_app, filter_committed_forest. reflexivity.
  - intros rid pid ts v Hs Hc Hpred st.
    destruct (isolation_forest_check_light env f pid v ts
                (mkPassState
                   (log (EvSelectCount ts "light")
                      (log (EvSelectLatest table light_columns) w)) kfs false false)
                Hf3 Hf4 Hpred) as (st1 & Hcheck & Hflag).
    assert (Hi : isolation_forest_abnormal st = true).
    { subst st. etransitivity; [|exact Hflag].
      apply (run_detection_forest_flag env "light" light_columns table (Some f) kfs w
               rows rid pid [v] ts st1); assumption. }
    split; [exact Hi|]. subst st.
    rewrite (pass_summary_row env "light" light_columns table (Some f) kfs w rows
               rid pid [v] ts Hp Ht Hs).
    rewrite List.filter_app, filter_committed_forest, Hi. reflexivity.
Qed.

Lemma classifier_confirmation_policy_witness :
  isolation_forest_abnormal
    (fst (run_detection (readings_env [bright_reading] kalman_insert_fails) "light"
            light_columns "smart_room_readings" (Some always_outlier) []
            (initial_world []))) = true.
Proof.
  apply (proj2 (classifier_confirmation_policy
                  (readings_env [bright_reading] kalman_insert_fails)
                  "smart_room_readings" always_outlier [] (initial_world [])
                  [bright_reading] eq_refl eq_refl eq_refl eq_refl eq_refl eq_refl eq_refl)
           2%Z 10%Z 1000%Z 100).
  - reflexivity.
  - reflexivity.
  - reflexivity.
Defined.

(** ** Training and the main loop *)

Lemma all_rows_length (cols : list string) (df : list CsvRow) (vs : list (list Q)) :
  all_rows cols df = inr vs -> length vs = length df.
Proof.
  revert vs. induction df as [|r df IH]; intros vs; simpl.
  - intros E. inversion E. reflexivity.
  - destruct (select_columns cols r) as [e|v]; [discriminate|].
    destruct (all_rows cols df) as [e|vs']; [discriminate|].
    intros E. inversion E; subst. simpl. f_equal. apply IH. reflexivity.
Qed.

Lemma train_model_few_samples (files : gmap string (list CsvRow))
    (fit : list (list Q) -> IsolationForest) (sensor : string) (cfg : SensorCfg)
    (df : list CsvRow) :
  files !! csv_file cfg = Some df ->
  (length (filtered_training_set sensor df) < 3)%nat ->
  train_model files fit sensor cfg = None.
Proof.
  intros Hf Hlen. unfold train_model, training_values.
  destruct (String.eqb (training_source cfg) "csv"); [|reflexivity].
  rewrite Hf.
  destruct (all_rows (columns cfg) (filtered_training_set sensor df)) as [e|vs] eqn:E;
    [reflexivity|].
  apply all_rows_length in E. rewrite E.
  destruct (3 <=? length (filtered_training_set sensor df))%nat eqn:E3; [|reflexivity].
  apply Nat.leb_le in E3. lia.
Qed.

Lemma train_models_none (files : gmap string (list CsvRow))
    (fit : list (list Q) -> IsolationForest) (cfgs : list (string * SensorCfg))
    (sensor : string) (m : gmap string IsolationForest) :
  (forall cfg, In (sensor, cfg) cfgs -> train_model files fit sensor cfg = None) ->
  m !! sensor = None ->
  train_models files fit cfgs m !! sensor = None.
Proof.
  revert m. induction cfgs as [|[s c] cfgs IH]; intros m Hall Hm; simpl; [exact Hm|].
  destruct (train_model files fit s c) as [model|] eqn:E.
  - apply IH; [intros cfg Hin; apply Hall; right; exact Hin|].
    rewrite lookup_insert_ne; [exact Hm|].
    intros ->. rewrite (Hall c) in E by (left; reflexivity). discriminate.
  - apply IH; [intros cfg Hin; apply Hall; right; exact Hin|exact Hm].
Qed.

Lemma sensor_config_keys (sensor : string) (cfg cfg' : SensorCfg) :
  In (sensor, cfg) sensor_config -> In (sensor, cfg') sensor_config -> cfg' = cfg.
Proof.
  unfold sensor_config. simpl.
  intros [H|[H|[]]] [H'|[H'|[]]]; inversion H; inversion H'; subst;
    try reflexivity; discriminate.
Qed.

(** The main loop passes over a sensor that has no model. *)
Lemma main_loop_skip (envs : string -> Env) (mdl : gmap string IsolationForest)
    (sensor : string) (cfgs : list (string * SensorCfg))
    (kfs : gmap string (list KalmanFilter)) (w : World) :
  mdl !! sensor = None ->
  main_loop envs mdl cfgs kfs w =
  main_loop envs mdl (List.filter (fun sc => negb (String.eqb (fst sc) sensor)) cfgs) kfs w.
Proof.
  intros Hm. revert kfs w. induction cfgs as [|[s c] cfgs IH]; intros kfs w; simpl;
    [reflexivity|].
  destruct (String.eqb s sensor) eqn:E; simpl.
  - apply String.eqb_eq in E. subst s. rewrite Hm. apply IH.
  - destruct (mdl !! s); [|apply IH].
    destruct (kfs !! s); [|reflexivity]. apply IH.
Qed.

Lemma main_loop_untouched (envs : string -> Env) (mdl : gmap string IsolationForest)
    (sensor : string) (cfgs : list (string * SensorCfg))
    (kfs kfs' : gmap string (list KalmanFilter)) (w w' : World) :
  mdl !! sensor = None ->
  main_loop envs mdl cfgs kfs w = Some (w', kfs') ->
  kfs' !! sensor = kfs !! sensor.
Proof.
  intros Hm. revert kfs w. induction cfgs as [|[s c] cfgs IH]; intros kfs w; simpl.
  - intros E. inversion E. reflexivity.
  - destruct (mdl !! s) eqn:Es; [|apply IH].
    destruct (kfs !! s) as [l|]; [|discriminate].
    intros E. apply IH in E. rewrite E. apply lookup_insert_ne.
    intros ->. congruence.
Qed.

Lemma main_loop_total (envs : string -> Env) (mdl : gmap string IsolationForest)
    (cfgs : list (string * SensorCfg)) (kfs : gmap string (list KalmanFilter)) (w : World) :
  (forall s c, In (s, c) cfgs -> is_Some (kfs !! s)) ->
  is_Some (main_loop envs mdl cfgs kfs w).
Proof.
  revert kfs w. induction cfgs as [|[s c] cfgs IH]; intros kfs w Hall; simpl; [eauto|].
  assert (Hrest : forall s' c', In (s', c') cfgs -> is_Some (kfs !! s'))
    by (intros s' c' Hin; apply (Hall s' c'); right; exact Hin).
  destruct (mdl !! s); [|apply IH; exact Hrest].
  destruct (Hall s c (or_introl eq_refl)) as [l Hl]. rewrite Hl.
  apply IH. intros s' c' Hin. apply lookup_insert_is_Some.
  destruct (decide (s = s')); [left; assumption|right]. split; [assumption|].
  apply (Hrest s' c' Hin).
Qed.

Lemma kalman_filters_keys (s : string) (c : SensorCfg) :
  In (s, c) sensor_config -> is_Some (kalman_filters !! s).
Proof.
  unfold sensor_config. simpl. intros [H|[H|[]]]; inversion H; subst;
    eexists; vm_compute; reflexivity.
Qed.

(** C1 (as amended). When the filtered normal training set of a sensor has
    fewer than 3 samples, [train_model] returns no model and raises
    nothing, the sensor gets no entry in [models], and the main loop runs
    no pass for that sensor: the loop is the loop over the other sensors,
    it ends, and the filter objects of the sensor are as they were
    initialised. *)
Theorem untrained_sensor_is_skipped (files : gmap string (list CsvRow))
    (fit : list (list Q) -> IsolationForest) (sensor : string) (cfg : SensorCfg)
    (df : list CsvRow) :
  In (sensor, cfg) sensor_config ->
  files !! csv_file cfg = Some df ->
  (length (filtered_training_set sensor df) < 3)%nat ->
  train_model files fit sensor cfg = None /\
  models files fit !! sensor = None /\
  forall (envs : string -> Env) (w : World),
    main files fit envs w =
      main_loop envs (models files fit)
        (List.filter (fun sc => negb (String.eqb (fst sc) sensor)) sensor_config)
        kalman_filters w /\
    exists w' kfs',
      main files fit envs w = Some (w', kfs') /\
      kfs' !! sensor = kalman_filters !! sensor.
Proof.
  intros Hin Hf Hlen.
  assert (Ht : train_model files fit sensor cfg = None)
    by (eapply train_model_few_samples; eauto).
  assert (Hm : models files fit !! sensor = None).
  { unfold models. apply train_models_none; [|apply lookup_empty].
    intros cfg' Hin'. rewrite (sensor_config_keys sensor cfg cfg' Hin Hin'). exact Ht. }
  split; [exact Ht|]. split; [exact Hm|].
  intros envs w. split.
  - unfold main. apply main_loop_skip. exact Hm.
  - destruct (main_loop_total envs (models files fit) sensor_config kalman_filters w
                kalman_filters_keys) as [[w' kfs'] E].
    exists w', kfs'. split; [exact E|].
    eapply main_loop_untouched; eauto.
Qed.

Lemma untrained_sensor_is_skipped_witness :
  train_model two_sound_samples (fun _ => always_outlier) "sound"
    (mkSensorCfg sound_columns "trainingData.csv" "csv" None) = None.
Proof.
  apply (untrained_sensor_is_skipped two_sound_samples (fun _ => always_outlier) "sound"
           (mkSensorCfg sound_columns "trainingData.csv" "csv" None)
           [ mkCsvRow "normal" 0.01 0.01 10;
             mkCsvRow "normal" 0.02 0.02 11;
             mkCsvRow "normal" 0.5 0.02 12;
             mkCsvRow "normal" 0.6 0.02 13;
             mkCsvRow "abnormal" 0.02 0.02 14 ]).
  - right. left. reflexivity.
  - reflexivity.
  - vm_compute. lia.
Defined.

(** C1 as stated fails: with two normal sound samples the sound sensor has
    no model, and although a sound reading is there that the estimator
    alone flags on both features, the main loop makes no call for the
    sound sensor: its filter objects are untouched, the only call made is
    the reading query of the light pass, and the ledger stays empty. *)
Lemma untrained_sound_sensor_gets_no_pass :
  length (filtered_training_set "sound"
            [ mkCsvRow "normal" 0.01 0.01 10;
              mkCsvRow "normal" 0.02 0.02 11;
              mkCsvRow "normal" 0.5 0.02 12;
              mkCsvRow "normal" 0.6 0.02 13;
              mkCsvRow "abnormal" 0.02 0.02 14 ]) = 2%nat /\
  models two_sound_samples (fun _ => always_outlier) !! "sound"%string = None /\
  fst (kalman_loop sound_columns 0 [0.05; 0.03] 0
         (mkPassState (initial_world []) sound_filters false false))
    = inr (length sound_columns) /\
  exists w' kfs',
    main two_sound_samples (fun _ => always_outlier)
      (fun _ => readings_env [loud_reading] no_fault) (initial_world [])
      = Some (w', kfs') /\
    kfs' !! "sound"%string = Some sound_filters /\
    anomalies w' = [] /\
    trace w' = [EvSelectLatest "smart_room_readings" light_columns].
Proof.
  split; [vm_compute; reflexivity|].
  split; [vm_compute; reflexivity|].
  split; [vm_compute; reflexivity|].
  eexists _, _. split; [vm_compute; reflexivity|].
  split; [vm_compute; reflexivity|].
  split; reflexivity.
Qed.

(** * Further properties of the code *)

(** ** The estimator, for any parameters *)

Lemma square_nonneg (h : Q) : 0 <= h * h.
Proof.
  destruct (Qlt_le_dec h 0) as [Hn|Hp].
  - assert (E : h * h == (- h) * (- h)) by ring. rewrite E.
    apply Qmult_le_0_compat; lra.
  - apply Qmult_le_0_compat; assumption.
Qed.

Lemma predict_covariance_nonneg (kf : KalmanFilter) :
  0 <= kf_Q kf -> 0 <= kf_P kf -> 0 <= kf_P (predict kf).
Proof.
  intros HQ HP. unfold predict; cbn [kf_P].
  assert (E : kf_F kf * kf_P kf * kf_F kf == kf_P kf * (kf_F kf * kf_F kf)) by ring.
  rewrite E. pose proof (square_nonneg (kf_F kf)) as Hs.
  assert (0 <= kf_P kf * (kf_F kf * kf_F kf)) by (apply Qmult_le_0_compat; assumption).
  lra.
Qed.

Lemma innovation_covariance_positive (kf : KalmanFilter) :
  0 < kf_R kf -> 0 <= kf_P kf -> 0 < innovation_covariance kf.
Proof.
  intros HR HP. unfold innovation_covariance.
  assert (E : kf_H kf * (kf_P kf * kf_H kf) == kf_P kf * (kf_H kf * kf_H kf)) by ring.
  rewrite E. pose proof (square_nonneg (kf_H kf)) as Hs.
  assert (0 <= kf_P kf * (kf_H kf * kf_H kf)) by (apply Qmult_le_0_compat; assumption).
  lra.
Qed.

Lemma update_covariance_nonneg (kf : KalmanFilter) (z : Q) :
  0 < kf_R kf -> 0 <= kf_P kf ->
  exists kf', update kf z = Some kf' /\ 0 <= kf_P kf' /\
    kf_Q kf' = kf_Q kf /\ kf_R kf' = kf_R kf.
Proof.
  intros HR HP. pose proof (innovation_covariance_positive kf HR HP) as HS.
  unfold update, gain. rewrite inv_nonzero by lra.
  eexists. split; [reflexivity|]. cbn [kf_P kf_Q kf_R]. split; [|auto].
  set (S := innovation_covariance kf) in *.
  assert (E : (1 - kf_P kf * kf_H kf * / S * kf_H kf) * kf_P kf
              == kf_R kf * kf_P kf / S).
  { unfold S at 1 2. unfold innovation_covariance. field.
    fold (innovation_covariance kf). fold S. lra. }
  rewrite E. apply Qle_shift_div_l; [exact HS|].
  assert (0 <= kf_R kf * kf_P kf) by (apply Qmult_le_0_compat; lra). lra.
Qed.

(** X1. Whatever the transition F and the observation H, a filter with
    non-negative process noise, positive measurement noise and non-negative
    covariance never raises: every sequence of predict and update calls
    runs to its end, keeps the noise parameters and leaves a non-negative
    covariance. *)
Theorem filter_never_raises (kf : KalmanFilter) (ops : list KalmanOp) :
  0 <= kf_Q kf -> 0 < kf_R kf -> 0 <= kf_P kf ->
  exists kf',
    apply_ops kf ops = Some kf' /\
    0 <= kf_P kf' /\ kf_Q kf' = kf_Q kf /\ kf_R kf' = kf_R kf.
Proof.
  revert kf. induction ops as [|op ops IH]; intros kf HQ HR HP.
  - exists kf. simpl. auto.
  - destruct op as [|z]; simpl.
    + destruct (IH (predict kf)) as (kf' & Ho & HP' & HQ' & HR');
        [exact HQ|exact HR|apply predict_covariance_nonneg; assumption|].
      exists kf'. auto.
    + destruct (update_covariance_nonneg kf z HR HP) as (kf1 & Hu & HP1 & HQ1 & HR1).
      rewrite Hu.
      destruct (IH kf1) as (kf' & Ho & HP' & HQ' & HR');
        [rewrite HQ1; exact HQ|rewrite HR1; exact HR|exact HP1|].
      exists kf'. rewrite HQ', HR', HQ1, HR1. auto.
Qed.

Lemma filter_never_raises_witness :
  exists kf',
    apply_ops TestCollectData.initialize_kalman_filter
      [OpUpdate 0.02; OpUpdate 0.02; OpPredict; OpUpdate 0.5] = Some kf' /\
    0 <= kf_P kf' /\
    kf_Q kf' = kf_Q TestCollectData.initialize_kalman_filter /\
    kf_R kf' = kf_R TestCollectData.initialize_kalman_filter.
Proof.
  apply (filter_never_raises TestCollectData.initialize_kalman_filter
           [OpUpdate 0.02; OpUpdate 0.02; OpPredict; OpUpdate 0.5]).
  - vm_compute. discriminate.
  - reflexivity.
  - vm_compute. discriminate.
Defined.

(** X2. With H = 1, positive measurement noise and positive covariance,
    update shrinks the covariance (0 < P' < P and P' < R) and puts the new
    estimate between the old estimate and the measurement. *)
Theorem update_shrinks_covariance (kf : KalmanFilter) (z : Q) :
  kf_H kf = 1 -> 0 < kf_R kf -> 0 < kf_P kf ->
  exists kf',
    update kf z = Some kf' /\
    0 < kf_P kf' /\ kf_P kf' < kf_P kf /\ kf_P kf' < kf_R kf /\
    (kf_x kf <= z -> kf_x kf <= kf_x kf' <= z) /\
    (z <= kf_x kf -> z <= kf_x kf' <= kf_x kf).
Proof.
  intros HH HR HP.
  destruct (gain_random_walk kf HH) as (K & HK & HKv); [lra|].
  assert (HK0 : 0 < K) by (rewrite HKv; apply Qlt_shift_div_l; lra).
  assert (HK1 : K < 1) by (rewrite HKv; apply Qlt_shift_div_r; lra).
  unfold update. rewrite HK. eexists. split; [reflexivity|]. cbn [kf_P kf_x].
  rewrite HH.
  assert (EP : (1 - K * 1) * kf_P kf == kf_P kf * kf_R kf / (kf_P kf + kf_R kf))
    by (rewrite HKv; field; lra).
  assert (Ex : kf_x kf + K * (z - 1 * kf_x kf) == kf_x kf + K * (z - kf_x kf)) by ring.
  rewrite EP, Ex.
  assert (Hprod : 0 < kf_P kf * kf_R kf) by (apply Qmult_lt_0_compat; assumption).
  assert (HPP : 0 < kf_P kf * kf_P kf) by (apply Qmult_lt_0_compat; assumption).
  assert (HRR : 0 < kf_R kf * kf_R kf) by (apply Qmult_lt_0_compat; assumption).
  split; [apply Qlt_shift_div_l; lra|].
  split; [apply Qlt_shift_div_r; lra|].
  split; [apply Qlt_shift_div_r; lra|].
  split; intros Hxz.
  - assert (0 <= K * (z - kf_x kf)) by (apply Qmult_le_0_compat; lra).
    assert (0 <= (1 - K) * (z - kf_x kf)) by (apply Qmult_le_0_compat; lra).
    lra.
  - assert (0 <= K * (kf_x kf - z)) by (apply Qmult_le_0_compat; lra).
    assert (0 <= (1 - K) * (kf_x kf - z)) by (apply Qmult_le_0_compat; lra).
    lra.
Qed.

Lemma update_shrinks_covariance_witness :
  exists kf',
    update (initialize_kalman_filter "light" "light_level") 100 = Some kf' /\
    0 < kf_P kf' /\ kf_P kf' < 1.
Proof.
  destruct (update_shrinks_covariance (initialize_kalman_filter "light" "light_level") 100)
    as (kf' & Hu & H0 & H1 & _).
  - reflexivity.
  - reflexivity.
  - reflexivity.
  - exists kf'. split; [exact Hu|]. split; assumption.
Defined.

(** ** The estimator as configured, cycle after cycle *)

Lemma cycle_configured (kf : KalmanFilter) (z : Q) :
  configured kf -> 0 < kf_P kf ->
  exists kf' K,
    kalman_feature kf z = (kf', Some (residual kf' z)) /\
    configured kf' /\
    K == (kf_P kf + 0.05) / (kf_P kf + 0.15) /\
    kf_P kf' == 0.1 * (kf_P kf + 0.05) / (kf_P kf + 0.15) /\
    residual kf' z == (1 - K) * Qabs (z - kf_x kf).
Proof.
  intros Hc HP.
  destruct (predict_configured kf Hc HP) as (Hc1 & HP1 & Hx1).
  assert (HP1pos : 0 < kf_P (predict kf)) by (rewrite HP1; lra).
  destruct (update_configured (predict kf) z Hc1 HP1pos)
    as (K & kf' & _ & HK & Hu & Hc' & HP' & Hx').
  destruct (gain_bounds _ HP1pos) as [HK0 HK1]. rewrite <- HK in HK0, HK1.
  exists kf', K. unfold kalman_feature. rewrite Hu.
  split; [reflexivity|]. split; [exact Hc'|]. split; [|split].
  - rewrite HK, HP1. field. lra.
  - rewrite HP', HP1. field. lra.
  - unfold residual. rewrite Hx', Hx1, Qabs_Qmult.
    rewrite (Qabs_pos (1 - K)) by lra.
    assert (E : Qabs (kf_x kf - z) == Qabs (z - kf_x kf)).
    { rewrite <- (Qabs_opp (kf_x kf - z)). apply Qabs_wd. ring. }
    rewrite E. reflexivity.
Qed.

(** X4. The covariance of a configured filter does not depend on the
    measurements: 0.05 is its steady state (a cycle started there ends
    there, with gain 1/2, so the residual is half the innovation), and a
    cycle started above 0.05 ends strictly closer to it, the distance
    shrinking at least fourfold. *)
Theorem covariance_converges_to_steady_state (kf : KalmanFilter) (z : Q) :
  configured kf -> 0.05 <= kf_P kf ->
  exists kf' r,
    kalman_feature kf z = (kf', Some r) /\
    0.05 <= kf_P kf' /\ kf_P kf' <= kf_P kf /\
    kf_P kf' - 0.05 <= (1 # 4) * (kf_P kf - 0.05) /\
    (kf_P kf == 0.05 -> kf_P kf' == 0.05 /\ r == (1 # 2) * Qabs (z - kf_x kf)).
Proof.
  intros Hc HP0.
  destruct (cycle_configured kf z Hc) as (kf' & K & Hf & Hc' & HK & HP' & Hr); [lra|].
  exists kf', (residual kf' z). split; [exact Hf|].
  assert (Hd : kf_P kf' - 0.05 == 0.05 * (kf_P kf - 0.05) / (kf_P kf + 0.15)).
  { rewrite HP'. field. lra. }
  assert (Hq : 0.05 * (kf_P kf - 0.05) / (kf_P kf + 0.15) <= (1 # 4) * (kf_P kf - 0.05)).
  { apply Qle_shift_div_r; [lra|].
    assert (0 <= (kf_P kf - 0.05) * (kf_P kf - 0.05)) by apply square_nonneg.
    lra. }
  assert (Hn : 0 <= 0.05 * (kf_P kf - 0.05) / (kf_P kf + 0.15)).
  { apply Qle_shift_div_l; lra. }
  split; [lra|]. split; [lra|]. split; [lra|].
  intros E. split.
  - rewrite HP', E. reflexivity.
  - rewrite Hr, HK, E.
    assert (Ec : 1 - (0.05 + 0.05) / (0.05 + 0.15) == 1 # 2) by reflexivity.
    rewrite Ec. reflexivity.
Qed.

Lemma covariance_converges_to_steady_state_witness :
  exists kf' r,
    kalman_feature (initialize_kalman_filter "sound" "zcr") 0.03 = (kf', Some r) /\
    0.05 <= kf_P kf' /\ kf_P kf' <= 1.
Proof.
  destruct (covariance_converges_to_steady_state
              (initialize_kalman_filter "sound" "zcr") 0.03)
    as (kf' & r & Hf & H0 & H1 & _).
  - repeat split.
  - vm_compute. discriminate.
  - exists kf', r. split; [exact Hf|]. split; assumption.
Defined.

(** ** What a pass publishes *)

Lemma published_log (e : Event) (w : World) :
  published (log e w) = published w ++ (if is_publish e then [e] else []).
Proof.
  unfold published, log. cbn [trace]. rewrite List.filter_app. simpl.
  destruct (is_publish e); reflexivity.
Qed.

Ltac quiet :=
  repeat (cbn [world kf_list isolation_forest_abnormal kalman_filter_abnormal];
          first [ rewrite published_log; cbn [is_publish]; rewrite app_nil_r
                | progress change (published (add_pending ?r ?w)) with (published w)
                | progress change (published (commit_pending ?w)) with (published w)
                | progress change (published (drop_pending ?w)) with (published w)
                | progress change (published (fire ?w)) with (published w) ]);
  try reflexivity.

Lemma fetch_latest_published (env : Env) (table : string) (columns : list string)
    (st st' : PassState) (r : Exn + option Row) :
  fetch_latest env table columns st = (r, st') ->
  published (world st') = published (world st).
Proof.
  unfold fetch_latest. unfold_monad. intros E.
  destruct columns as [|c0 cols]; [inv_pair; reflexivity|]. simpl in E.
  destruct (raises env AtSelectLatest); simpl in E; [inv_pair; quiet|].
  destruct (tables env !! table) as [rows|]; [|inv_pair; quiet].
  destruct (select_latest (c0 :: cols) rows); inv_pair; quiet.
Qed.

Lemma count_anomalies_published (env : Env) (ts : Z) (sensor_type : string)
    (st st' : PassState) (r : Exn + nat) :
  count_anomalies env ts sensor_type st = (r, st') ->
  published (world st') = published (world st).
Proof.
  unfold count_anomalies. unfold_monad. intros E. simpl in E.
  destruct (raises env AtSelectCount); simpl in E; inv_pair; quiet.
Qed.

Lemma isolation_forest_check_published (env : Env) (sensor_type : string)
    (columns : list string) (model : option IsolationForest) (pid : Z)
    (values : list Q) (ts : Z) (st st' : PassState) (r : Exn + unit) :
  isolation_forest_check env sensor_type columns model pid values ts st = (r, st') ->
  published (world st') = published (world st).
Proof.
  intros E. unfold isolation_forest_check in E. unfold_monad.
  destruct model as [f|]; [|inv_pair; reflexivity].
  cbn [world kf_list isolation_forest_abnormal kalman_filter_abnormal] in E.
  destruct (f values =? -1)%Z; [|inv_pair; quiet].
  destruct (String.eqb sensor_type "sound").
  - match type of E with context [count_out_of_band ?a ?b ?c ?d ?s] =>
      destruct (count_out_of_band_pure c a b d s) as [rc Hc]; rewrite Hc in E end.
    destruct rc as [e|n]; [inv_pair; quiet|].
    destruct (Nat.eqb n (length columns)); [|inv_pair; quiet].
    simpl in E.
    destruct (raises env AtInsertIF); [inv_pair; quiet|].
    simpl in E.
    destruct (raises env AtCommitIF); inv_pair; quiet.
  - destruct (String.eqb sensor_type "light"); [|inv_pair; quiet].
    destruct (values !! 0%nat); [|inv_pair; quiet].
    simpl in E.
    destruct (raises env AtInsertIF); [inv_pair; quiet|].
    simpl in E.
    destruct (raises env AtCommitIF); inv_pair; quiet.
Qed.

Lemma kalman_at_published (i : nat) (val : Q) (st st' : PassState) (r : Exn + Q) :
  kalman_at i val st = (r, st') -> published (world st') = published (world st).
Proof.
  unfold kalman_at. intros E.
  destruct (kf_list st !! i) as [kf|]; [|inv_pair; reflexivity].
  destruct (kalman_feature kf val) as [kf' [res|]]; inv_pair; quiet.
Qed.

Lemma kalman_loop_published (values : list Q) (columns : list string) (i c : nat)
    (st st' : PassState) (r : Exn + nat) :
  kalman_loop columns i values c st = (r, st') ->
  published (world st') = published (world st).
Proof.
  revert i c st. induction values as [|v values IH]; intros i c st; simpl.
  - intros E. unfold ret in E. inv_pair. reflexivity.
  - unfold bind. destruct (kalman_at i v st) as [[e|res] st1] eqn:E1;
      apply kalman_at_published in E1.
    + intros E. inv_pair. exact E1.
    + destruct (columns !! i).
      * intros E. apply IH in E. congruence.
      * intros E. unfold raise in E. inv_pair. exact E1.
Qed.

Lemma kalman_check_published (env : Env) (sensor_type : string)
    (columns : list string) (pid : Z) (values : list Q) (ts : Z)
    (st st' : PassState) (r : Exn + unit) :
  kalman_check env sensor_type columns pid values ts st = (r, st') ->
  published (world st') = published (world st).
Proof.
  intros E. unfold kalman_check in E. unfold_monad.
  destruct (kalman_loop columns 0 values 0 st) as [[e|n] st1] eqn:E1;
    apply kalman_loop_published in E1.
  { inv_pair. exact E1. }
  destruct (Nat.eqb n (length columns)); [|inv_pair; exact E1].
  simpl in E.
  destruct (raises env AtInsertKF); [inv_pair; quiet; exact E1|].
  simpl in E.
  destruct (raises env AtCommitKF); inv_pair; quiet; exact E1.
Qed.

(** The last section publishes the two alert messages, in order, exactly
    when the latch fires; a failing first publish ends the pass. *)
Lemma act_published (env : Env) (sensor_type : string) (st st' : PassState)
    (r : Exn + unit) :
  act env sensor_type st = (r, st') ->
  (fires sensor_type (isolation_forest_abnormal st) (kalman_filter_abnormal st)
     (robot_moved (world st)) = false /\
   published (world st') = published (world st))
  \/
  (fires sensor_type (isolation_forest_abnormal st) (kalman_filter_abnormal st)
     (robot_moved (world st)) = true /\
   (published (world st') = published (world st) ++ alert_messages
    \/ (published (world st')
          = published (world st) ++ [EvPublish "robot/move" (MoveCommand 0 1)]
        /\ exists e, r = inl e))).
Proof.
  unfold act, fires. unfold_monad. intros E.
  destruct (String.eqb sensor_type "sound" && isolation_forest_abnormal st
            && kalman_filter_abnormal st).
  2:{ inv_pair. left. auto. }
  destruct (robot_moved (world st)) eqn:Hm; simpl in E.
  { inv_pair. left. auto. }
  right. split; [reflexivity|].
  destruct (raises env AtPublishMove); simpl in E.
  { inv_pair. right. cbn [world]. rewrite published_log. simpl. eauto. }
  destruct (raises env AtPublishAlert); inv_pair; left; cbn [world];
    rewrite !published_log; simpl; rewrite <- app_assoc; reflexivity.
Qed.

Lemma detection_body_published (env : Env) (sensor_type : string)
    (columns : list string) (table : string) (model : option IsolationForest)
    (kfs : list KalmanFilter) (w : World) (st : PassState) (r : Exn + unit) :
  pending w = [] ->
  detection_body env sensor_type columns table model (mkPassState w kfs false false)
    = (r, st) ->
  (fires sensor_type (isolation_forest_abnormal st) (kalman_filter_abnormal st)
     (robot_moved w) = false /\
   published (world st) = published w)
  \/
  (fires sensor_type (isolation_forest_abnormal st) (kalman_filter_abnormal st)
     (robot_moved w) = true /\
   (published (world st) = published w ++ alert_messages
    \/ (published (world st) = published w ++ [EvPublish "robot/move" (MoveCommand 0 1)]
        /\ exists e, r = inl e))).
Proof.
  intros Hp E. unfold detection_body in E.
  unfold bind at 1 in E. unfold gets at 1 in E. cbn [world abnormal_detected] in E.
  destruct (abnormal_detected w).
  { unfold ret in E. inv_pair. left. simpl. rewrite fires_no_kalman. auto. }
  unfold bind at 1 in E.
  destruct (fetch_latest env table columns (mkPassState w kfs false false))
    as [rrow st1] eqn:Ef.
  pose proof (fetch_latest_published _ _ _ _ _ _ Ef) as Q1. cbn [world] in Q1.
  apply fetch_latest_effect in Ef. destruct Ef as (L1 & _ & _).
  destruct L1 as (_ & P1 & M1 & _ & I1 & K1). simpl in P1, M1, I1, K1.
  destruct rrow as [e|[[[[rid pid] cells] ts]|]].
  { inv_pair. left. rewrite K1, fires_no_kalman. auto. }
  2:{ unfold ret in E. inv_pair. left. rewrite K1, fires_no_kalman. auto. }
  unfold bind at 1 in E.
  destruct (count_anomalies env ts sensor_type st1) as [rn st2] eqn:Ec.
  pose proof (count_anomalies_published _ _ _ _ _ _ Ec) as Q2. rewrite Q1 in Q2.
  apply count_anomalies_effect in Ec. destruct Ec as (L2 & _ & _).
  destruct L2 as (_ & P2 & M2 & _ & I2 & K2).
  rewrite P1 in P2. rewrite M1 in M2. rewrite I1 in I2. rewrite K1 in K2.
  destruct rn as [e|n].
  { inv_pair. left. rewrite K2, fires_no_kalman. auto. }
  destruct (0 <? n)%nat.
  { unfold ret in E. inv_pair. left. rewrite K2, fires_no_kalman. auto. }
  unfold bind at 1 in E.
  destruct (to_floats_pure cells st2) as [rv Hv]. rewrite Hv in E.
  destruct rv as [e|values].
  { inv_pair. left. rewrite K2, fires_no_kalman. auto. }
  unfold bind at 1 in E.
  destruct (isolation_forest_check env sensor_type columns model pid values ts st2)
    as [r3 st3] eqn:E3.
  pose proof (isolation_forest_check_published _ _ _ _ _ _ _ _ _ _ E3) as Q3.
  rewrite Q2 in Q3.
  apply isolation_forest_check_effect in E3; [|rewrite P2; exact Hp].
  destruct E3 as (_ & K3 & M3 & _ & H3). rewrite K2 in K3. rewrite M2 in M3.
  destruct r3 as [e|[]].
  { inv_pair. left. rewrite K3, fires_no_kalman. auto. }
  assert (P3 : pending (world st3) = []).
  { destruct H3 as [(_ & _ & [P3|[e He]])|(_ & _ & P3 & _)]; auto. discriminate. }
  clear H3.
  unfold bind at 1 in E.
  destruct (kalman_check env sensor_type columns pid values ts st3) as [r4 st4] eqn:E4.
  pose proof (kalman_check_published _ _ _ _ _ _ _ _ _ E4) as Q4. rewrite Q3 in Q4.
  apply kalman_check_effect in E4; [|exact P3].
  destruct E4 as (_ & M4 & _ & H4). rewrite M3 in M4.
  destruct r4 as [e|[]].
  { inv_pair. left. destruct H4 as [(K4 & _)|(_ & Hno & _)]; [|discriminate].
    rewrite K4, K3, fires_no_kalman. auto. }
  clear H4.
  pose proof (act_published _ _ _ _ _ E) as Q5.
  apply act_effect in E. destruct E as (_ & _ & _ & I5 & K5 & _).
  rewrite I5, K5. rewrite M4, Q4 in Q5. exact Q5.
Qed.

Lemma run_detection_published (env : Env) (sensor_type : string)
    (columns : list string) (table : string) (model : option IsolationForest)
    (kfs : list KalmanFilter) (w : World) (st : PassState) (caught : option Exn) :
  pending w = [] ->
  run_detection env sensor_type columns table model kfs w = (st, caught) ->
  (fires sensor_type (isolation_forest_abnormal st) (kalman_filter_abnormal st)
     (robot_moved w) = false /\
   published (world st) = published w)
  \/
  (fires sensor_type (isolation_forest_abnormal st) (kalman_filter_abnormal st)
     (robot_moved w) = true /\
   (published (world st) = published w ++ alert_messages
    \/ (published (world st) = published w ++ [EvPublish "robot/move" (MoveCommand 0 1)]
        /\ exists e, caught = Some e))).
Proof.
  intros Hp E. unfold run_detection in E.
  destruct (detection_body env sensor_type columns table model
              (mkPassState w kfs false false)) as [r st1] eqn:Eb.
  apply detection_body_published in Eb; [|exact Hp].
  destruct r as [e|u]; inv_pair; cbn [world isolation_forest_abnormal kalman_filter_abnormal].
  - unfold rollback. change (published (drop_pending ?x)) with (published x).
    rewrite published_log. cbn [is_publish]. rewrite app_nil_r.
    destruct Eb as [Eb|(Hf & [Eb|(Eb & _)])]; [left; exact Eb|right..];
      split; eauto.
  - destruct Eb as [Eb|(Hf & [Eb|(_ & e & He)])]; [left; exact Eb|right; auto|discriminate].
Qed.

(** X5. A pass for a sensor other than sound (the light pass) publishes
    nothing and leaves both latch flags as they were, whatever the
    detectors say. *)
Theorem other_sensor_never_alerts (env : Env) (sensor_type : string)
    (columns : list string) (table : string) (model : option IsolationForest)
    (kfs : list KalmanFilter) (w : World) :
  sensor_type <> "sound"%string ->
  pending w = [] ->
  let st := fst (run_detection env sensor_type columns table model kfs w) in
  published (world st) = published w /\
  robot_moved (world st) = robot_moved w /\
  abnormal_detected (world st) = abnormal_detected w.
Proof.
  intros Hs Hp st.
  destruct (run_detection env sensor_type columns table model kfs w) as [st' caught] eqn:E.
  subst st. simpl.
  assert (Hf : forall a b c, fires sensor_type a b c = false).
  { intros a b c. unfold fires. apply String.eqb_neq in Hs. rewrite Hs. reflexivity. }
  pose proof (run_detection_published _ _ _ _ _ _ _ _ _ Hp E) as Hq.
  apply pass_summary in E; [|exact Hp]. destruct E as (_ & Hm & Hd & _).
  rewrite Hf in Hm, Hd, Hq. rewrite orb_false_r in Hm, Hd.
  destruct Hq as [(_ & Hq)|(Hq & _)]; [auto|discriminate].
Qed.

Lemma other_sensor_never_alerts_witness :
  published (world (fst (run_pass bright_pass (initial_world [])))) = [].
Proof.
  apply (other_sensor_never_alerts (readings_env [bright_reading] no_fault) "light"
           light_columns "smart_room_readings" (Some always_outlier) light_filters
           (initial_world [])).
  - discriminate.
  - reflexivity.
Defined.

Lemma run_passes_published (ps : list Pass) (w : World) :
  pending w = [] -> robot_moved w = abnormal_detected w ->
  (abnormal_detected w = false -> published w = []) ->
  (abnormal_detected w = true ->
   published w = alert_messages
   \/ published w = [EvPublish "robot/move" (MoveCommand 0 1)]) ->
  let w' := run_passes ps w in
  (abnormal_detected w' = false -> published w' = []) /\
  (abnormal_detected w' = true ->
   published w' = alert_messages
   \/ published w' = [EvPublish "robot/move" (MoveCommand 0 1)]).
Proof.
  revert w. induction ps as [|p ps IH]; intros w Hp Hm H0 H1; simpl; [auto|].
  destruct (run_pass_consistent p w Hp Hm) as [Hp' Hm'].
  destruct (run_pass p w) as [st caught] eqn:E. simpl in *.
  unfold run_pass in E.
  pose proof (run_detection_published _ _ _ _ _ _ _ _ _ Hp E) as Hq.
  apply pass_summary in E; [|exact Hp]. destruct E as (_ & _ & Hd & _).
  apply IH; try assumption.
  - intros Hopen. rewrite Hd in Hopen. apply orb_false_iff in Hopen.
    destruct Hopen as [Hw Hf]. rewrite Hf in Hq.
    destruct Hq as [(_ & Hq)|(Hq & _)]; [|discriminate]. rewrite Hq. auto.
  - intros Hfired. destruct Hq as [(Hf & Hq)|(Hf & Hq)].
    + rewrite Hd, Hf, orb_false_r in Hfired. rewrite Hq. auto.
    + assert (Hw : abnormal_detected w = false).
      { unfold fires in Hf. rewrite Hm in Hf.
        destruct (abnormal_detected w); [|reflexivity].
        rewrite andb_false_r in Hf. discriminate. }
      rewrite (H0 Hw) in Hq. simpl in Hq.
      destruct Hq as [Hq|(Hq & _)]; rewrite Hq; auto.
Qed.

(** X6. From the start of the script, over any sequence of passes with any
    readings and any collaborator failures, the alert is published at most
    once: nothing is published while the latch is OPEN, and once it is
    FIRED the publish calls made are robot/move then web/alert, or
    robot/move alone when that first publish raised. *)
Theorem alert_published_at_most_once (ledger : list AnomalyRecord) (ps : list Pass) :
  let w := run_passes ps (initial_world ledger) in
  (latch w = OPEN -> published w = []) /\
  (latch w = FIRED ->
   published w = alert_messages
   \/ published w = [EvPublish "robot/move" (MoveCommand 0 1)]).
Proof.
  intros w. rewrite latch_open, latch_fired.
  apply (run_passes_published ps (initial_world ledger)); try reflexivity.
  simpl. discriminate.
Qed.

Lemma alert_published_at_most_once_witness :
  published (run_passes [loud_pass no_fault; loud_pass no_fault; bright_pass]
               (initial_world [])) = alert_messages
  \/ published (run_passes [loud_pass no_fault; loud_pass no_fault; bright_pass]
                  (initial_world []))
     = [EvPublish "robot/move" (MoveCommand 0 1)].
Proof.
  apply (alert_published_at_most_once []
           [loud_pass no_fault; loud_pass no_fault; bright_pass]).
  reflexivity.
Defined.

(** ** Passes that end early *)

Lemma latest_none (rows : list Reading) : latest rows = None -> rows = [].
Proof.
  destruct rows as [|r rest]; [reflexivity|]. simpl.
  destruct (latest rest) as [r'|]; [|discriminate].
  destruct (r_timestamp r <? r_timestamp r')%Z; discriminate.
Qed.

Lemma filter_all_false {A : Type} (f : A -> bool) (l : list A) :
  Forall (fun a => f a = false) l -> List.filter f l = [].
Proof.
  induction 1 as [|a l Ha _ IH]; simpl; [reflexivity|]. rewrite Ha. exact IH.
Qed.

(** X7. When the table holds no row whose first selected column is not
    NULL (an empty table included), a pass with the latch OPEN makes the
    reading query and nothing else: no exception, no dedupe query, no
    detector call, no row inserted, filters untouched. *)
Theorem pass_without_reading (env : Env) (sensor_type : string) (c0 : string)
    (cols : list string) (table : string) (model : option IsolationForest)
    (kfs : list KalmanFilter) (w : World) (rows : list Reading) :
  latch w = OPEN ->
  raises env AtSelectLatest = false ->
  tables env !! table = Some rows ->
  forallb known_column (c0 :: cols) = true ->
  Forall (fun r => not_null c0 r = false) rows ->
  run_detection env sensor_type (c0 :: cols) table model kfs w
  = (mkPassState (log (EvSelectLatest table (c0 :: cols)) w) kfs false false, None).
Proof.
  intros Hopen Hf Ht Hk Hnull. apply latch_open in Hopen.
  assert (Hs : select_latest (c0 :: cols) rows = Some None).
  { unfold select_latest. rewrite Hk, (filter_all_false _ _ Hnull). reflexivity. }
  unfold run_detection, detection_body, fetch_latest. unfold_monad. simpl.
  rewrite Hopen. simpl. rewrite Hf. simpl. rewrite Ht, Hs. reflexivity.
Qed.

Lemma pass_without_reading_witness :
  run_detection (readings_env [loud_reading] no_fault) "light" light_columns
    "smart_room_readings" (Some always_outlier) light_filters (initial_world [])
  = (mkPassState
       (log (EvSelectLatest "smart_room_readings" light_columns) (initial_world []))
       light_filters false false, None).
Proof.
  apply (pass_without_reading (readings_env [loud_reading] no_fault) "light"
           "light_level" [] "smart_room_readings" (Some always_outlier) light_filters
           (initial_world []) [loud_reading]).
  - reflexivity.
  - reflexivity.
  - reflexivity.
  - reflexivity.
  - repeat constructor.
Defined.

Lemma to_floats_null (cells : list (option Q)) (st : PassState) :
  In None cells -> to_floats cells st = (inl TypeError, st).
Proof.
  induction cells as [|c cells IH]; intros Hin; [contradiction|].
  simpl. destruct c as [v|]; [|reflexivity].
  destruct Hin as [Hin|Hin]; [discriminate|].
  unfold bind. rewrite (IH Hin). reflexivity.
Qed.

(** X8. A fetched reading with a NULL among its selected cells (a sound
    row whose zcr is NULL, say) aborts the pass at the coercion: the
    TypeError is caught and rolled back, the classifier and the filters are
    not run, the ledger and the latch flags are as before. *)
Theorem null_feature_aborts_pass (env : Env) (sensor_type : string)
    (columns : list string) (table : string) (model : option IsolationForest)
    (kfs : list KalmanFilter) (w : World) (rows : list Reading)
    (rid pid : Z) (cells : list (option Q)) (ts : Z) :
  latch w = OPEN ->
  raises env AtSelectLatest = false ->
  raises env AtSelectCount = false ->
  tables env !! table = Some rows ->
  select_latest columns rows = Some (Some (rid, pid, cells, ts)) ->
  select_count ts sensor_type (anomalies w ++ pending w) = 0%nat ->
  In None cells ->
  run_detection env sensor_type columns table model kfs w
  = (mkPassState
       (rollback (log (EvSelectCount ts sensor_type)
                    (log (EvSelectLatest table columns) w)))
       kfs false false, Some TypeError).
Proof.
  intros Hopen Hf1 Hf2 Ht Hs Hc Hnull. apply latch_open in Hopen.
  unfold run_detection, detection_body, fetch_latest, count_anomalies.
  unfold bind at 1. unfold gets at 1. cbn [world abnormal_detected]. rewrite Hopen.
  destruct columns as [|c0 cols]; [discriminate|].
  unfold bind at 1. unfold bind at 1. unfold bind at 1.
  unfold modify_world at 1. unfold fails at 1. rewrite Hf1.
  unfold ret at 1. rewrite Ht, Hs. unfold ret at 1.
  unfold bind at 1. unfold bind at 1. unfold bind at 1.
  unfold modify_world at 1. unfold fails at 1. rewrite Hf2.
  unfold ret at 1. unfold bind at 1. unfold gets at 1. unfold ret at 1.
  cbn [world anomalies pending log]. rewrite Hc. cbn [Nat.ltb Nat.leb].
  unfold bind at 1. rewrite (to_floats_null _ _ Hnull). reflexivity.
Qed.

Lemma null_feature_aborts_pass_witness :
  snd (run_detection
         (readings_env [mkReading 3 10 None (Some 0.05) None None 1000] no_fault)
         "sound" sound_columns "smart_room_readings" (Some always_outlier)
         sound_filters (initial_world []))
  = Some TypeError.
Proof.
  rewrite (null_feature_aborts_pass
             (readings_env [mkReading 3 10 None (Some 0.05) None None 1000] no_fault)
             "sound" sound_columns "smart_room_readings" (Some always_outlier)
             sound_filters (initial_world [])
             [mkReading 3 10 None (Some 0.05) None None 1000]
             3 10 [Some 0.05; None] 1000).
  - reflexivity.
  - reflexivity.
  - reflexivity.
  - reflexivity.
  - reflexivity.
  - reflexivity.
  - reflexivity.
  - right. left. reflexivity.
Defined.

(** X9. Called without a model, [run_detection] does not fall back on the
    estimator: past the guards, [model.predict] raises, the AttributeError
    is caught and rolled back, no filter is run and no row is inserted. *)
Theorem missing_model_aborts_before_estimator (env : Env) (sensor_type : string)
    (columns : list string) (table : string) (kfs : list KalmanFilter) (w : World)
    (rows : list Reading) (rid pid : Z) (values : list Q) (ts : Z) :
  latch w = OPEN ->
  raises env AtSelectLatest = false ->
  raises env AtSelectCount = false ->
  tables env !! table = Some rows ->
  select_latest columns rows = Some (Some (rid, pid, List.map Some values, ts)) ->
  select_count ts sensor_type (anomalies w ++ pending w) = 0%nat ->
  run_detection env sensor_type columns table None kfs w
  = (mkPassState
       (rollback (log (EvSelectCount ts sensor_type)
                    (log (EvSelectLatest table columns) w)))
       kfs false false, Some AttributeError).
Proof.
  intros Hopen Hf1 Hf2 Ht Hs Hc. apply latch_open in Hopen.
  unfold run_detection.
  rewrite (detection_body_past_guard env sensor_type columns table None kfs w rows
             rid pid values ts Hopen Hf1 Hf2 Ht Hs Hc).
  reflexivity.
Qed.

Lemma missing_model_aborts_before_estimator_witness :
  kf_list (fst (run_detection (readings_env [loud_reading] no_fault) "sound"
                  sound_columns "smart_room_readings" None sound_filters
                  (initial_world [])))
  = sound_filters.
Proof.
  rewrite (missing_model_aborts_before_estimator
             (readings_env [loud_reading] no_fault) "sound" sound_columns
             "smart_room_readings" sound_filters (initial_world []) [loud_reading]
             1 10 [0.05; 0.03] 1000); reflexivity.
Defined.

(** ** A pass that runs to its end *)

Lemma update_positive (kf : KalmanFilter) (z : Q) :
  kf_H kf = 1 -> 0 < kf_R kf -> 0 < kf_P kf ->
  exists kf', update kf z = Some kf' /\ 0 < kf_P kf'.
Proof.
  intros HH HR HP.
  destruct (gain_random_walk kf HH) as (K & HK & HKv); [lra|].
  unfold update. rewrite HK. eexists. split; [reflexivity|]. cbn [kf_P]. rewrite HH.
  assert (E : (1 - K * 1) * kf_P kf == kf_P kf * kf_R kf / (kf_P kf + kf_R kf))
    by (rewrite HKv; field; lra).
  rewrite E.
  assert (0 < kf_P kf * kf_R kf) by (apply Qmult_lt_0_compat; assumption).
  apply Qlt_shift_div_l; lra.
Qed.

Lemma stable_cycle (kf : KalmanFilter) (z : Q) :
  stable kf ->
  exists kf',
    kalman_feature kf z = (kf', Some (residual kf' z)) /\ stable kf'.
Proof.
  intros (HF & HH & HQ & HR & HP).
  assert (HP1 : 0 < kf_P (predict kf)).
  { unfold predict; cbn [kf_P]. rewrite HF.
    assert (E : 1 * kf_P kf * 1 + kf_Q kf == kf_P kf + kf_Q kf) by ring.
    rewrite E. lra. }
  destruct (update_positive (predict kf) z HH HR HP1) as (kf' & Hu & HP').
  exists kf'. unfold kalman_feature. rewrite Hu. split; [reflexivity|].
  unfold update in Hu. destruct (gain (predict kf)) as [K|]; [|discriminate].
  inversion Hu; subst kf'. cbn [kf_P] in HP'.
  unfold stable; cbn [kf_F kf_H kf_Q kf_R kf_P predict]. auto.
Qed.

Lemma isolation_forest_check_returns_sound (env : Env) (f : IsolationForest) (pid : Z)
    (rms zcr : Q) (ts : Z) (st : PassState) :
  raises env AtInsertIF = false ->
  raises env AtCommitIF = false ->
  exists st',
    isolation_forest_check env "sound" sound_columns (Some f) pid [rms; zcr] ts st
      = (inr tt, st').
Proof.
  intros Hf1 Hf2. unfold isolation_forest_check, sound_columns. unfold_monad.
  destruct (f [rms; zcr] =? -1)%Z; simpl; [|eauto].
  destruct (out_of_band "rms" rms), (out_of_band "zcr" zcr); simpl;
    rewrite ?Hf1; simpl; rewrite ?Hf2; simpl; eauto.
Qed.

Lemma isolation_forest_check_returns_light (env : Env) (f : IsolationForest) (pid : Z)
    (v : Q) (ts : Z) (st : PassState) :
  raises env AtInsertIF = false ->
  raises env AtCommitIF = false ->
  exists st',
    isolation_forest_check env "light" light_columns (Some f) pid [v] ts st
      = (inr tt, st').
Proof.
  intros Hf1 Hf2. unfold isolation_forest_check, light_columns. unfold_monad.
  destruct (f [v] =? -1)%Z; simpl; [|eauto].
  rewrite Hf1. simpl. rewrite Hf2. simpl. eauto.
Qed.

Lemma kalman_check_sound (env : Env) (pid : Z) (rms zcr : Q) (ts : Z)
    (k1 k2 k1' k2' : KalmanFilter) (st : PassState) :
  raises env AtInsertKF = false ->
  raises env AtCommitKF = false ->
  kf_list st = [k1; k2] ->
  kalman_filter_abnormal st = false ->
  kalman_feature k1 rms = (k1', Some (residual k1' rms)) ->
  kalman_feature k2 zcr = (k2', Some (residual k2' zcr)) ->
  exists st',
    kalman_check env "sound" sound_columns pid [rms; zcr] ts st = (inr tt, st') /\
    kf_list st' = [k1'; k2'] /\
    kalman_filter_abnormal st'
      = Qltb 0.001 (residual k1' rms) && Qltb 0.001 (residual k2' zcr).
Proof.
  intros Hf1 Hf2 Hk Hflag H1 H2.
  unfold kalman_check, sound_columns. cbn [kalman_loop].
  unfold bind at 1. unfold bind at 1. unfold kalman_at at 1.
  rewrite Hk. cbn [lookup list_lookup]. rewrite H1.
  cbn [lookup list_lookup threshold String.eqb Ascii.eqb Bool.eqb].
  unfold bind at 1. unfold kalman_at at 1.
  cbn [kf_list list_insert insert lookup list_lookup]. rewrite H2.
  cbn [lookup list_lookup threshold String.eqb Ascii.eqb Bool.eqb].
  unfold ret at 1.
  destruct (Qltb 0.001 (residual k1' rms)), (Qltb 0.001 (residual k2' zcr));
    cbn [Nat.eqb length andb]; unfold_monad; simpl;
    rewrite ?Hf1; simpl; rewrite ?Hf2; simpl;
    eexists; split; try reflexivity; simpl; auto.
Qed.

Lemma kalman_check_light (env : Env) (pid : Z) (v : Q) (ts : Z)
    (k1 k1' : KalmanFilter) (st : PassState) :
  raises env AtInsertKF = false ->
  raises env AtCommitKF = false ->
  kf_list st = [k1] ->
  kalman_filter_abnormal st = false ->
  kalman_feature k1 v = (k1', Some (residual k1' v)) ->
  exists st',
    kalman_check env "light" light_columns pid [v] ts st = (inr tt, st') /\
    kf_list st' = [k1'] /\
    kalman_filter_abnormal st' = Qltb 1 (residual k1' v).
Proof.
  intros Hf1 Hf2 Hk Hflag H1.
  unfold kalman_check, light_columns. cbn [kalman_loop].
  unfold bind at 1. unfold bind at 1. unfold kalman_at at 1.
  rewrite Hk. cbn [lookup list_lookup]. rewrite H1.
  cbn [lookup list_lookup threshold String.eqb Ascii.eqb Bool.eqb].
  unfold ret at 1.
  destruct (Qltb 1 (residual k1' v));
    cbn [Nat.eqb length]; unfold_monad; simpl;
    rewrite ?Hf1; simpl; rewrite ?Hf2; simpl;
    eexists; split; try reflexivity; simpl; auto.
Qed.

Lemma act_returns (env : Env) (sensor_type : string) (st : PassState) :
  raises env AtPublishMove = false ->
  raises env AtPublishAlert = false ->
  exists st',
    act env sensor_type st = (inr tt, st') /\
    kf_list st' = kf_list st /\
    kalman_filter_abnormal st' = kalman_filter_abnormal st.
Proof.
  intros Hf1 Hf2. unfold act. unfold_monad.
  destruct (String.eqb sensor_type "sound" && isolation_forest_abnormal st
            && kalman_filter_abnormal st); [|eauto].
  destruct (robot_moved (world st)); simpl; [eauto|].
  rewrite Hf1. simpl. rewrite Hf2. simpl. eauto.
Qed.

(** X10. A pass that reaches the detectors with a trained model, a reading
    without NULL and no collaborator failure ends without exception when
    its filters are stable; each filter has then run exactly one
    predict-update cycle on its own feature, whatever the classifier says,
    and the ledger has gained exactly the rows of the confirmations the
    pass made: the Kalman Filter row is there exactly when the estimator's
    flag is set. *)
Theorem pass_runs_each_filter_once (env : Env) (table : string)
    (f : IsolationForest) (w : World) (rows : list Reading) :
  (forall s, raises env s = false) ->
  latch w = OPEN ->
  pending w = [] ->
  tables env !! table = Some rows ->
  (forall (rid pid ts : Z) (rms zcr : Q) (k1 k2 : KalmanFilter),
      select_latest sound_columns rows = Some (Some (rid, pid, [Some rms; Some zcr], ts)) ->
      select_count ts "sound" (anomalies w) = 0%nat ->
      stable k1 -> stable k2 ->
      let r := run_detection env "sound" sound_columns table (Some f) [k1; k2] w in
      snd r = None /\
      kf_list (fst r) = [fst (kalman_feature k1 rms); fst (kalman_feature k2 zcr)] /\
      anomalies (world (fst r)) =
        anomalies w
        ++ committed_records (isolation_forest_abnormal (fst r))
             (kalman_filter_abnormal (fst r)) pid "sound" [rms; zcr] ts) /\
  (forall (rid pid ts : Z) (v : Q) (k1 : KalmanFilter),
      select_latest light_columns rows = Some (Some (rid, pid, [Some v], ts)) ->
      select_count ts "light" (anomalies w) = 0%nat ->
      stable k1 ->
      let r := run_detection env "light" light_columns table (Some f) [k1] w in
      snd r = None /\
      kf_list (fst r) = [fst (kalman_feature k1 v)] /\
      anomalies (world (fst r)) =
        anomalies w
        ++ committed_records (isolation_forest_abnormal (fst r))
             (kalman_filter_abnormal (fst r)) pid "light" [v] ts).
Proof.
  intros Hnf Hopen Hp Ht. apply latch_open in Hopen. split.
  - intros rid pid ts rms zcr k1 k2 Hs Hc Hk1 Hk2 r. subst r.
    destruct (stable_cycle k1 rms Hk1) as (k1' & H1 & _).
    destruct (stable_cycle k2 zcr Hk2) as (k2' & H2 & _).
    rewrite H1, H2. cbn [fst].
    assert (Hrun : exists st3,
               run_detection env "sound" sound_columns table (Some f) [k1; k2] w
                 = (st3, None) /\
               kf_list st3 = [k1'; k2'] /\
               kalman_filter_abnormal st3
                 = Qltb 0.001 (residual k1' rms) && Qltb 0.001 (residual k2' zcr));
      [|destruct Hrun as (st3 & Erun & Hkf3 & _);
        pose proof (pass_summary_row env "sound" sound_columns table (Some f)
                      [k1; k2] w rows rid pid [rms; zcr] ts Hp Ht Hs) as Hled;
        cbv zeta in Hled; rewrite Erun in Hled |- *; cbn [fst snd] in Hled |- *;
        split; [reflexivity|]; split; [exact Hkf3|exact Hled]].
    unfold run_detection.
    rewrite (detection_body_past_guard env "sound" sound_columns table (Some f)
               [k1; k2] w rows rid pid [rms; zcr] ts Hopen (Hnf _) (Hnf _) Ht Hs)
      by (rewrite Hp, app_nil_r; exact Hc).
    unfold bind at 1.
    match goal with |- context [isolation_forest_check ?e ?s ?c ?m ?p ?v ?t ?st0] =>
      destruct (isolation_forest_check_returns_sound e f p rms zcr t st0 (Hnf _) (Hnf _))
        as (st1 & Hcheck) end.
    rewrite Hcheck.
    apply isolation_forest_check_effect in Hcheck; [|exact Hp].
    destruct Hcheck as (Hkf & Hfl & _). cbn [kf_list kalman_filter_abnormal] in Hkf, Hfl.
    unfold bind at 1.
    destruct (kalman_check_sound env pid rms zcr ts k1 k2 k1' k2' st1
                (Hnf _) (Hnf _) Hkf Hfl H1 H2) as (st2 & Hkal & Hkf2 & Hfl2).
    rewrite Hkal.
    destruct (act_returns env "sound" st2 (Hnf _) (Hnf _)) as (st3 & Hact & Hkf3 & Hfl3).
    rewrite Hact. exists st3. split; [reflexivity|]. split; congruence.
  - intros rid pid ts v k1 Hs Hc Hk1 r. subst r.
    destruct (stable_cycle k1 v Hk1) as (k1' & H1 & _).
    rewrite H1. cbn [fst].
    assert (Hrun : exists st3,
               run_detection env "light" light_columns table (Some f) [k1] w
                 = (st3, None) /\
               kf_list st3 = [k1'] /\
               kalman_filter_abnormal st3 = Qltb 1 (residual k1' v));
      [|destruct Hrun as (st3 & Erun & Hkf3 & _);
        pose proof (pass_summary_row env "light" light_columns table (Some f)
                      [k1] w rows rid pid [v] ts Hp Ht Hs) as Hled;
        cbv zeta in Hled; rewrite Erun in Hled |- *; cbn [fst snd] in Hled |- *;
        split; [reflexivity|]; split; [exact Hkf3|exact Hled]].
    unfold run_detection.
    rewrite (detection_body_past_guard env "light" light_columns table (Some f)
               [k1] w rows rid pid [v] ts Hopen (Hnf _) (Hnf _) Ht Hs)
      by (rewrite Hp, app_nil_r; exact Hc).
    unfold bind at 1.
    match goal with |- context [isolation_forest_check ?e ?s ?c ?m ?p ?vs ?t ?st0] =>
      destruct (isolation_forest_check_returns_light e f p v t st0 (Hnf _) (Hnf _))
        as (st1 & Hcheck) end.
    rewrite Hcheck.
    apply isolation_forest_check_effect in Hcheck; [|exact Hp].
    destruct Hcheck as (Hkf & Hfl & _). cbn [kf_list kalman_filter_abnormal] in Hkf, Hfl.
    unfold bind at 1.
    destruct (kalman_check_light env pid v ts k1 k1' st1
                (Hnf _) (Hnf _) Hkf Hfl H1) as (st2 & Hkal & Hkf2 & Hfl2).
    rewrite Hkal.
    destruct (act_returns env "light" st2 (Hnf _) (Hnf _)) as (st3 & Hact & Hkf3 & Hfl3).
    rewrite Hact. exists st3. split; [reflexivity|]. split; congruence.
Qed.

Lemma pass_runs_each_filter_once_witness :
  snd (run_detection (readings_env [loud_reading] no_fault) "sound" sound_columns
         "smart_room_readings" (Some always_outlier) sound_filters (initial_world []))
  = None.
Proof.
  apply (proj1 (pass_runs_each_filter_once
                  (readings_env [loud_reading] no_fault) "smart_room_readings"
                  always_outlier (initial_world []) [loud_reading]
                  (fun _ => eq_refl) eq_refl eq_refl eq_refl)
           1%Z 10%Z 1000%Z 0.05 0.03
           (initialize_kalman_filter "sound" "rms")
           (initialize_kalman_filter "sound" "zcr")).
  - reflexivity.
  - reflexivity.
  - unfold stable. simpl. repeat split; vm_compute; try discriminate; reflexivity.
  - unfold stable. simpl. repeat split; vm_compute; try discriminate; reflexivity.
Defined.

(** ** The ledger only grows *)

Lemma committed_records_origin (ifa kfa : bool) (pid : Z) (s : string)
    (values : list Q) (ts : Z) :
  Forall (fun a =>
            (a_detection_method a = "Isolation Forest"%string
             \/ a_detection_method a = "Kalman Filter"%string) /\
            a_sensor_type a = s /\ a_timestamp a = ts /\ a_patient_id a = pid)
    (committed_records ifa kfa pid s values ts).
Proof.
  unfold committed_records, isolation_forest_record.
  destruct (String.eqb s "light") eqn:E;
    [apply String.eqb_eq in E; subst s|];
    destruct ifa, kfa; simpl;
    repeat (constructor; [simpl; repeat split; auto|]); constructor.
Qed.

(** X11. Passes never delete or change a row of the ledger: after any
    sequence of passes the ledger is the old ledger followed by new rows,
    at most two per pass, each tagged with one of the two detection methods
    and carrying the sensor type of one of the passes. *)
Theorem ledger_only_grows (ps : list Pass) (w : World) :
  pending w = [] ->
  exists added,
    anomalies (run_passes ps w) = anomalies w ++ added /\
    (length added <= 2 * length ps)%nat /\
    Forall (fun a =>
              (a_detection_method a = "Isolation Forest"%string
               \/ a_detection_method a = "Kalman Filter"%string) /\
              exists p, In p ps /\ a_sensor_type a = p_sensor_type p) added.
Proof.
  revert w. induction ps as [|p ps IH]; intros w Hp.
  - exists []. simpl. rewrite app_nil_r. auto.
  - simpl run_passes.
    destruct (IH (world (fst (run_pass p w))) (run_pass_pending p w Hp))
      as (added & Ha & Hlen & Hall).
    destruct (run_pass p w) as [st caught] eqn:E. cbn [fst] in *.
    unfold run_pass in E. apply pass_summary in E; [|exact Hp].
    destruct E as (_ & _ & _ & [(_ & _ & Hs)|(rid & pid & values & ts & rows & _ & _ & _ & _ & Hs)]).
    + exists added. rewrite Ha, Hs. split; [reflexivity|]. split; [simpl; lia|].
      eapply Forall_impl; [exact Hall|]. simpl.
      intros a (Hm & q & Hq & Hsq). split; [exact Hm|]. exists q. auto.
    + exists (committed_records (isolation_forest_abnormal st) (kalman_filter_abnormal st)
                pid (p_sensor_type p) values ts ++ added).
      rewrite Ha, Hs, <- app_assoc. split; [reflexivity|]. split.
      * rewrite length_app.
        pose proof (committed_records_length (isolation_forest_abnormal st)
                      (kalman_filter_abnormal st) pid (p_sensor_type p) values ts).
        simpl. lia.
      * apply Forall_app. split.
        -- eapply Forall_impl; [apply committed_records_origin|]. simpl.
           intros a (Hm & Hsn & _). split; [exact Hm|]. exists p. auto.
        -- eapply Forall_impl; [exact Hall|]. simpl.
           intros a (Hm & q & Hq & Hsq). split; [exact Hm|]. exists q. auto.
Qed.

Lemma ledger_only_grows_witness :
  exists added,
    anomalies (run_passes [bright_pass; loud_pass kalman_insert_fails] (initial_world []))
      = [] ++ added /\
    (length added <= 4)%nat.
Proof.
  destruct (ledger_only_grows [bright_pass; loud_pass kalman_insert_fails]
              (initial_world []) eq_refl) as (added & Ha & Hlen & _).
  exists added. split; [exact Ha|exact Hlen].
Defined.

(** ** Training *)

Lemma all_rows_rows (cols : list string) (df : list CsvRow) (vs : list (list Q)) :
  all_rows cols df = inr vs ->
  Forall2 (fun r v => select_columns cols r = inr v) df vs.
Proof.
  revert vs. induction df as [|r df IH]; intros vs; simpl.
  - intros E. inversion E. constructor.
  - destruct (select_columns cols r) as [e|v] eqn:Er; [discriminate|].
    destruct (all_rows cols df) as [e|vs']; [discriminate|].
    intros E. inversion E; subst. constructor; [exact Er|]. apply IH. reflexivity.
Qed.

Lemma filtered_training_set_spec (sensor : string) (df : list CsvRow) (r : CsvRow) :
  In r (filtered_training_set sensor df) <->
  In r df /\ c_label r = "normal"%string /\ in_training_range sensor r = true.
Proof.
  unfold filtered_training_set. rewrite !filter_In, String.eqb_eq. tauto.
Qed.

(** X12. A model that [train_model] returns for a configured sensor was
    fitted on at least 3 samples, one per kept row of the training file and
    in the order of the file, and every kept row is labelled normal and
    inside the range of the sensor: rms in [0.001, 0.03] and zcr in
    [0.009, 0.04] for sound, light level in [0, 25] for light. *)
Theorem model_is_fitted_on_normal_rows_in_range (files : gmap string (list CsvRow))
    (fit : list (list Q) -> IsolationForest) (sensor : string) (cfg : SensorCfg)
    (model : IsolationForest) :
  In (sensor, cfg) sensor_config ->
  train_model files fit sensor cfg = Some model ->
  exists df values,
    files !! "trainingData.csv"%string = Some df /\
    model = fit values /\
    (3 <= length values)%nat /\
    Forall2 (fun r v => select_columns (columns cfg) r = inr v)
      (filtered_training_set sensor df) values /\
    Forall (fun r =>
              In r df /\ c_label r = "normal"%string /\
              (sensor = "sound"%string ->
               0.001 <= c_rms r /\ c_rms r <= 0.03 /\
               0.009 <= c_zcr r /\ c_zcr r <= 0.04) /\
              (sensor = "light"%string ->
               0 <= c_light_level r /\ c_light_level r <= 25))
      (filtered_training_set sensor df).
Proof.
  intros Hin Ht.
  assert (Hcfg : csv_file cfg = "trainingData.csv"%string /\
                 training_source cfg = "csv"%string).
  { unfold sensor_config in Hin. simpl in Hin.
    destruct Hin as [H|[H|[]]]; inversion H; subst; auto. }
  destruct Hcfg as [Hfile Hsrc].
  unfold train_model, training_values in Ht. rewrite Hsrc, Hfile, String.eqb_refl in Ht.
  destruct (files !! "trainingData.csv"%string) as [df|]; [|discriminate].
  destruct (all_rows (columns cfg) (filtered_training_set sensor df)) as [e|values] eqn:E;
    [discriminate|].
  destruct (3 <=? length values)%nat eqn:E3; [|discriminate].
  inversion Ht; subst model. apply Nat.leb_le in E3.
  exists df, values. split; [reflexivity|]. split; [reflexivity|]. split; [exact E3|].
  split; [apply all_rows_rows; exact E|].
  apply List.Forall_forall. intros r Hr.
  apply filtered_training_set_spec in Hr. destruct Hr as (Hdf & Hlab & Hrange).
  split; [exact Hdf|]. split; [exact Hlab|]. unfold in_training_range in Hrange. split.
  - intros ->. simpl in Hrange. rewrite !andb_true_iff, !Qle_bool_iff in Hrange. tauto.
  - intros ->. simpl in Hrange. rewrite !andb_true_iff, !Qle_bool_iff in Hrange. tauto.
Qed.

Lemma model_is_fitted_on_normal_rows_in_range_witness :
  exists df values,
    two_sound_samples !! "trainingData.csv"%string = Some df /\
    always_outlier = (fun _ : list (list Q) => always_outlier) values /\
    (3 <= length values)%nat.
Proof.
  destruct (model_is_fitted_on_normal_rows_in_range two_sound_samples
              (fun _ => always_outlier) "light"
              (mkSensorCfg light_columns "trainingData.csv" "csv" None) always_outlier)
    as (df & values & Hf & Hm & Hlen & _).
  - left. reflexivity.
  - vm_compute. reflexivity.
  - exists df, values. split; [exact Hf|]. split; [exact Hm|exact Hlen].
Defined.

(** X13. [train_model] returns no model, and raises nothing, when the
    training source is not the CSV, when the CSV file cannot be read, and
    when a configured column is missing from the file. *)
Theorem train_model_without_data (files : gmap string (list CsvRow))
    (fit : list (list Q) -> IsolationForest) (sensor : string) (cfg : SensorCfg) :
  training_source cfg <> "csv"%string
  \/ files !! csv_file cfg = None
  \/ (exists df r c,
        files !! csv_file cfg = Some df /\
        In r (filtered_training_set sensor df) /\
        In c (columns cfg) /\ csv_column c r = None) ->
  train_model files fit sensor cfg = None.
Proof.
  unfold train_model, training_values.
  intros [Hsrc|[Hfile|(df & r & c & Hfile & Hr & Hc & Hcol)]].
  - apply String.eqb_neq in Hsrc. rewrite Hsrc. reflexivity.
  - destruct (String.eqb (training_source cfg) "csv"); [|reflexivity].
    rewrite Hfile. reflexivity.
  - destruct (String.eqb (training_source cfg) "csv"); [|reflexivity].
    rewrite Hfile.
    destruct (all_rows (columns cfg) (filtered_training_set sensor df)) as [e|values] eqn:E;
      [reflexivity|exfalso].
    apply all_rows_rows in E.
    assert (Hsel : exists v, select_columns (columns cfg) r = inr v).
    { clear -E Hr. induction E as [|r' v' l l' Hrv _ IH]; [contradiction|].
      destruct Hr as [->|Hr]; eauto. }
    destruct Hsel as [v Hv]. clear -Hv Hc Hcol.
    revert v Hv. induction (columns cfg) as [|c' cols IH]; intros v Hv; [contradiction|].
    simpl in Hv. destruct Hc as [->|Hc].
    + rewrite Hcol in Hv. discriminate.
    + destruct (csv_column c' r); [|discriminate].
      destruct (select_columns cols r) as [e|vs]; [discriminate|].
      apply (IH Hc vs). reflexivity.
Qed.

Lemma train_model_without_data_witness :
  train_model ∅ (fun _ => always_outlier) "sound"
    (mkSensorCfg sound_columns "trainingData.csv" "csv" None) = None.
Proof.
  apply (train_model_without_data ∅ (fun _ => always_outlier) "sound"
           (mkSensorCfg sound_columns "trainingData.csv" "csv" None)).
  right. left. reflexivity.
Defined.

(** ** The main loop with both sensors trained *)





(** ** The offline evaluation script *)

Lemma kalman_row_pair (k1 k2 : KalmanFilter) (v1 v2 : Q) (acc : list bool) :
  stable k1 -> stable k2 ->
  exists k1' k2' b1 b2,
    TestCollectData.kalman_row 0 [v1; v2] [k1; k2] acc
      = inr ([k1'; k2'], acc ++ [b1; b2]) /\
    stable k1' /\ stable k2'.
Proof.
  intros H1 H2.
  destruct (stable_cycle k1 v1 H1) as (k1' & E1 & H1').
  destruct (stable_cycle k2 v2 H2) as (k2' & E2 & H2').
  exists k1', k2'. eexists _, _.
  cbn [TestCollectData.kalman_row lookup list_lookup]. rewrite E1.
  cbn [TestCollectData.features lookup list_lookup list_insert insert
         TestCollectData.kalman_row].
  rewrite E2. cbn [lookup list_lookup list_insert insert TestCollectData.kalman_row].
  rewrite <- app_assoc. simpl. split; [reflexivity|]. auto.
Qed.

Lemma offline_loop (iso_model : IsolationForest) (rows : list (list Q))
    (k1 k2 : KalmanFilter) (iso_preds kalman_preds : list string) :
  Forall (fun values => length values = 2%nat) rows ->
  stable k1 -> stable k2 ->
  exists iso_new kalman_new k1' k2',
    TestCollectData.run_detection iso_model rows [k1; k2] iso_preds kalman_preds
      = inr (iso_preds ++ iso_new, kalman_preds ++ kalman_new, [k1'; k2']) /\
    length iso_new = length rows /\ length kalman_new = length rows /\
    Forall (fun s => TestCollectData.valid_label s = true) iso_new /\
    Forall (fun s => TestCollectData.valid_label s = true) kalman_new /\
    stable k1' /\ stable k2'.
Proof.
  intros Hrows. revert k1 k2 iso_preds kalman_preds.
  induction Hrows as [|values rows Hlen _ IH]; intros k1 k2 iso_preds kalman_preds H1 H2.
  - exists [], [], k1, k2. simpl. rewrite !app_nil_r. auto 10.
  - destruct values as [|v1 [|v2 [|v3 values]]]; try discriminate.
    destruct (kalman_row_pair k1 k2 v1 v2 [] H1 H2) as (k1' & k2' & b1 & b2 & Er & H1' & H2').
    cbn [TestCollectData.run_detection]. rewrite Er.
    destruct (IH k1' k2'
                (iso_preds ++ [TestCollectData.label_of (iso_model [v1; v2] =? -1)%Z])
                (kalman_preds
                   ++ [TestCollectData.label_of (existsb (fun b => b) ([] ++ [b1; b2]))])
                H1' H2')
      as (iso_new & kalman_new & k1'' & k2'' & E & Li & Lk & Vi & Vk & S1 & S2).
    eexists (_ :: iso_new), (_ :: kalman_new), k1'', k2''.
    rewrite E. rewrite <- !app_assoc. simpl.
    split; [reflexivity|]. split; [lia|]. split; [lia|].
    split; [constructor; [|exact Vi]|split; [constructor; [|exact Vk]|auto]].
    + destruct (iso_model [v1; v2] =? -1)%Z; reflexivity.
    + destruct (b1 || (b2 || false)); reflexivity.
Qed.

Lemma test_filters_stable : stable TestCollectData.initialize_kalman_filter.
Proof.
  unfold stable. simpl. repeat split; try reflexivity; vm_compute; discriminate.
Qed.

(** X15. On any test set whose rows carry the two features, with any
    classifier, the detection loop of the evaluation script runs to its end
    without exception: it yields one Isolation Forest prediction and one
    Kalman prediction per row, each of them "normal" or "abnormal", and
    leaves two stable filters. *)
Theorem offline_detection_labels_every_row (iso_model : IsolationForest)
    (rows : list (list Q)) :
  Forall (fun values => length values = 2%nat) rows ->
  exists iso_preds kalman_preds kfs,
    TestCollectData.run_detection iso_model rows TestCollectData.kalman_filters [] []
      = inr (iso_preds, kalman_preds, kfs) /\
    length iso_preds = length rows /\ length kalman_preds = length rows /\
    Forall (fun s => TestCollectData.valid_label s = true) iso_preds /\
    Forall (fun s => TestCollectData.valid_label s = true) kalman_preds /\
    length kfs = 2%nat /\ Forall stable kfs.
Proof.
  intros Hrows.
  destruct (offline_loop iso_model rows TestCollectData.initialize_kalman_filter
              TestCollectData.initialize_kalman_filter [] [] Hrows
              test_filters_stable test_filters_stable)
    as (iso_new & kalman_new & k1 & k2 & E & Li & Lk & Vi & Vk & S1 & S2).
  exists iso_new, kalman_new, [k1; k2].
  split; [exact E|]. split; [exact Li|]. split; [exact Lk|].
  split; [exact Vi|]. split; [exact Vk|]. split; [reflexivity|].
  constructor; [exact S1|]. constructor; [exact S2|]. constructor.
Qed.

Lemma offline_detection_labels_every_row_witness :
  exists iso_preds kalman_preds kfs,
    TestCollectData.run_detection always_outlier [[0.01; 0.01]; [0.5; 0.2]]
      TestCollectData.kalman_filters [] []
      = inr (iso_preds, kalman_preds, kfs) /\
    length iso_preds = 2%nat /\ length kalman_preds = 2%nat.
Proof.
  destruct (offline_detection_labels_every_row always_outlier [[0.01; 0.01]; [0.5; 0.2]])
    as (iso_preds & kalman_preds & kfs & E & Li & Lk & _).
  - repeat constructor.
  - exists iso_preds, kalman_preds, kfs. auto.
Defined.

Lemma count_pairs_swap (a b : string) (truth pred : list string) :
  TestCollectData.count_pairs a b truth pred = TestCollectData.count_pairs b a pred truth.
Proof.
  revert pred. induction truth as [|t truth IH]; intros [|p pred]; simpl; try reflexivity.
  rewrite IH, andb_comm. reflexivity.
Qed.

(** X16. Exchanging the roles of the true labels and the predictions in
    [evaluate] keeps TP, TN and the accuracy, exchanges FP with FN and
    precision with recall. *)
Theorem evaluate_swapped (truth pred : list string) :
  TestCollectData.TP pred truth = TestCollectData.TP truth pred /\
  TestCollectData.TN pred truth = TestCollectData.TN truth pred /\
  TestCollectData.FP pred truth = TestCollectData.FN truth pred /\
  TestCollectData.FN pred truth = TestCollectData.FP truth pred /\
  TestCollectData.accuracy pred truth = TestCollectData.accuracy truth pred /\
  TestCollectData.precision pred truth = TestCollectData.recall truth pred /\
  TestCollectData.recall pred truth = TestCollectData.precision truth pred.
Proof.
  unfold TestCollectData.accuracy, TestCollectData.precision, TestCollectData.recall,
    TestCollectData.total, TestCollectData.TP, TestCollectData.TN,
    TestCollectData.FP, TestCollectData.FN.
  rewrite (count_pairs_swap "abnormal" "abnormal" pred truth).
  rewrite (count_pairs_swap "normal" "normal" pred truth).
  rewrite (count_pairs_swap "normal" "abnormal" pred truth).
  rewrite (count_pairs_swap "abnormal" "normal" pred truth).
  repeat split; try reflexivity. f_equal. lia.
Qed.

Lemma count_pairs_le (a b : string) (truth pred : list string) :
  (TestCollectData.count_pairs a b truth pred <= Nat.min (length truth) (length pred))%nat.
Proof.
  revert pred. induction truth as [|t truth IH]; intros [|p pred]; simpl; try lia.
  specialize (IH pred). destruct (String.eqb t a && String.eqb p b); lia.
Qed.

Lemma total_valid (truth pred : list string) :
  Forall (fun s => TestCollectData.valid_label s = true) truth ->
  Forall (fun s => TestCollectData.valid_label s = true) pred ->
  TestCollectData.total truth pred = Nat.min (length truth) (length pred).
Proof.
  intros Ht. revert pred. induction Ht as [|t truth Hv _ IH]; intros pred Hp.
  - reflexivity.
  - destruct Hp as [|p pred Hvp Hp]; [reflexivity|].
    specialize (IH pred Hp).
    unfold TestCollectData.total, TestCollectData.TP, TestCollectData.TN,
      TestCollectData.FP, TestCollectData.FN in *.
    cbn [TestCollectData.count_pairs length Nat.min].
    unfold TestCollectData.valid_label in Hv, Hvp.
    apply orb_true_iff in Hv. apply orb_true_iff in Hvp.
    destruct Hv as [Hv|Hv]; destruct Hvp as [Hvp|Hvp];
      apply String.eqb_eq in Hv; apply String.eqb_eq in Hvp; subst t p;
      simpl; lia.
Qed.

Lemma total_le (truth pred : list string) :
  (TestCollectData.total truth pred <= Nat.min (length truth) (length pred))%nat.
Proof.
  revert pred. induction truth as [|t truth IH]; intros [|p pred];
    try (cbn; lia).
  specialize (IH pred).
  unfold TestCollectData.total, TestCollectData.TP, TestCollectData.TN,
    TestCollectData.FP, TestCollectData.FN in *.
  cbn [TestCollectData.count_pairs length Nat.min].
  destruct (String.eqb t "abnormal") eqn:Eta; destruct (String.eqb t "normal") eqn:Etn;
    destruct (String.eqb p "abnormal") eqn:Epa; destruct (String.eqb p "normal") eqn:Epn;
    try (apply String.eqb_eq in Eta; apply String.eqb_eq in Etn; congruence);
    try (apply String.eqb_eq in Epa; apply String.eqb_eq in Epn; congruence);
    simpl; lia.
Qed.

(** X17. The four counts of [evaluate] never count a pair twice: their sum
    is at most the number of (true label, prediction) pairs, and it is that
    number when every label is "normal" or "abnormal"; a pair with any
    other label is counted nowhere. *)
Theorem evaluate_counts_partition (truth pred : list string) :
  (TestCollectData.total truth pred <= Nat.min (length truth) (length pred))%nat /\
  (Forall (fun s => TestCollectData.valid_label s = true) truth ->
   Forall (fun s => TestCollectData.valid_label s = true) pred ->
   TestCollectData.total truth pred = Nat.min (length truth) (length pred)).
Proof.
  split; [apply total_le|apply total_valid].
Qed.

Lemma evaluate_counts_partition_witness :
  TestCollectData.total ["normal"%string; "abnormal"%string]
    ["abnormal"%string; "abnormal"%string] = 2%nat.
Proof.
  apply (proj2 (evaluate_counts_partition ["normal"%string; "abnormal"%string]
                  ["abnormal"%string; "abnormal"%string])).
  - repeat constructor.
  - repeat constructor.
Defined.

Lemma ratio_bounds (a b : nat) :
  (a <= b)%nat -> 0 <= TestCollectData.ratio a b /\ TestCollectData.ratio a b <= 1.
Proof.
  intros Hab. unfold TestCollectData.ratio.
  destruct (Nat.eqb b 0) eqn:E; [split; lra|].
  apply Nat.eqb_neq in E.
  assert (Hb : 0 < inject_Z (Z.of_nat b)).
  { change 0 with (inject_Z 0). rewrite <- Zlt_Qlt. lia. }
  assert (Ha : 0 <= inject_Z (Z.of_nat a)) by apply inject_nat_nonneg.
  assert (Hle : inject_Z (Z.of_nat a) <= inject_Z (Z.of_nat b)).
  { rewrite <- Zle_Qle. lia. }
  split.
  - apply Qle_shift_div_l; lra.
  - apply Qle_shift_div_r; lra.
Qed.

Lemma ratio_one (a b : nat) :
  (a <= b)%nat -> (TestCollectData.ratio a b == 1 <-> (0 < b)%nat /\ a = b).
Proof.
  intros Hab. unfold TestCollectData.ratio.
  destruct (Nat.eqb b 0) eqn:E.
  - apply Nat.eqb_eq in E. split; [intros H; discriminate H|lia].
  - apply Nat.eqb_neq in E.
    assert (Hb : 0 < inject_Z (Z.of_nat b)).
    { change 0 with (inject_Z 0). rewrite <- Zlt_Qlt. lia. }
    split.
    + intros H. split; [lia|].
      assert (H' : inject_Z (Z.of_nat a) == inject_Z (Z.of_nat b)).
      { assert (E1 : inject_Z (Z.of_nat a)
                     == inject_Z (Z.of_nat a) / inject_Z (Z.of_nat b)
                        * inject_Z (Z.of_nat b)) by (field; lra).
        rewrite E1, H. ring. }
      apply (proj1 (inject_Z_injective _ _)) in H'. lia.
    + intros [_ ->]. field. lra.
Qed.

(** X18. The metrics of [evaluate], before they are rounded, lie between 0
    and 1 and are 0 where the source guards the division (no pair counted,
    nothing predicted abnormal, nothing truly abnormal); the accuracy is 1
    exactly when at least one pair is counted and none is a false positive
    or a false negative. *)
Theorem evaluate_metrics_in_unit_interval (truth pred : list string) :
  (0 <= TestCollectData.accuracy truth pred /\ TestCollectData.accuracy truth pred <= 1) /\
  (0 <= TestCollectData.precision truth pred /\ TestCollectData.precision truth pred <= 1) /\
  (0 <= TestCollectData.recall truth pred /\ TestCollectData.recall truth pred <= 1) /\
  (TestCollectData.total truth pred = 0%nat -> TestCollectData.accuracy truth pred = 0) /\
  (TestCollectData.accuracy truth pred == 1 <->
   (0 < TestCollectData.total truth pred)%nat /\
   TestCollectData.FP truth pred = 0%nat /\ TestCollectData.FN truth pred = 0%nat).
Proof.
  unfold TestCollectData.accuracy, TestCollectData.precision, TestCollectData.recall.
  split; [apply ratio_bounds; unfold TestCollectData.total; lia|].
  split; [apply ratio_bounds; lia|].
  split; [apply ratio_bounds; lia|].
  split.
  - intros H. rewrite H. reflexivity.
  - rewrite ratio_one by (unfold TestCollectData.total; lia).
    unfold TestCollectData.total. lia.
Qed.

Lemma evaluate_metrics_in_unit_interval_witness :
  TestCollectData.accuracy [] [] = 0.
Proof.
  apply (evaluate_metrics_in_unit_interval [] []). reflexivity.
Defined.

(** ** The light sensor *)

(** X19. [convertToNumber] reads the first two bytes only: on two bytes
    followed by anything it returns the 16-bit word d0 d1 divided by 1.2, a
    value between 0 and 54612.5 lux, and two byte pairs that convert to the
    same value are the same pair. *)
Theorem convertToNumber_decodes_word (d0 d1 : Z) (rest : list Z) :
  LightSensor.is_byte d0 -> LightSensor.is_byte d1 ->
  exists lux,
    LightSensor.convertToNumber (d0 :: d1 :: rest) = inr lux /\
    lux * 1.2 == inject_Z (d1 + 256 * d0) /\
    0 <= lux /\ lux <= 54612.5 /\
    forall (e0 e1 : Z) (rest' : list Z) (lux' : Q),
      LightSensor.is_byte e0 -> LightSensor.is_byte e1 ->
      LightSensor.convertToNumber (e0 :: e1 :: rest') = inr lux' ->
      lux' == lux -> e0 = d0 /\ e1 = d1.
Proof.
  unfold LightSensor.is_byte. intros H0 H1.
  eexists. split; [reflexivity|].
  assert (Hw : (0 <= d1 + 256 * d0 <= 65535)%Z) by lia.
  assert (Hq0 : 0 <= inject_Z (d1 + 256 * d0)).
  { change 0 with (inject_Z 0). rewrite <- Zle_Qle. lia. }
  assert (Hq1 : inject_Z (d1 + 256 * d0) <= 65535).
  { change 65535 with (inject_Z 65535). rewrite <- Zle_Qle. lia. }
  split; [field|]. split; [apply Qle_shift_div_l; lra|].
  split; [apply Qle_shift_div_r; lra|].
  intros e0 e1 rest' lux' He0 He1 E Heq.
  cbn in E. inversion E; subst lux'. clear E.
  assert (Hz : inject_Z (e1 + 256 * e0) == inject_Z (d1 + 256 * d0)).
  { assert (E1 : inject_Z (e1 + 256 * e0) == inject_Z (e1 + 256 * e0) / 1.2 * 1.2)
      by field.
    assert (E2 : inject_Z (d1 + 256 * d0) == inject_Z (d1 + 256 * d0) / 1.2 * 1.2)
      by field.
    rewrite E1, E2, Heq. reflexivity. }
  apply (proj1 (inject_Z_injective _ _)) in Hz. lia.
Qed.

Lemma convertToNumber_decodes_word_witness :
  exists lux, LightSensor.convertToNumber [1; 44; 0]%Z = inr lux /\ lux * 1.2 == 300.
Proof.
  destruct (convertToNumber_decodes_word 1 44 [0%Z]) as (lux & E & Hw & _).
  - unfold LightSensor.is_byte. lia.
  - unfold LightSensor.is_byte. lia.
  - exists lux. split; [exact E|exact Hw].
Defined.

(** X20. [convertToNumber] raises IndexError exactly on data shorter than
    two bytes. *)
Theorem convertToNumber_short_data (data : list Z) :
  LightSensor.convertToNumber data = inl IndexError <-> (length data < 2)%nat.
Proof.
  destruct data as [|d0 [|d1 rest]]; cbn; split; intros H;
    try reflexivity; try lia; discriminate.
Qed.

(** ** The movement primitives of the robot *)

(** X21. A failing ultrasonic read counts as 999 cm, so it never reports
    an obstacle for a threshold of at most 999 cm, the two thresholds of
    the script (19 cm, and 19 + 15 cm while avoiding) included; a read that
    succeeds reports an obstacle exactly when the distance is below the
    threshold. *)
Theorem failed_read_reports_no_obstacle :
  (forall threshold_cm, threshold_cm <= 999 ->
     Move.is_obstacle_detected None threshold_cm = false) /\
  Move.is_obstacle_detected None Move.OBSTACLE_THRESHOLD = false /\
  Move.is_obstacle_detected None (Move.OBSTACLE_THRESHOLD + Move.ROBOT_WIDTH_CM) = false /\
  (forall distance threshold_cm,
     Move.is_obstacle_detected (Some distance) threshold_cm = true
     <-> distance < threshold_cm).
Proof.
  split; [|split; [reflexivity|split; [reflexivity|]]].
  - intros t Ht. unfold Move.is_obstacle_detected. apply Qltb_ge. exact Ht.
  - intros d t. unfold Move.is_obstacle_detected. apply Qltb_lt.
Qed.

Lemma failed_read_reports_no_obstacle_witness :
  Move.is_obstacle_detected None 500 = false.
Proof.
  apply (proj1 failed_read_reports_no_obstacle 500). vm_compute. discriminate.
Defined.

Lemma drive_nonneg (speed heading yaw duration : Q) :
  0 <= duration ->
  Move.drive speed heading yaw duration
  = ([Move.SetVelocity speed heading yaw; Move.Sleep duration; Move.Stop], Move.Returned).
Proof.
  intros H. unfold Move.drive, Move.sleep.
  apply Qltb_ge in H. rewrite H. reflexivity.
Qed.

Lemma drive_negative (speed heading yaw duration : Q) :
  duration < 0 ->
  Move.drive speed heading yaw duration
  = ([Move.SetVelocity speed heading yaw], Move.ValueError).
Proof.
  intros H. unfold Move.drive, Move.sleep.
  apply Qltb_lt in H. rewrite H. reflexivity.
Qed.

Lemma duration_sign (cm : Q) :
  (0 <= cm -> 0 <= cm / Move.REAL_SPEED) /\ (cm < 0 -> cm / Move.REAL_SPEED < 0).
Proof.
  unfold Move.REAL_SPEED. split; intros H.
  - apply Qle_shift_div_l; lra.
  - apply Qlt_shift_div_r; lra.
Qed.

(** X22. For a distance that is not negative, each of move_forward,
    move_right and move_left returns after sleeping cm / 25 seconds and
    leaves the chassis stopped; they differ in the heading only (90, 0,
    180). For a negative distance each of them has set the chassis in
    motion when time.sleep raises, and never stops it. *)
Theorem moves_stop_unless_distance_negative (cm : Q) (moving : bool) :
  (0 <= cm ->
   Move.move_forward cm
     = ([Move.SetVelocity 50 90 0; Move.Sleep (cm / 25); Move.Stop], Move.Returned) /\
   Move.move_right cm
     = ([Move.SetVelocity 50 0 0; Move.Sleep (cm / 25); Move.Stop], Move.Returned) /\
   Move.move_left cm
     = ([Move.SetVelocity 50 180 0; Move.Sleep (cm / 25); Move.Stop], Move.Returned) /\
   Move.in_motion moving (fst (Move.move_forward cm)) = false /\
   Move.in_motion moving (fst (Move.move_right cm)) = false /\
   Move.in_motion moving (fst (Move.move_left cm)) = false /\
   Move.slept (fst (Move.move_forward cm)) == cm / 25) /\
  (cm < 0 ->
   snd (Move.move_forward cm) = Move.ValueError /\
   snd (Move.move_right cm) = Move.ValueError /\
   snd (Move.move_left cm) = Move.ValueError /\
   Move.in_motion moving (fst (Move.move_forward cm)) = true /\
   Move.in_motion moving (fst (Move.move_right cm)) = true /\
   Move.in_motion moving (fst (Move.move_left cm)) = true).
Proof.
  destruct (duration_sign cm) as [Hpos Hneg]. split; intros H.
  - specialize (Hpos H).
    unfold Move.move_forward, Move.move_right, Move.move_left.
    rewrite !drive_nonneg by exact Hpos. cbn [fst].
    repeat split; try reflexivity. simpl. unfold Move.REAL_SPEED. ring.
  - specialize (Hneg H).
    unfold Move.move_forward, Move.move_right, Move.move_left.
    rewrite !drive_negative by exact Hneg. cbn [fst snd].
    repeat split; reflexivity.
Qed.

Lemma moves_stop_unless_distance_negative_witness :
  Move.in_motion false (fst (Move.move_forward (-5))) = true.
Proof.
  apply (proj2 (moves_stop_unless_distance_negative (-5) false)).
  reflexivity.
Defined.

(** X23. rotate_90 makes no call on the chassis for a direction other
    than "right" and "left"; for these two it turns in place at 90 and at
    -90 degrees per second for the same 0.57 seconds and leaves the
    chassis stopped. *)
Theorem rotate_90_directions (direction : string) (moving : bool) :
  (direction <> "right"%string -> direction <> "left"%string ->
   Move.rotate_90 direction = ([], Move.Returned)) /\
  (exists d,
     d == 0.57 /\
     Move.rotate_90 "right"
       = ([Move.SetVelocity 0 0 90; Move.Sleep d; Move.Stop], Move.Returned) /\
     Move.rotate_90 "left"
       = ([Move.SetVelocity 0 0 (-90); Move.Sleep d; Move.Stop], Move.Returned)) /\
  Move.in_motion moving (fst (Move.rotate_90 direction)) = 
    (if String.eqb direction "right" || String.eqb direction "left" then false else moving).
Proof.
  split; [|split].
  - intros Hr Hl. unfold Move.rotate_90.
    apply String.eqb_neq in Hr. apply String.eqb_neq in Hl. rewrite Hr, Hl. reflexivity.
  - eexists. split; [|split; vm_compute; reflexivity]. vm_compute. reflexivity.
  - unfold Move.rotate_90.
    destruct (String.eqb direction "right"); [reflexivity|].
    destruct (String.eqb direction "left"); reflexivity.
Qed.

Lemma rotate_90_directions_witness :
  Move.rotate_90 "around" = ([], Move.Returned).
Proof.
  apply (proj1 (rotate_90_directions "around" false)); discriminate.
Defined.
